(** * YBT check-in scripts: the cache variant of [ybt_sign.js] and [sendNotify.js]

    A shallow embedding of the day cache, the retry loop, the outcome
    classification and the report of [ybt_sign.js] (cache variant), and of
    the notification fan-out of [scripts/YBT/sendNotify.js], followed by the
    properties the specification states about them. *)

From stdpp Require Import gmap list fin_maps.
From Stdlib Require Import ZArith String Ascii Decimal.
From Equations Require Import Equations.

Set Default Proof Using "Type".
#[local] Set Warnings "-register-all".
Local Open Scope N_scope.
Local Open Scope nat_scope.

(** ** JavaScript values *)

Module JS.

(** A JavaScript string is a sequence of UTF-16 code units: [length],
    [substring], [split] and [trim] all count and cut in code units. *)
Abbreviation jsstring := (list N).

(** ASCII literals of the source are written with [str]. *)
Definition str (s : string) : jsstring :=
  (fun a => N_of_ascii a) <$> list_ascii_of_string s.

Fixpoint uint_units (d : Decimal.uint) : jsstring :=
  match d with
  | Nil => []
  | D0 d => 48%N :: uint_units d
  | D1 d => 49%N :: uint_units d
  | D2 d => 50%N :: uint_units d
  | D3 d => 51%N :: uint_units d
  | D4 d => 52%N :: uint_units d
  | D5 d => 53%N :: uint_units d
  | D6 d => 54%N :: uint_units d
  | D7 d => 55%N :: uint_units d
  | D8 d => 56%N :: uint_units d
  | D9 d => 57%N :: uint_units d
  end.

(** [`${n}`] for a count or an index: its decimal digits. *)
Definition show_nat (n : nat) : jsstring := uint_units (Nat.to_uint n).
Definition show_N (n : N) : jsstring := uint_units (N.to_uint n).

(** The numbers of a JSON document: the doubles [JSON.parse] yields, which
    are the finite ones and, for a literal beyond their range such as
    [1e999], an infinity, never [NaN]. The scripts never compute with them:
    they test them with [typeof], test their truth value in [x || 0], print
    them in template literals and write them with [JSON.stringify].
    [num_zero] is the literal [0]. A number that is falsy is a zero, which
    prints and is written like [0]. [num_written n] is the number read back
    from what [JSON.stringify] writes for [n], [None] when it writes [null],
    which it does for an infinity; a finite number is read back as it was,
    but for the sign of a zero. *)
Class JSNumber (num : Type) := {
  num_zero : num;
  num_truthy : num -> bool;
  num_show : num -> jsstring;
  num_written : num -> option num;
  num_zero_falsy : num_truthy num_zero = false;
  num_falsy_show : forall n, num_truthy n = false -> num_show n = num_show num_zero;
  num_falsy_written : forall n, num_truthy n = false -> num_written n = Some num_zero;
  num_written_truthy : forall n n', num_written n = Some n' -> num_truthy n' = num_truthy n;
  num_written_show : forall n n', num_written n = Some n' -> num_show n' = num_show n
}.

Definition show_Z (z : Z) : jsstring :=
  match Z.to_int z with
  | Decimal.Pos d => uint_units d
  | Decimal.Neg d => 45%N :: uint_units d
  end.

(** The integers as numbers: all finite, with one zero. *)
#[export] Instance Z_JSNumber : JSNumber Z.
Proof.
  refine {| num_zero := 0%Z;
            num_truthy := fun z => negb (Z.eqb z 0);
            num_show := show_Z;
            num_written := Some;
            num_zero_falsy := eq_refl;
            num_falsy_show := _;
            num_falsy_written := _;
            num_written_truthy := _;
            num_written_show := _ |}.
  - intros n Hn. apply negb_false_iff, Z.eqb_eq in Hn. by subst.
  - intros n Hn. apply negb_false_iff, Z.eqb_eq in Hn. by subst.
  - by intros n n' [= <-].
  - by intros n n' [= <-].
Defined.

(** The integers with an infinity, the number read from a literal such as
    [1e999]: it is truthy, prints as ['Infinity'] and is written as
    [null]. *)
Inductive number := Finite (z : Z) | Infinity.

#[export] Instance number_JSNumber : JSNumber number.
Proof.
  refine {| num_zero := Finite 0;
            num_truthy := fun n => match n with
                                   | Finite z => negb (Z.eqb z 0)
                                   | Infinity => true
                                   end;
            num_show := fun n => match n with
                                 | Finite z => show_Z z
                                 | Infinity => str "Infinity"
                                 end;
            num_written := fun n => match n with
                                    | Finite z => Some (Finite z)
                                    | Infinity => None
                                    end;
            num_zero_falsy := eq_refl;
            num_falsy_show := _;
            num_falsy_written := _;
            num_written_truthy := _;
            num_written_show := _ |}.
  - intros [z|] Hn; [|done]. apply negb_false_iff, Z.eqb_eq in Hn. by subst.
  - intros [z|] Hn; [|done]. apply negb_false_iff, Z.eqb_eq in Hn. by subst.
  - by intros [z|] n' [= <-].
  - by intros [z|] n' [= <-].
Defined.

(** A parsed JSON document. An object is the finite map of its own data
    properties, and its prototype is [Object.prototype]: [JSON.parse] defines
    every key, [__proto__] and [toString] too, as an own property. The
    objects the scripts build themselves, whose prototype an assignment to
    [__proto__] can replace, are modelled where they are built. *)
Inductive json {num : Type} : Type :=
  | JNull
  | JBool (b : bool)
  | JNum (n : num)
  | JStr (s : jsstring)
  | JArr (l : list json)
  | JObj (m : gmap jsstring json).
Arguments json : clear implicits.

Section values.
Context {num : Type} `{!JSNumber num}.

(** ToBoolean. *)
Definition truthy (v : json num) : bool :=
  match v with
  | JNull => false
  | JBool b => b
  | JNum n => num_truthy n
  | JStr s => negb (bool_decide (s = []))
  | JArr _ | JObj _ => true
  end.

(** A property read [v.k]; [None] is [undefined]. Only called with the
    data property names of the API, of the cache and of the weekly
    configuration ([data], [message], [date], [sign_status], [sign_count],
    [get_traffic], [total_traffic], [settings], [notifications], [enabled],
    [fallback_message], [title], [content], [title_prefix]), which no
    prototype defines, so that an object has them as own properties or not
    at all, and no array, string, number or boolean has them. *)
Definition get (v : json num) (k : jsstring) : option (json num) :=
  match v with
  | JObj m => m !! k
  | _ => None
  end.

(** [o && o.k] when the result is only tested or read further: [undefined]
    unless [o] is truthy. *)
Definition and_get (o : option (json num)) (k : jsstring) : option (json num) :=
  match o with
  | Some v => if truthy v then get v k else None
  | None => None
  end.

Definition truthy_opt (o : option (json num)) : bool :=
  match o with Some v => truthy v | None => false end.

(** [x || d]. *)
Definition or_default (x : option (json num)) (d : json num) : json num :=
  match x with
  | Some v => if truthy v then v else d
  | None => d
  end.

(** [typeof x === 'number']. *)
Definition is_number (x : option (json num)) : bool :=
  match x with Some (JNum _) => true | _ => false end.

(** [x === true]. *)
Definition is_true (x : option (json num)) : bool :=
  match x with Some (JBool true) => true | _ => false end.

(** [x === s] for a string [s]. *)
Definition is_string (x : option (json num)) (s : jsstring) : bool :=
  match x with Some (JStr t) => bool_decide (t = s) | _ => false end.

(** [Array.prototype.join(',')] over already converted elements. *)
Fixpoint join_comma (l : list jsstring) : jsstring :=
  match l with
  | [] => []
  | [s] => s
  | s :: rest => s ++ 44%N :: join_comma rest
  end.

(** ToString, as a template literal applies it; [None] when it throws a
    TypeError. An object is printed by the method [toString] it has: the one
    of [Object.prototype], which gives ['[object Object]'], unless the object
    has an own property [toString]. An own property of a parsed document is
    no function, so that neither it nor [valueOf] yields a primitive value,
    and the conversion throws. An array joins its elements, printing [null]
    as the empty string, and throws when the conversion of an element
    throws. *)
Fixpoint to_string (v : json num) : option jsstring :=
  match v with
  | JNull => Some (str "null")
  | JBool true => Some (str "true")
  | JBool false => Some (str "false")
  | JNum n => Some (num_show n)
  | JStr s => Some s
  | JArr l =>
      join_comma
        <$> mapM (fun v => match v with JNull => Some [] | _ => to_string v end) l
  | JObj m => if decide (is_Some (m !! str "toString")) then None
              else Some (str "[object Object]")
  end.

(** [JSON.parse(JSON.stringify(v))]: what is read back from the text
    written for [v]. A number that is not finite is written as [null]; own
    properties are written under their keys, [__proto__] too. *)
Fixpoint written (v : json num) : json num :=
  match v with
  | JNull => JNull
  | JBool b => JBool b
  | JNum n => match num_written n with Some n' => JNum n' | None => JNull end
  | JStr s => JStr s
  | JArr l => JArr (written <$> l)
  | JObj m => JObj (written <$> m)
  end.

(** [Object.keys(v)] paired with the values [v[key]]: [None] when
    [Object.keys] throws a TypeError ([null]). A string has its indices as
    keys and its one-unit substrings as values, an array its indices and
    its elements. *)
Definition indexed {A} (f : A -> json num) (l : list A) : gmap jsstring (json num) :=
  list_to_map (imap (fun i x => (show_nat i, f x)) l).

Definition own_properties (v : json num) : option (gmap jsstring (json num)) :=
  match v with
  | JNull => None
  | JBool _ | JNum _ => Some ∅
  | JStr s => Some (indexed (fun c => JStr [c]) s)
  | JArr l => Some (indexed id l)
  | JObj m => Some m
  end.
End values.

(** *** String operations *)

Fixpoint starts_with (p s : jsstring) : bool :=
  match p, s with
  | [], _ => true
  | a :: p, b :: s => bool_decide (a = b) && starts_with p s
  | _ :: _, [] => false
  end.

(** [hay.includes(needle)]. *)
Fixpoint includes (hay needle : jsstring) : bool :=
  starts_with needle hay ||
  match hay with
  | [] => false
  | _ :: rest => includes rest needle
  end.

(** [s.split(/[...]/)] for a character class given as a predicate. *)
Fixpoint split_on (sep : N -> bool) (s : jsstring) : list jsstring :=
  match s with
  | [] => [[]]
  | c :: s =>
      if sep c then [] :: split_on sep s
      else match split_on sep s with
           | [] => [[c]]
           | w :: ws => (c :: w) :: ws
           end
  end.

(** WhiteSpace and LineTerminator of ECMAScript, the units [trim] strips. *)
Definition is_space (c : N) : bool :=
  bool_decide (c ∈ [9; 10; 11; 12; 13; 32; 160; 5760; 8232; 8233; 8239; 8287;
                    12288; 65279]%N)
  || ((8192 <=? c)%N && (c <=? 8202)%N).

Fixpoint trim_start (s : jsstring) : jsstring :=
  match s with
  | c :: rest => if is_space c then trim_start rest else s
  | [] => []
  end.

Definition trim (s : jsstring) : jsstring :=
  reverse (trim_start (reverse (trim_start s))).

(** [s.length]. *)
Definition js_length (s : jsstring) : N := N.of_nat (List.length s).

(** [s.substring(0, n)]. *)
Definition substring0 (n : N) (s : jsstring) : jsstring := take (N.to_nat n) s.

(** [s.replace(/\n/g, r)]. *)
Definition replace_newlines (r : jsstring) (s : jsstring) : jsstring :=
  s ≫= (fun c => if bool_decide (c = 10%N) then r else [c]).

End JS.
(** ** [ybt_sign.js], cache variant *)

Module YbtSign.
Import JS.

(** *** Literals of the script, in UTF-16 code units *)

(** ['签到成功'] *)
Definition sign_ok : jsstring := [31614; 21040; 25104; 21151]%N.

(** ['今日已签到'] *)
Definition already_signed : jsstring := [20170; 26085; 24050; 31614; 21040]%N.

(** ['用户不存在'] *)
Definition no_such_user : jsstring := [29992; 25143; 19981; 23384; 22312]%N.

(** ['请检查用户名是否正确'] *)
Definition check_username : jsstring :=
  [35831; 26816; 26597; 29992; 25143; 21517; 26159; 21542; 27491; 30830]%N.

(** ['签到失败'] *)
Definition sign_failed : jsstring := [31614; 21040; 22833; 36133]%N.

(** ['签到失败: '] *)
Definition sign_failed_colon : jsstring :=
  [31614; 21040; 22833; 36133; 58; 32]%N.

(** ['错误代码: '] *)
Definition error_code_colon : jsstring :=
  [38169; 35823; 20195; 30721; 58; 32]%N.

(** ['累计签到: '] *)
Definition total_days : jsstring := [32047; 35745; 31614; 21040; 58; 32]%N.

(** [' 天\n'] *)
Definition days_nl : jsstring := [32; 22825; 10]%N.

(** ['获得流量: '] *)
Definition got_traffic : jsstring := [33719; 24471; 27969; 37327; 58; 32]%N.

(** [' MB\n'] *)
Definition mb_nl : jsstring := [32; 77; 66; 10]%N.

(** ['总流量: '] *)
Definition total_traffic_colon : jsstring := [24635; 27969; 37327; 58; 32]%N.

(** [' MB'] *)
Definition mb : jsstring := [32; 77; 66]%N.

(** ['(流量信息需首次签到获取)'] *)
Definition traffic_needs_first_sign : jsstring :=
  [40; 27969; 37327; 20449; 24687; 38656; 39318; 27425; 31614; 21040;
   33719; 21462; 41]%N.

(** ['HTTP状态: '] *)
Definition http_status_colon : jsstring :=
  [72; 84; 84; 80; 29366; 24577; 58; 32]%N.

(** [', 响应: '] *)
Definition comma_response_colon : jsstring :=
  [44; 32; 21709; 24212; 58; 32]%N.

(** ['🎯 YBT 自动签到报告\n'] *)
Definition report_title_line : jsstring :=
  [55356; 57263; 32; 89; 66; 84; 32; 33258; 21160; 31614; 21040; 25253;
   21578; 10]%N.

(** ['📊 执行概览:\n'] *)
Definition overview_line : jsstring :=
  [55357; 56522; 32; 25191; 34892; 27010; 35272; 58; 10]%N.

(** ['• 总账号数: '] *)
Definition total_accounts : jsstring :=
  [8226; 32; 24635; 36134; 21495; 25968; 58; 32]%N.

(** [' 个\n'] *)
Definition count_nl : jsstring := [32; 20010; 10]%N.

(** ['• 签到成功: '] *)
Definition signed_accounts : jsstring :=
  [8226; 32; 31614; 21040; 25104; 21151; 58; 32]%N.

(** ['• 首次签到: '] *)
Definition first_sign_accounts : jsstring :=
  [8226; 32; 39318; 27425; 31614; 21040; 58; 32]%N.

(** [' 个 🆕\n'] *)
Definition count_new_nl : jsstring := [32; 20010; 32; 55356; 56725; 10]%N.

(** ['• 缓存数据: '] *)
Definition cached_accounts : jsstring :=
  [8226; 32; 32531; 23384; 25968; 25454; 58; 32]%N.

(** [' 个 💾\n'] *)
Definition count_disk_nl : jsstring := [32; 20010; 32; 55357; 56510; 10]%N.

(** ['• 签到失败: '] *)
Definition failed_accounts : jsstring :=
  [8226; 32; 31614; 21040; 22833; 36133; 58; 32]%N.

(** ['📋 详细结果:\n'] *)
Definition details_line : jsstring :=
  [55357; 56523; 32; 35814; 32454; 32467; 26524; 58; 10]%N.

(** ['✅'] *)
Definition icon_ok : jsstring := [9989]%N.

(** ['❌'] *)
Definition icon_fail : jsstring := [10060]%N.

(** [' 💾'] *)
Definition icon_cache : jsstring := [32; 55357; 56510]%N.

(** [' 🆕'] *)
Definition icon_new : jsstring := [32; 55356; 56725]%N.

(** ['   状态: '] *)
Definition status_prefix : jsstring := [32; 32; 32; 29366; 24577; 58; 32]%N.

(** ['累计签到:'] *)
Definition key_total_days : jsstring := [32047; 35745; 31614; 21040; 58]%N.

(** ['获得流量:'] *)
Definition key_got_traffic : jsstring := [33719; 24471; 27969; 37327; 58]%N.

(** ['总流量:'] *)
Definition key_total_traffic : jsstring := [24635; 27969; 37327; 58]%N.

(** ['流量信息需首次签到获取'] *)
Definition key_needs_first_sign : jsstring :=
  [27969; 37327; 20449; 24687; 38656; 39318; 27425; 31614; 21040; 33719;
   21462]%N.

(** ['   📅 '] *)
Definition bullet_days : jsstring := [32; 32; 32; 55357; 56517; 32]%N.

(** ['   📈 '] *)
Definition bullet_traffic : jsstring := [32; 32; 32; 55357; 56520; 32]%N.

(** ['   💾 '] *)
Definition bullet_total : jsstring := [32; 32; 32; 55357; 56510; 32]%N.

(** ['   💬 '] *)
Definition bullet_note : jsstring := [32; 32; 32; 55357; 56492; 32]%N.

(** ['   ⚠️ '] *)
Definition bullet_warn : jsstring := [32; 32; 32; 9888; 65039; 32]%N.

(** ['🕐 '] *)
Definition clock_prefix : jsstring := [55357; 56656; 32]%N.

(** ['🤖 青龙面板自动执行'] *)
Definition footer_line : jsstring :=
  [55358; 56598; 32; 38738; 40857; 38754; 26495; 33258; 21160; 25191; 34892]%N.

(** ['\n💡 💾标记表示使用缓存数据'] *)
Definition legend_cache : jsstring :=
  [10; 55357; 56481; 32; 55357; 56510; 26631; 35760; 34920; 31034; 20351;
   29992; 32531; 23384; 25968; 25454]%N.

(** ['\n💡 🆕标记表示今日首次签到'] *)
Definition legend_new : jsstring :=
  [10; 55357; 56481; 32; 55356; 56725; 26631; 35760; 34920; 31034; 20170;
   26085; 39318; 27425; 31614; 21040]%N.

(** ['处理失败'] *)
Definition process_failed : jsstring := [22788; 29702; 22833; 36133]%N.

(** ['__proto__'] *)
Definition proto_key : jsstring := str "__proto__".

(** ['YBT 签到报告'] *)
Definition notify_title : jsstring :=
  [89; 66; 84; 32; 31614; 21040; 25253; 21578]%N.

(** ['\n\n...(内容过长已截断)'] *)
Definition truncated_marker : jsstring :=
  [10; 10; 46; 46; 46; 40; 20869; 23481; 36807; 38271; 24050; 25130; 26029;
   41]%N.

(** [CONFIG]. Times are in milliseconds. *)
Definition MAX_RETRY : nat := 3.
Definition RETRY_DELAY : N := 2000.

(** The error object a rejected request is caught with. *)
Record js_error := { err_message : jsstring; err_code : option jsstring }.

(** The [dataSource] of an outcome: ['api'], ['cache'], ['api_limited'] or
    ['error']. *)
Inductive data_source := Api | Cache | ApiLimited | Error.

#[export] Instance data_source_eq_dec : EqDecision data_source.
Proof. solve_decision. Defined.

(** What the script leaves behind, in order. Console logging is left out. *)
Inductive event :=
  | Request (username : jsstring)
  | Delay (ms : N)
  | WriteCache
  | Notify (title content : jsstring).

Section cache_variant.
Context {num : Type} `{!JSNumber num}.

(** What one call of [axios] meets: a response with some status and a
    parsed body, or no response at all. *)
Inductive reply :=
  | Response (status : nat) (data : json num)
  | NoResponse (e : js_error).

(** The cache file as [readCache] sees it: absent, present but failing
    [readFileSync] or [JSON.parse], or present with a parsed content. *)
Inductive file :=
  | FileMissing
  | FileBroken
  | FileJson (v : json num).

(** What a run reads from outside and never changes: the clock (one run
    stays within one day), the environment variable, the upstream service
    (answering the n-th request of the run), the error [axios] builds for a
    status [validateStatus] refuses, [JSON.stringify] on the body of an
    answer, the message of the TypeError the engine throws when a template
    literal cannot convert an object, and whether [writeFileSync] succeeds
    on the cache file. *)
Record environment := {
  today : jsstring;
  iso_now : jsstring;
  locale_now : jsstring;
  YBT_USERS : option jsstring;
  upstream : nat -> jsstring -> reply;
  status_error : nat -> js_error;
  JSON_stringify : json num -> jsstring;
  TypeError_message : jsstring;
  cache_writable : bool
}.

Record state := { cache_file : file; sent : nat; trace : list event }.

(** The object [readCache] builds and returns, [cleanedCache] or [{}]:
    its own properties, and its prototype when an assignment to [__proto__]
    has replaced it, [None] for [Object.prototype]. The replacing prototype
    is an entry, a parsed or a literal object whose own prototype is
    [Object.prototype]. *)
Record cache_object := {
  own : gmap jsstring (json num);
  proto : option (gmap jsstring (json num))
}.

(** The result object of [performSign]: [{success: true, status, data}] or
    [{success: false, error, code}]. *)
Inductive sign_result :=
  | Answered (status : nat) (data : json num)
  | Failed (error : jsstring) (code : option jsstring).

Record outcome := {
  username : jsstring;
  success : bool;
  message : jsstring;
  details : jsstring;
  isFirstSign : bool;
  dataSource : data_source
}.

Context (E : environment).

Definition emit (e : event) (σ : state) : state :=
  {| cache_file := cache_file σ; sent := sent σ; trace := trace σ ++ [e] |}.

Definition delay (ms : N) (σ : state) : state := emit (Delay ms) σ.

Definition getTodayString : jsstring := today E.

(** [{}]. *)
Definition empty_object : cache_object := {| own := ∅; proto := None |}.

(** The own properties of the prototype, when it is not
    [Object.prototype]. *)
Definition inherited (cache : cache_object) : gmap jsstring (json num) :=
  default ∅ (proto cache).

(** [cache[k]], as far as the script uses it: it tests the value read and
    the [date] of it, and goes on with a value that is dated. An own property
    comes first, then an own property of the prototype. Past these the key
    [__proto__] reads the accessor of [Object.prototype], which gives the
    prototype. [None] stands for [undefined] and for what nothing but
    [Object.prototype] provides, itself or one of its methods: objects
    without a [date]. *)
Definition lookup (cache : cache_object) (k : jsstring) : option (json num) :=
  match own cache !! k with
  | Some v => Some v
  | None =>
      match proto cache with
      | Some entry =>
          match entry !! k with
          | Some v => Some v
          | None => if bool_decide (k = proto_key) then Some (JObj entry) else None
          end
      | None => None
      end
  end.

(** [cache[k] = entry] for an object [entry]. The key [__proto__], unless
    the object or its prototype has it as an own property, reaches the
    accessor of [Object.prototype], whose setter replaces the prototype and
    defines no property. Any other key, and [__proto__] when it is found as a
    data property, is defined or updated as an own property. *)
Definition assign (cache : cache_object) (k : jsstring)
    (entry : gmap jsstring (json num)) : cache_object :=
  if bool_decide (k = proto_key)
     && bool_decide (own cache !! k = None)
     && bool_decide (inherited cache !! k = None)
  then {| own := own cache; proto := Some entry |}
  else {| own := <[k := JObj entry]> (own cache); proto := proto cache |}.

(** [writeCache]: [JSON.stringify] writes the own properties of the
    object, and the file then holds what [JSON.parse] reads back from the
    text. A failing [writeFileSync] is caught and leaves the file as it
    was. *)
Definition writeCache (cache : cache_object) (σ : state) : state :=
  if cache_writable E
  then {| cache_file := FileJson (JObj (written <$> own cache)); sent := sent σ;
          trace := trace σ ++ [WriteCache] |}
  else σ.

(** [cache[username] && cache[username].date === today]. *)
Definition dated_today (entry : option (json num)) : bool :=
  is_string (and_get entry (str "date")) getTodayString.

(** The callback of [Object.keys(cache).forEach]: an entry dated today,
    which is an object, is assigned to [cleanedCache]. *)
Definition keep_dated (username : jsstring) (v : json num) (cleanedCache : cache_object)
    : cache_object :=
  if dated_today (Some v)
  then match v with
       | JObj entry => assign cleanedCache username entry
       | _ => cleanedCache
       end
  else cleanedCache.

(** [readCache]. The keys of an object are distinct, and the assignments
    of [keep_dated] for distinct keys commute, so that the order in which
    [Object.keys] lists them does not matter. *)
Definition readCache (σ : state) : cache_object * state :=
  match cache_file σ with
  | FileMissing => (empty_object, σ)
  | FileBroken => (empty_object, σ)
  | FileJson cache =>
      match own_properties cache with
      | None => (empty_object, σ)
      | Some entries =>
          let cleanedCache := map_fold keep_dated empty_object entries in
          if bool_decide (size (own cleanedCache) ≠ size entries)
          then (cleanedCache, writeCache cleanedCache σ)
          else (cleanedCache, σ)
      end
  end.

(** The entries of the cache file as [Object.keys] lists them; none when
    the file is missing or cannot be read. *)
Definition cached_entries (σ : state) : gmap jsstring (json num) :=
  match cache_file σ with
  | FileJson cache => default ∅ (own_properties cache)
  | _ => ∅
  end.

(** The object literal [saveToCacheIfFirstSign] assigns. *)
Definition cache_entry_fields (signData : json num) : gmap jsstring (json num) :=
  list_to_map
    [ (str "date", JStr getTodayString);
      (str "sign_count", or_default (get signData (str "sign_count")) (JNum num_zero));
      (str "get_traffic", or_default (get signData (str "get_traffic")) (JNum num_zero));
      (str "total_traffic", or_default (get signData (str "total_traffic")) (JNum num_zero));
      (str "message", or_default (get signData (str "message")) (JStr sign_ok));
      (str "timestamp", JStr (iso_now E)) ].

Definition cache_entry (signData : json num) : json num :=
  JObj (cache_entry_fields signData).

Definition saveToCacheIfFirstSign (username : jsstring) (signData : option (json num))
    (isFirstSign : bool) (σ : state) : state :=
  match signData with
  | Some signData =>
      if negb isFirstSign || negb (truthy signData) then σ
      else
        let '(cache, σ) := readCache σ in
        writeCache (assign cache username (cache_entry_fields signData)) σ
  | None => σ
  end.

Definition getFromCache (username : jsstring) (σ : state) : option (json num) * state :=
  let '(cache, σ) := readCache σ in
  if dated_today (lookup cache username) then (lookup cache username, σ) else (None, σ).

(** [/[\n&]/]. *)
Definition newline_or_amp (c : N) : bool :=
  bool_decide (c = 10%N) || bool_decide (c = 38%N).

Definition getUserList : list jsstring :=
  match YBT_USERS E with
  | None => []
  | Some [] => []
  | Some users =>
      filter (fun user : jsstring => 0 < List.length user) (trim <$> split_on newline_or_amp users)
  end.

Definition validateStatus (status : nat) : bool :=
  bool_decide (status = 200) || bool_decide (status = 400).

(** The state once one more request has gone out. *)
Definition issue (username : jsstring) (σ : state) : state :=
  {| cache_file := cache_file σ; sent := S (sent σ);
     trace := trace σ ++ [Request username] |}.

(** One [await axios({...})]: the request goes out, and the promise
    resolves with status and body or rejects with an error. *)
Definition axios (username : jsstring) (σ : state) : (nat * json num + js_error) * state :=
  match upstream E (sent σ) username with
  | Response status data =>
      if validateStatus status then (inl (status, data), issue username σ)
      else (inr (status_error E status), issue username σ)
  | NoResponse e => (inr e, issue username σ)
  end.

Definition retryable (e : js_error) : bool :=
  bool_decide (err_code e = Some (str "ECONNRESET"))
  || bool_decide (err_code e = Some (str "ETIMEDOUT"))
  || bool_decide (err_code e = Some (str "ENOTFOUND"))
  || includes (err_message e) (str "timeout").

Equations? performSign (username : jsstring) (retryCount : nat) (σ : state)
    : sign_result * state by wf (MAX_RETRY - retryCount) lt :=
  performSign username retryCount σ with axios username σ := {
    | (inl (status, data), σ1) := (Answered status data, σ1)
    | (inr error, σ1) with decide (retryCount < MAX_RETRY) := {
        | left _ :=
            if retryable error
            then performSign username (S retryCount) (delay RETRY_DELAY σ1)
            else (Failed (err_message error) (err_code error), σ1)
        | right _ := (Failed (err_message error) (err_code error), σ1) } }.
Proof. unfold MAX_RETRY in *. lia. Qed.

(** The four lines of a first-sign or cached outcome:
    [`${d.message || m}\n累计签到: ${d.sign_count || 0} 天\n获得流量:
    ${d.get_traffic || 0} MB\n总流量: ${d.total_traffic || 0} MB`]; [None]
    when a conversion throws. *)
Definition full_details (d : json num) (m : jsstring) : option jsstring :=
  message ← to_string (or_default (get d (str "message")) (JStr m));
  sign_count ← to_string (or_default (get d (str "sign_count")) (JNum num_zero));
  get_traffic ← to_string (or_default (get d (str "get_traffic")) (JNum num_zero));
  total_traffic ← to_string (or_default (get d (str "total_traffic")) (JNum num_zero));
  Some (message ++ [10%N]
        ++ total_days ++ sign_count ++ days_nl
        ++ got_traffic ++ get_traffic ++ mb_nl
        ++ total_traffic_colon ++ total_traffic ++ mb).

(** [`${d.message || '今日已签到'}\n累计签到: ${d.sign_count || 0} 天\n
    (流量信息需首次签到获取)`]. *)
Definition limited_details (d : json num) : option jsstring :=
  message ← to_string (or_default (get d (str "message")) (JStr already_signed));
  sign_count ← to_string (or_default (get d (str "sign_count")) (JNum num_zero));
  Some (message ++ [10%N]
        ++ total_days ++ sign_count ++ days_nl
        ++ traffic_needs_first_sign).

(** [result.code || 'UNKNOWN']. *)
Definition code_or_unknown (code : option jsstring) : jsstring :=
  match code with
  | Some (c :: cs) => c :: cs
  | _ => str "UNKNOWN"
  end.

(** [processSignResult]; the outcome is [None] when the template of the
    details throws, which it does after the cache has been saved or
    consulted. *)
Definition processSignResult (username : jsstring) (result : sign_result)
    (σ : state) : option outcome * state :=
  match result with
  | Failed error code =>
      (Some {| username := username; success := false;
               message := sign_failed_colon ++ error;
               details := error_code_colon ++ code_or_unknown code;
               isFirstSign := false; dataSource := Error |}, σ)
  | Answered status data =>
      let signData := and_get (Some data) (str "data") in
      if bool_decide (status = 200) && truthy_opt signData
         && is_true (and_get signData (str "sign_status"))
         && is_number (and_get signData (str "get_traffic"))
         && is_number (and_get signData (str "total_traffic"))
      then
        let σ := saveToCacheIfFirstSign username signData true σ in
        (details ← full_details (default JNull signData) sign_ok;
         Some {| username := username; success := true; message := sign_ok;
                 details := details;
                 isFirstSign := true; dataSource := Api |}, σ)
      else if truthy_opt signData && is_true (and_get signData (str "sign_status"))
      then
        let '(cachedData, σ) := getFromCache username σ in
        if truthy_opt cachedData
        then
          (details ← full_details (default JNull cachedData) already_signed;
           Some {| username := username; success := true; message := already_signed;
                   details := details;
                   isFirstSign := false; dataSource := Cache |}, σ)
        else
          (details ← limited_details (default JNull signData);
           Some {| username := username; success := true; message := already_signed;
                   details := details;
                   isFirstSign := false; dataSource := ApiLimited |}, σ)
      else if is_string (and_get (Some data) (str "message")) no_such_user
      then
        (Some {| username := username; success := false; message := no_such_user;
                 details := check_username;
                 isFirstSign := false; dataSource := Error |}, σ)
      else
        (Some {| username := username; success := false; message := sign_failed;
                 details := http_status_colon ++ show_nat status
                            ++ comma_response_colon ++ JSON_stringify E data;
                 isFirstSign := false; dataSource := Error |}, σ)
  end.

(** One line of [result.details] in the report. *)
Definition format_detail (detail : jsstring) : jsstring :=
  if includes detail key_total_days then bullet_days ++ detail ++ [10%N]
  else if includes detail key_got_traffic then bullet_traffic ++ detail ++ [10%N]
  else if includes detail key_total_traffic then bullet_total ++ detail ++ [10%N]
  else if negb (bool_decide (trim detail = []))
          && negb (includes detail key_needs_first_sign)
  then bullet_note ++ detail ++ [10%N]
  else if includes detail key_needs_first_sign then bullet_warn ++ detail ++ [10%N]
  else [].

(** The body of [results.forEach((result, index) => ...)]. *)
Definition format_result (index : nat) (result : outcome) : jsstring :=
  let status := if success result then icon_ok else icon_fail in
  let dataSourceIcon :=
    if bool_decide (dataSource result = Cache) then icon_cache
    else if isFirstSign result then icon_new else [] in
  [10%N] ++ show_nat (index + 1) ++ str ". " ++ status ++ str " "
  ++ username result ++ dataSourceIcon ++ [10%N]
  ++ status_prefix ++ message result ++ [10%N]
  ++ (if bool_decide (details result = []) then []
      else
        let lines := filter (fun line : jsstring => trim line ≠ [])
                            (split_on (fun c => bool_decide (c = 10%N)) (details result)) in
        List.concat (format_detail <$> lines)).

Definition formatNotifyMessage (results : list outcome) : jsstring :=
  let successCount := List.length (filter (fun r => success r = true) results) in
  let totalCount := List.length results in
  let failCount := totalCount - successCount in
  let firstSignCount := List.length (filter (fun r => isFirstSign r = true) results) in
  let cachedCount := List.length (filter (fun r => dataSource r = Cache) results) in
  report_title_line
  ++ replicate 30 61%N ++ [10%N; 10%N]
  ++ overview_line
  ++ total_accounts ++ show_nat totalCount ++ count_nl
  ++ signed_accounts ++ show_nat successCount ++ count_nl
  ++ (if bool_decide (0 < firstSignCount)
      then first_sign_accounts ++ show_nat firstSignCount ++ count_new_nl else [])
  ++ (if bool_decide (0 < cachedCount)
      then cached_accounts ++ show_nat cachedCount ++ count_disk_nl else [])
  ++ (if bool_decide (0 < failCount)
      then failed_accounts ++ show_nat failCount ++ count_nl else [])
  ++ [10%N]
  ++ details_line
  ++ replicate 25 45%N ++ [10%N]
  ++ List.concat (imap format_result results)
  ++ [10%N] ++ replicate 30 61%N ++ [10%N]
  ++ clock_prefix ++ locale_now E ++ [10%N]
  ++ footer_line
  ++ (if bool_decide (0 < cachedCount) then legend_cache else [])
  ++ (if bool_decide (0 < firstSignCount) then legend_new else []).

(** The outcome the [catch] of the loop of [main] records. *)
Definition caught_outcome (username : jsstring) : outcome :=
  {| username := username; success := false; message := process_failed;
     details := TypeError_message E;
     isFirstSign := false; dataSource := Error |}.

(** The loop of [main] over the accounts, one at a time, with a second
    between two accounts. [performSign] catches what its request throws;
    when [processSignResult] throws, the [catch] of the loop records a failed
    outcome for the account, and the delay, which is inside the [try], is
    skipped. *)
Fixpoint sign_all (users : list jsstring) (σ : state) : list outcome * state :=
  match users with
  | [] => ([], σ)
  | username :: rest =>
      let '(signResult, σ) := performSign username 0 σ in
      match processSignResult username signResult σ with
      | (Some processedResult, σ) =>
          let σ := match rest with [] => σ | _ => delay 1000%N σ end in
          let '(results, σ) := sign_all rest σ in
          (processedResult :: results, σ)
      | (None, σ) =>
          let '(results, σ) := sign_all rest σ in
          (caught_outcome username :: results, σ)
      end
  end.

(** What [main] hands to the notifier: the report, cut to 1400 units when
    longer than 1500. *)
Definition finalMessage (notifyMessage : jsstring) : jsstring :=
  if bool_decide (1500 < js_length notifyMessage)%N
  then substring0 1400%N notifyMessage ++ truncated_marker
  else notifyMessage.

(** [main]. The hand-over to [sendNotify] is one [Notify] event; the
    notifier itself is the module [SendNotify] below. *)
Definition main (σ : state) : state :=
  let users := getUserList in
  if bool_decide (List.length users = 0) then σ
  else
    let '(_, σ) := readCache σ in
    let '(results, σ) := sign_all users σ in
    let notifyMessage := formatNotifyMessage results in
    delay 1000%N (emit (Notify notify_title (finalMessage notifyMessage)) σ).
End cache_variant.

End YbtSign.
(** ** [scripts/YBT/sendNotify.js] *)

Module SendNotify.
Import JS.

(** *** Literals of the module, in UTF-16 code units *)

(** ['青龙面板通知'] *)
Definition default_title : jsstring :=
  [38738; 40857; 38754; 26495; 36890; 30693]%N.

(** ['\n\n...(内容过长已截断)'] *)
Definition truncated_marker : jsstring :=
  [10; 10; 46; 46; 46; 40; 20869; 23481; 36807; 38271; 24050; 25130; 26029;
   41]%N.

(** ['📢 '] *)
Definition megaphone : jsstring := [55357; 56546; 32]%N.

(** ['Server酱'] *)
Definition name_serverchan : jsstring :=
  [83; 101; 114; 118; 101; 114; 37233]%N.

(** ['钉钉机器人'] *)
Definition name_dingtalk : jsstring := [38025; 38025; 26426; 22120; 20154]%N.

(** ['企业微信'] *)
Definition name_wechat : jsstring := [20225; 19994; 24494; 20449]%N.

(** ['飞书'] *)
Definition name_feishu : jsstring := [39134; 20070]%N.

(** [NOTIFY_CONFIG.timeout], in milliseconds. *)
Definition NOTIFY_timeout : N := 10000.

(** The reading of [process.env] the channels make. *)
Record process_env := {
  PUSH_KEY : option jsstring;
  SCKEY : option jsstring;
  TG_BOT_TOKEN : option jsstring;
  TG_USER_ID : option jsstring;
  DD_BOT_TOKEN : option jsstring;
  DD_BOT_SECRET : option jsstring;
  WW_BOT_KEY : option jsstring;
  BARK_PUSH : option jsstring;
  PUSH_PLUS_TOKEN : option jsstring;
  FEISHU_BOT_TOKEN : option jsstring
}.

(** The object literal a channel posts. *)
Inductive payload :=
  | PStr (s : jsstring)
  | PObj (fields : list (jsstring * payload)).

(** One [axios.post(url, body, { timeout })]. *)
Record request := { url : jsstring; body : payload; timeout : N }.

(** What the notifier leaves behind: the call of a channel function with
    its arguments, and an HTTP request with whether its promise resolved.
    Console logging is left out. *)
Inductive event :=
  | Invoke (name title content : jsstring)
  | Post (r : request) (resolved : bool).

(** What the module reads from outside: the environment, the clock, the
    functions of the runtime it calls ([encodeURIComponent] throws a
    URIError on a lone surrogate, here [None]), and the network: whether the
    promise of a request resolves (a 2xx answer) or rejects (any other
    status, no answer, or the timeout). *)
Record runtime := {
  env : process_env;
  Date_now : N;
  hmac_sha256_base64 : jsstring -> jsstring -> jsstring;
  encodeURIComponent : jsstring -> option jsstring;
  resolves : request -> bool
}.

(** *** Exceptions and the trace

    A computation leaves events and either returns or throws. The channels
    of one call run concurrently: each is entered in the order of
    [notifyMethods] and issues its request before it first suspends, so the
    trace lists the requests in that order. The order in which the promises
    settle changes the order of [results] only, which the return value of
    [sendNotify] does not depend on. *)
Inductive exn := URIError | RequestFailed.

Inductive completion (A : Type) :=
  | Returned (a : A)
  | Threw (e : exn).
Arguments Returned {A} a.
Arguments Threw {A} e.

Definition M (A : Type) : Type := list event * completion A.

Definition ret {A} (a : A) : M A := ([], Returned a).
Definition throw {A} (e : exn) : M A := ([], Threw e).
Definition tell (e : event) : M unit := ([e], Returned tt).

Definition bind {A B} (m : M A) (f : A -> M B) : M B :=
  match m with
  | (t1, Returned a) => let '(t2, r) := f a in (t1 ++ t2, r)
  | (t1, Threw e) => (t1, Threw e)
  end.

(** [try { m } catch (error) { h error }]. *)
Definition try_catch {A} (m : M A) (h : exn -> M A) : M A :=
  match m with
  | (t1, Returned a) => (t1, Returned a)
  | (t1, Threw e) => let '(t2, r) := h e in (t1 ++ t2, r)
  end.

#[export] Instance M_ret : MRet M := @ret.
#[export] Instance M_bind : MBind M := fun A B f m => bind m f.

Section notifier.
Context (R : runtime).

(** [!x] for a value of [process.env]: absent or empty. *)
Definition unset (x : option jsstring) : bool :=
  match x with Some (_ :: _) => false | _ => true end.

(** The string a set variable holds. *)
Definition value (x : option jsstring) : jsstring := default [] x.

(** [a || b] on two values of [process.env]. *)
Definition or_else (a b : option jsstring) : option jsstring :=
  if unset a then b else a.

(** [await axios.post(url, body, { timeout: NOTIFY_CONFIG.timeout })]. *)
Definition axios_post (url : jsstring) (body : payload) : M unit :=
  let r := {| url := url; body := body; timeout := NOTIFY_timeout |} in
  tell (Post r (resolves R r));;
  if resolves R r then ret tt else throw RequestFailed.

Definition encode (s : jsstring) : M jsstring :=
  match encodeURIComponent R s with
  | Some t => ret t
  | None => throw URIError
  end.

Definition serverChanNotify (title content : jsstring) : M bool :=
  let SCKEY := or_else (PUSH_KEY (env R)) (SCKEY (env R)) in
  if unset SCKEY then ret false
  else
    try_catch
      (let url :=
         if includes (value SCKEY) (str "SCT")
         then str "https://sctapi.ftqq.com/" ++ value SCKEY ++ str ".send"
         else str "https://sc.ftqq.com/" ++ value SCKEY ++ str ".send" in
       axios_post url
         (PObj [ (str "title", PStr title);
                 (str "desp", PStr (replace_newlines [10%N; 10%N] content)) ]);;
       ret true)
      (fun _ => ret false).

Definition telegramNotify (title content : jsstring) : M bool :=
  if unset (TG_BOT_TOKEN (env R)) || unset (TG_USER_ID (env R)) then ret false
  else
    try_catch
      (let message := megaphone ++ title ++ [10%N; 10%N] ++ content in
       let url := str "https://api.telegram.org/bot" ++ value (TG_BOT_TOKEN (env R))
                  ++ str "/sendMessage" in
       axios_post url
         (PObj [ (str "chat_id", PStr (value (TG_USER_ID (env R))));
                 (str "text", PStr message);
                 (str "parse_mode", PStr (str "HTML")) ]);;
       ret true)
      (fun _ => ret false).

Definition dingTalkNotify (title content : jsstring) : M bool :=
  if unset (DD_BOT_TOKEN (env R)) then ret false
  else
    try_catch
      (let url := str "https://oapi.dingtalk.com/robot/send?access_token="
                  ++ value (DD_BOT_TOKEN (env R)) in
       url ←
         (if unset (DD_BOT_SECRET (env R)) then ret url
          else
            let secret := value (DD_BOT_SECRET (env R)) in
            let timestamp := show_N (Date_now R) in
            let stringToSign := timestamp ++ [10%N] ++ secret in
            let sign := hmac_sha256_base64 R secret stringToSign in
            encoded ← encode sign;
            ret (url ++ str "&timestamp=" ++ timestamp ++ str "&sign=" ++ encoded));
       axios_post url
         (PObj [ (str "msgtype", PStr (str "text"));
                 (str "text",
                  PObj [ (str "content", PStr (title ++ [10%N; 10%N] ++ content)) ]) ]);;
       ret true)
      (fun _ => ret false).

Definition workWechatNotify (title content : jsstring) : M bool :=
  if unset (WW_BOT_KEY (env R)) then ret false
  else
    try_catch
      (let url := str "https://qyapi.weixin.qq.com/cgi-bin/webhook/send?key="
                  ++ value (WW_BOT_KEY (env R)) in
       axios_post url
         (PObj [ (str "msgtype", PStr (str "text"));
                 (str "text",
                  PObj [ (str "content", PStr (title ++ [10%N; 10%N] ++ content)) ]) ]);;
       ret true)
      (fun _ => ret false).

Definition barkNotify (title content : jsstring) : M bool :=
  if unset (BARK_PUSH (env R)) then ret false
  else
    try_catch
      (let BARK_PUSH := value (BARK_PUSH (env R)) in
       let url :=
         if starts_with (str "http") BARK_PUSH then BARK_PUSH
         else str "https://api.day.app/" ++ BARK_PUSH in
       t ← encode title;
       c ← encode content;
       axios_post (url ++ str "/" ++ t ++ str "/" ++ c) (PObj []);;
       ret true)
      (fun _ => ret false).

Definition pushPlusNotify (title content : jsstring) : M bool :=
  if unset (PUSH_PLUS_TOKEN (env R)) then ret false
  else
    try_catch
      (axios_post (str "https://www.pushplus.plus/send")
         (PObj [ (str "token", PStr (value (PUSH_PLUS_TOKEN (env R))));
                 (str "title", PStr title);
                 (str "content", PStr (replace_newlines (str "<br>") content));
                 (str "template", PStr (str "html")) ]);;
       ret true)
      (fun _ => ret false).

Definition feishuNotify (title content : jsstring) : M bool :=
  if unset (FEISHU_BOT_TOKEN (env R)) then ret false
  else
    try_catch
      (let url := str "https://open.feishu.cn/open-apis/bot/v2/hook/"
                  ++ value (FEISHU_BOT_TOKEN (env R)) in
       axios_post url
         (PObj [ (str "msg_type", PStr (str "text"));
                 (str "content",
                  PObj [ (str "text", PStr (title ++ [10%N; 10%N] ++ content)) ]) ]);;
       ret true)
      (fun _ => ret false).

Record method := { name : jsstring; func : jsstring -> jsstring -> M bool }.

Definition notifyMethods : list method :=
  [ {| name := name_serverchan; func := serverChanNotify |};
    {| name := str "Telegram"; func := telegramNotify |};
    {| name := name_dingtalk; func := dingTalkNotify |};
    {| name := name_wechat; func := workWechatNotify |};
    {| name := str "Bark"; func := barkNotify |};
    {| name := str "PushPlus"; func := pushPlusNotify |};
    {| name := name_feishu; func := feishuNotify |} ].

(** The callback of [notifyMethods.map]: it calls the channel and counts
    its success; an exception of the channel is caught and counts as a
    failure. The result is the increment of [successCount]. *)
Definition run_method (title content : jsstring) (m : method) : M nat :=
  try_catch
    (tell (Invoke (name m) title content);;
     success ← func m title content;
     ret (if success : bool then 1 else 0))
    (fun _ => ret 0).

(** [await Promise.allSettled(notifyMethods.map(...))], with the count of
    the successes. *)
Fixpoint fan_out (title content : jsstring) (methods : list method) : M nat :=
  match methods with
  | [] => ret 0
  | m :: rest =>
      n ← run_method title content m;
      k ← fan_out title content rest;
      ret (n + k)
  end.

Definition sendNotify (title content : jsstring) : M bool :=
  if bool_decide (title = []) && bool_decide (content = []) then ret false
  else
    let title := if bool_decide (title = []) then default_title else title in
    let content :=
      if bool_decide (4000 < js_length content)%N
      then substring0 4000%N content ++ truncated_marker
      else content in
    successCount ← fan_out title content notifyMethods;
    ret (bool_decide (0 < successCount)).
End notifier.

(** *** Reading a run of the notifier *)

(** A call of a channel function that returned [true]. *)
Definition succeeded (r : M bool) : bool :=
  match r.2 with Returned true => true | _ => false end.

(** What a call of a channel function can be: no request and [false], or
    one request and whether its promise resolved. *)
Definition one_post_at_most (r : M bool) : Prop :=
  r = ([], Returned false) ∨ ∃ q b, r = ([Post q b], Returned b).

(** No channel is configured: the guard at the head of every channel
    function finds its variables unset. This is so in particular when none
    of the ten variables is set. *)
Definition no_channel_configured (e : process_env) : Prop :=
  unset (or_else (PUSH_KEY e) (SCKEY e)) = true
  ∧ unset (TG_BOT_TOKEN e) || unset (TG_USER_ID e) = true
  ∧ unset (DD_BOT_TOKEN e) = true
  ∧ unset (WW_BOT_KEY e) = true
  ∧ unset (BARK_PUSH e) = true
  ∧ unset (PUSH_PLUS_TOKEN e) = true
  ∧ unset (FEISHU_BOT_TOKEN e) = true.

End SendNotify.
(** ** Sample runs

    Concrete environments, answers and cache files, with numbers in [Z]. *)

Module Samples.
Import JS.

Abbreviation reply := (YbtSign.reply (num:=Z)).
Abbreviation environment := (YbtSign.environment (num:=Z)).
Abbreviation state := (YbtSign.state (num:=Z)).
Abbreviation file := (YbtSign.file (num:=Z)).

Definition alice : jsstring := str "alice".
Definition bob : jsstring := str "bob".
Definition carol : jsstring := str "carol".
Definition day : jsstring := str "2025-01-23".
Definition eve_of_day : jsstring := str "2025-01-22".

(** The body of a first sign-in: [{data: {sign_status: true, sign_count:
    10, get_traffic: 50, total_traffic: 500}}]. *)
Definition first_sign_data : json Z :=
  JObj (list_to_map
    [ (str "sign_status", JBool true); (str "sign_count", JNum 10%Z);
      (str "get_traffic", JNum 50%Z); (str "total_traffic", JNum 500%Z) ]).
Definition first_sign_body : json Z := JObj {[ str "data" := first_sign_data ]}.

(** The same body with [sign_status: false]. *)
Definition unsigned_data : json Z :=
  JObj (list_to_map
    [ (str "sign_status", JBool false); (str "sign_count", JNum 10%Z);
      (str "get_traffic", JNum 50%Z); (str "total_traffic", JNum 500%Z) ]).
Definition unsigned_body : json Z := JObj {[ str "data" := unsigned_data ]}.

(** An already-signed body without traffic fields:
    [{data: {sign_status: true, sign_count: 10}}]. *)
Definition already_data : json Z :=
  JObj (list_to_map [ (str "sign_status", JBool true); (str "sign_count", JNum 10%Z) ]).
Definition already_body : json Z := JObj {[ str "data" := already_data ]}.

Definition timeout_error : YbtSign.js_error :=
  {| YbtSign.err_message := str "timeout of 12000ms exceeded";
     YbtSign.err_code := Some (str "ECONNABORTED") |}.
Definition reset_error : YbtSign.js_error :=
  {| YbtSign.err_message := str "socket hang up";
     YbtSign.err_code := Some (str "ECONNRESET") |}.
(** The error of [axios] for a status [validateStatus] refuses: the code
    is ERR_BAD_REQUEST for a status from 400 to 499, ERR_BAD_RESPONSE from
    500 to 599, and there is none otherwise. *)
Definition bad_status_error (status : nat) : YbtSign.js_error :=
  {| YbtSign.err_message := str "Request failed with status code " ++ show_nat status;
     YbtSign.err_code :=
       if (400 <=? status) && (status <? 500) then Some (str "ERR_BAD_REQUEST")
       else if (500 <=? status) && (status <? 600) then Some (str "ERR_BAD_RESPONSE")
       else None |}.

Definition environment_with (users : option jsstring)
    (upstream : nat -> jsstring -> reply) : environment :=
  {| YbtSign.today := day;
     YbtSign.iso_now := str "2025-01-22T16:01:00.000Z";
     YbtSign.locale_now := str "2025/1/23 00:01:00";
     YbtSign.YBT_USERS := users;
     YbtSign.upstream := upstream;
     YbtSign.status_error := bad_status_error;
     YbtSign.JSON_stringify := fun _ => str "{}";
     YbtSign.TypeError_message := str "Cannot convert object to primitive value";
     YbtSign.cache_writable := true |}.

(** Every request is answered with a first sign-in. *)
Definition always_first : nat -> jsstring -> reply :=
  fun _ _ => YbtSign.Response 200 first_sign_body.
(** The first two requests time out, the third is answered. *)
Definition flaky : nat -> jsstring -> reply :=
  fun n _ => if n <? 2 then YbtSign.NoResponse timeout_error
             else YbtSign.Response 200 first_sign_body.
(** No request is ever answered. *)
Definition down : nat -> jsstring -> reply :=
  fun n _ => if n <? 3 then YbtSign.NoResponse timeout_error
             else YbtSign.NoResponse reset_error.
(** Every request is answered with status 400 and a first sign-in body. *)
Definition always_400 : nat -> jsstring -> reply :=
  fun _ _ => YbtSign.Response 400 first_sign_body.

(** The first request is answered with a first sign-in, the others with an
    unknown account. *)
Definition unknown_body : json Z := JObj {[ str "message" := JStr YbtSign.no_such_user ]}.
Definition first_then_unknown : nat -> jsstring -> reply :=
  fun n _ => if n <? 1 then YbtSign.Response 200 first_sign_body
             else YbtSign.Response 400 unknown_body.

Definition E_one : environment := environment_with (Some alice) always_first.
Definition E_twice : environment :=
  environment_with (Some (str "alice&alice")) always_first.
Definition E_alice_bob : environment :=
  environment_with (Some (str "alice&bob")) first_then_unknown.
Definition E_flaky : environment := environment_with (Some alice) flaky.
Definition E_down : environment := environment_with (Some alice) down.
Definition E_400 : environment := environment_with (Some alice) always_400.
Definition E_bob_only : environment := environment_with (Some bob) down.

Definition state_with (f : file) : state :=
  {| YbtSign.cache_file := f; YbtSign.sent := 0; YbtSign.trace := [] |}.

Definition no_cache : state := state_with YbtSign.FileMissing.

(** The entry the script writes for [first_sign_data], and one of the day
    before. *)
Definition todays_entry : json Z := YbtSign.cache_entry E_one first_sign_data.
Definition yesterdays_entry : json Z :=
  JObj (list_to_map
    [ (str "date", JStr eve_of_day); (str "sign_count", JNum 9%Z);
      (str "get_traffic", JNum 40%Z); (str "total_traffic", JNum 450%Z) ]).

(** A cache file with an entry of today for alice and for carol and one of
    yesterday for bob. *)
Definition mixed_cache : state :=
  state_with (YbtSign.FileJson (JObj (list_to_map
    [ (alice, todays_entry); (bob, yesterdays_entry); (carol, todays_entry) ]))).

(** A cache file with only the entry of yesterday for alice. *)
Definition stale_cache : state :=
  state_with (YbtSign.FileJson (JObj {[ alice := yesterdays_entry ]})).

(** An object that a template literal cannot print: [{toString: 1}]; a
    first sign-in and an already-signed answer with it as their message, and
    an entry of today with it as its message. *)
Definition unprintable : json Z := JObj {[ str "toString" := JNum 1%Z ]}.
Definition odd_first_data : json Z :=
  JObj (list_to_map
    [ (str "sign_status", JBool true); (str "sign_count", JNum 10%Z);
      (str "get_traffic", JNum 50%Z); (str "total_traffic", JNum 500%Z);
      (str "message", unprintable) ]).
Definition odd_first_body : json Z := JObj {[ str "data" := odd_first_data ]}.
Definition odd_already_data : json Z :=
  JObj (list_to_map
    [ (str "sign_status", JBool true); (str "sign_count", JNum 10%Z);
      (str "message", unprintable) ]).
Definition odd_already_body : json Z := JObj {[ str "data" := odd_already_data ]}.
Definition odd_entry : json Z :=
  JObj (list_to_map
    [ (str "date", JStr day); (str "sign_count", JNum 10%Z);
      (str "get_traffic", JNum 50%Z); (str "total_traffic", JNum 500%Z);
      (str "message", unprintable) ]).
Definition odd_cache : state :=
  state_with (YbtSign.FileJson (JObj {[ alice := odd_entry ]})).

(** Cache files with an entry of today under [__proto__]: the entry the
    script writes, an entry that holds an entry for alice, and an entry that
    has a property [__proto__] itself. *)
Definition proto_cache : state :=
  state_with (YbtSign.FileJson (JObj {[ YbtSign.proto_key := todays_entry ]})).
Definition heir_entry : json Z :=
  JObj (list_to_map [ (str "date", JStr day); (alice, todays_entry) ]).
Definition heir_cache : state :=
  state_with (YbtSign.FileJson (JObj {[ YbtSign.proto_key := heir_entry ]})).
Definition nested_entry : json Z :=
  JObj (list_to_map
    [ (str "date", JStr day); (str "sign_count", JNum 10%Z);
      (str "get_traffic", JNum 50%Z); (str "total_traffic", JNum 500%Z);
      (YbtSign.proto_key, JNum 1%Z) ]).
Definition nested_cache : state :=
  state_with (YbtSign.FileJson (JObj {[ YbtSign.proto_key := nested_entry ]})).

(** A cache file written by hand with the literal [1e999] in the entry of
    today for alice, and an entry of the day before for bob. *)
Definition E_number : YbtSign.environment (num:=number) :=
  {| YbtSign.today := day;
     YbtSign.iso_now := str "2025-01-22T16:01:00.000Z";
     YbtSign.locale_now := str "2025/1/23 00:01:00";
     YbtSign.YBT_USERS := Some alice;
     YbtSign.upstream := fun _ _ => YbtSign.NoResponse timeout_error;
     YbtSign.status_error := bad_status_error;
     YbtSign.JSON_stringify := fun _ => str "{}";
     YbtSign.TypeError_message := str "Cannot convert object to primitive value";
     YbtSign.cache_writable := true |}.
Definition infinite_entry : json number :=
  JObj (list_to_map [ (str "date", JStr day); (str "get_traffic", JNum Infinity) ]).
Definition null_entry : json number :=
  JObj (list_to_map [ (str "date", JStr day); (str "get_traffic", JNull) ]).
Definition old_entry : json number := JObj {[ str "date" := JStr eve_of_day ]}.
Definition infinite_cache : YbtSign.state (num:=number) :=
  {| YbtSign.cache_file :=
       YbtSign.FileJson (JObj (list_to_map [ (alice, infinite_entry); (bob, old_entry) ]));
     YbtSign.sent := 0; YbtSign.trace := [] |}.

(** An already-signed answer without traffic fields. *)
Definition bare_already_body : json number :=
  JObj {[ str "data" := JObj {[ str "sign_status" := JBool true ]} ]}.

Definition no_env : SendNotify.process_env :=
  {| SendNotify.PUSH_KEY := None; SendNotify.SCKEY := None;
     SendNotify.TG_BOT_TOKEN := None; SendNotify.TG_USER_ID := None;
     SendNotify.DD_BOT_TOKEN := None; SendNotify.DD_BOT_SECRET := None;
     SendNotify.WW_BOT_KEY := None; SendNotify.BARK_PUSH := None;
     SendNotify.PUSH_PLUS_TOKEN := None; SendNotify.FEISHU_BOT_TOKEN := None |}.

(** WeChat Work and Feishu are configured. *)
Definition two_env : SendNotify.process_env :=
  {| SendNotify.PUSH_KEY := None; SendNotify.SCKEY := None;
     SendNotify.TG_BOT_TOKEN := None; SendNotify.TG_USER_ID := None;
     SendNotify.DD_BOT_TOKEN := None; SendNotify.DD_BOT_SECRET := None;
     SendNotify.WW_BOT_KEY := Some (str "wwkey"); SendNotify.BARK_PUSH := None;
     SendNotify.PUSH_PLUS_TOKEN := None;
     SendNotify.FEISHU_BOT_TOKEN := Some (str "fskey") |}.

Definition feishu_url : jsstring := str "https://open.feishu.cn/open-apis/bot/v2/hook/fskey".
Definition wechat_url : jsstring :=
  str "https://qyapi.weixin.qq.com/cgi-bin/webhook/send?key=wwkey".

(** A runtime in which only the requests to Feishu get through. *)
Definition runtime_with (e : SendNotify.process_env) : SendNotify.runtime :=
  {| SendNotify.env := e;
     SendNotify.Date_now := 1737561660000%N;
     SendNotify.hmac_sha256_base64 := fun _ _ => str "c2lnbg==";
     SendNotify.encodeURIComponent := fun s => Some s;
     SendNotify.resolves := fun r => bool_decide (SendNotify.url r = feishu_url) |}.

Definition R_none : SendNotify.runtime := runtime_with no_env.
Definition R_two : SendNotify.runtime := runtime_with two_env.

Definition long_body : jsstring := replicate 4001 97%N.

End Samples.
(** ** Words for the further properties *)

Module Reading.
Import JS.

(** A name as [getUserList] returns it: not empty, without newline and
    ampersand, without white space at either end. *)
Definition clean_name (u : jsstring) : Prop :=
  u ≠ [] ∧ (∀ c, c ∈ u → YbtSign.newline_or_amp c = false) ∧ trim u = u.

(** The names written one after the other with one separator between
    two. *)
Fixpoint join_names (sep : N) (names : list jsstring) : jsstring :=
  match names with
  | [] => []
  | [u] => u
  | u :: rest => u ++ sep :: join_names sep rest
  end.

(** What [performSign] leaves in the trace when it sends [S retries]
    requests: the first request, and a delay of [RETRY_DELAY] before each
    further one. *)
Fixpoint attempts (username : jsstring) (retries : nat) : list YbtSign.event :=
  match retries with
  | 0 => [YbtSign.Request username]
  | S n => YbtSign.Request username :: YbtSign.Delay YbtSign.RETRY_DELAY
           :: attempts username n
  end.

(** The error [performSign] catches for the n-th request of a run, if it
    catches one: no response, or a status [validateStatus] refuses. *)
Definition caught {num} (E : YbtSign.environment (num:=num)) (n : nat)
    (username : jsstring) : option YbtSign.js_error :=
  match YbtSign.upstream E n username with
  | YbtSign.Response status _ =>
      if YbtSign.validateStatus status then None
      else Some (YbtSign.status_error E status)
  | YbtSign.NoResponse e => Some e
  end.

(** The user names of the requests in a trace, the delays in it, and the
    number of writes of the cache file. *)
Definition requests (tr : list YbtSign.event) : list jsstring :=
  omap (fun e => match e with YbtSign.Request u => Some u | _ => None end) tr.
Definition delays (tr : list YbtSign.event) : list N :=
  omap (fun e => match e with YbtSign.Delay ms => Some ms | _ => None end) tr.

(** The channel names called in a trace of the notifier, and its
    requests. *)
Definition invoked (tr : list SendNotify.event) : list jsstring :=
  omap (fun e => match e with SendNotify.Invoke n _ _ => Some n | _ => None end) tr.
Definition posted (tr : list SendNotify.event) : list SendNotify.request :=
  omap (fun e => match e with SendNotify.Post q _ => Some q | _ => None end) tr.

(** The entries of a parsed cache that [readCache] keeps: those dated
    with the current day; and the prototype its object gets, from an entry
    kept under [__proto__]. *)
Definition todays {num} `{!JSNumber num} (E : YbtSign.environment (num:=num))
    (entries : gmap jsstring (json num)) : gmap jsstring (json num) :=
  filter (fun kv => YbtSign.dated_today E (Some kv.2) = true) entries.

Definition todays_proto {num} `{!JSNumber num} (E : YbtSign.environment (num:=num))
    (entries : gmap jsstring (json num)) : option (gmap jsstring (json num)) :=
  match entries !! YbtSign.proto_key with
  | Some (JObj entry) =>
      if YbtSign.dated_today E (Some (JObj entry)) then Some entry else None
  | _ => None
  end.

(** What a state can become through a write of the cache file. *)
Definition rewritten {num} `{!JSNumber num} (σ σ' : YbtSign.state (num:=num))
    (cache : YbtSign.cache_object (num:=num)) : Prop :=
  σ' = {| YbtSign.cache_file := YbtSign.FileJson (JObj (written <$> YbtSign.own cache));
          YbtSign.sent := YbtSign.sent σ;
          YbtSign.trace := YbtSign.trace σ ++ [YbtSign.WriteCache] |}.

(** The states [saveToCacheIfFirstSign] and [getFromCache] can reach. *)
Definition cache_step {num} `{!JSNumber num} (E : YbtSign.environment (num:=num))
    (σ σ' : YbtSign.state (num:=num)) : Prop :=
  YbtSign.sent σ' = YbtSign.sent σ
  ∧ (∃ n, n ≤ 2
          ∧ YbtSign.trace σ' = YbtSign.trace σ ++ replicate n YbtSign.WriteCache)
  ∧ (YbtSign.cache_writable E = false → σ' = σ)
  ∧ (YbtSign.cache_file σ' = YbtSign.cache_file σ
     ∨ ∃ m, YbtSign.cache_file σ' = YbtSign.FileJson (JObj m)
            ∧ ∀ k entry, m !! k = Some entry →
                get entry (str "date") = Some (JStr (YbtSign.today E))).

(** The answers [processSignResult] takes for a first sign-in: status 200
    and a body whose [data] has [sign_status] equal to [true] and both
    traffic fields of type number. *)
Definition complete_200 {num} (result : YbtSign.sign_result (num:=num)) : Prop :=
  ∃ data signData g t,
    result = YbtSign.Answered 200 data
    ∧ get data (str "data") = Some signData
    ∧ get signData (str "sign_status") = Some (JBool true)
    ∧ get signData (str "get_traffic") = Some (JNum g)
    ∧ get signData (str "total_traffic") = Some (JNum t).

(** The outcomes of the cache variant, by their source. *)
Definition first_sign_outcome (username details : jsstring) : YbtSign.outcome :=
  {| YbtSign.username := username; YbtSign.success := true;
     YbtSign.message := YbtSign.sign_ok; YbtSign.details := details;
     YbtSign.isFirstSign := true; YbtSign.dataSource := YbtSign.Api |}.
Definition cached_outcome (username details : jsstring) : YbtSign.outcome :=
  {| YbtSign.username := username; YbtSign.success := true;
     YbtSign.message := YbtSign.already_signed; YbtSign.details := details;
     YbtSign.isFirstSign := false; YbtSign.dataSource := YbtSign.Cache |}.
Definition limited_outcome (username details : jsstring) : YbtSign.outcome :=
  {| YbtSign.username := username; YbtSign.success := true;
     YbtSign.message := YbtSign.already_signed; YbtSign.details := details;
     YbtSign.isFirstSign := false; YbtSign.dataSource := YbtSign.ApiLimited |}.

(** A trace of the notifier has a request with the body [b]. *)
Definition posts_body (tr : list SendNotify.event) (b : SendNotify.payload) : Prop :=
  ∃ q ok, SendNotify.Post q ok ∈ tr ∧ SendNotify.body q = b.

(** What a call of a channel function can be, with the timeout of its
    request. *)
Definition one_timed_post_at_most (r : SendNotify.M bool) : Prop :=
  r = ([], SendNotify.Returned false)
  ∨ ∃ q b, r = ([SendNotify.Post q b], SendNotify.Returned b)
           ∧ SendNotify.timeout q = SendNotify.NOTIFY_timeout.

End Reading.
(** ** [ybt_sign.js], the variant without cache

    The first variant of [ybt_sign.js] shares [getUserList] and
    [performSign] with the cache variant. It classifies without a cache and
    notifies through the panel, falling back on [sendNotify]. *)

Module YbtSignPlain.
Import JS.

(** [' 天'] *)
Definition days : jsstring := [32; 22825]%N.

(** The addresses [sendQLNotify] tries, in order. *)
Definition possibleUrls : list jsstring :=
  [ str "http://localhost:5700/notify";
    str "http://127.0.0.1:5700/notify";
    str "http://localhost:5701/notify";
    str "http://127.0.0.1:5701/notify";
    str "http://localhost:5600/notify";
    str "http://127.0.0.1:5600/notify" ].

(** What [sendQLNotify] leaves behind: a PUT of title and content to an
    address with the status it was answered with, if it was answered, and the
    events of the notifier it falls back on. Console logging is left out. *)
Inductive event :=
  | Put (url title content : jsstring) (answer : option nat)
  | Channel (e : SendNotify.event).

(** The panel: the status a PUT is answered with, [None] when no answer
    comes within the timeout. *)
Definition panel := jsstring -> jsstring -> jsstring -> option nat.

(** [await axios({method: 'PUT', ...})] with the default
    [validateStatus]: the promise resolves with a status from 200 to 299 and
    rejects otherwise. *)
Definition axios_put (answer : option nat) : option nat :=
  match answer with
  | Some status => if (200 <=? status) && (status <? 300) then Some status else None
  | None => None
  end.

(** The loop of [sendQLNotify] over the addresses: [true] at the first
    address answering 200 or 201; a rejected request and any other status
    lead to the next address. *)
Fixpoint try_urls (P : panel) (urls : list jsstring) (title content : jsstring)
    : bool * list event :=
  match urls with
  | [] => (false, [])
  | url :: rest =>
      let answer := P url title content in
      match axios_put answer with
      | Some status =>
          if bool_decide (status = 200) || bool_decide (status = 201)
          then (true, [Put url title content answer])
          else let '(found, tr) := try_urls P rest title content in
               (found, Put url title content answer :: tr)
      | None =>
          let '(found, tr) := try_urls P rest title content in
          (found, Put url title content answer :: tr)
      end
  end.

(** [fallbackSendNotify]: the result of [sendNotify], or [false] when it
    throws. *)
Definition fallbackSendNotify (R : SendNotify.runtime) (title content : jsstring)
    : bool * list event :=
  match SendNotify.sendNotify R title content with
  | (tr, SendNotify.Returned result) => (result, Channel <$> tr)
  | (tr, SendNotify.Threw _) => (false, Channel <$> tr)
  end.

Definition sendQLNotify (P : panel) (R : SendNotify.runtime) (title content : jsstring)
    : bool * list event :=
  let '(found, puts) := try_urls P possibleUrls title content in
  if found then (true, puts)
  else
    let '(result, tr) := fallbackSendNotify R title content in
    (result, puts ++ tr).

Section plain.
Context {num : Type} `{!JSNumber num}.

Record outcome := {
  username : jsstring;
  success : bool;
  message : jsstring;
  details : jsstring
}.

(** [`${d.message || '今日已签到'}\n累计签到: ${d.sign_count || 0} 天`];
    [None] when a conversion throws. *)
Definition repeat_details (d : json num) : option jsstring :=
  message ← to_string (or_default (get d (str "message")) (JStr YbtSign.already_signed));
  sign_count ← to_string (or_default (get d (str "sign_count")) (JNum num_zero));
  Some (message ++ [10%N] ++ YbtSign.total_days ++ sign_count ++ days).

(** [processSignResult]; the outcome is [None] when the template of the
    details throws. *)
Definition processSignResult (E : YbtSign.environment (num:=num)) (username : jsstring)
    (result : YbtSign.sign_result (num:=num)) : option outcome :=
  match result with
  | YbtSign.Failed error code =>
      Some {| username := username; success := false;
              message := YbtSign.sign_failed_colon ++ error;
              details := YbtSign.error_code_colon ++ YbtSign.code_or_unknown code |}
  | YbtSign.Answered status data =>
      let signData := and_get (Some data) (str "data") in
      if bool_decide (status = 200) && truthy_opt signData
      then
        details ← YbtSign.full_details (default JNull signData) YbtSign.sign_ok;
        Some {| username := username; success := true; message := YbtSign.sign_ok;
                details := details |}
      else if bool_decide (status = 400) && truthy_opt signData
              && is_true (and_get signData (str "sign_status"))
      then
        details ← repeat_details (default JNull signData);
        Some {| username := username; success := true;
                message := YbtSign.already_signed; details := details |}
      else if is_string (and_get (Some data) (str "message")) YbtSign.no_such_user
      then
        Some {| username := username; success := false; message := YbtSign.no_such_user;
                details := YbtSign.check_username |}
      else
        Some {| username := username; success := false; message := YbtSign.sign_failed;
                details := YbtSign.http_status_colon ++ show_nat status
                           ++ YbtSign.comma_response_colon ++ YbtSign.JSON_stringify E data |}
  end.
End plain.

(** A status [sendQLNotify] takes for a delivery. *)
Definition accepted (answer : option nat) : Prop := answer = Some 200 ∨ answer = Some 201.

End YbtSignPlain.
(** ** The weekly notification script

    The script that sends one notification a day, chosen by the day of the
    week from a configuration file, through [sendNotify]: its day names, the
    validation of the configuration and the choice of the notification. *)

Module WeeklyNotify.
Import JS.

(** *** Literals of the script, in UTF-16 code units *)

(** ['未知'] *)
Definition unknown_day : jsstring := [26410; 30693]%N.

(** ['每日提醒'] *)
Definition DEFAULT_TITLE_PREFIX : jsstring := [27599; 26085; 25552; 37266]%N.

(** ['配置文件格式错误：必须是有效的JSON对象'] *)
Definition error_not_an_object : jsstring :=
  [37197; 32622; 25991; 20214; 26684; 24335; 38169; 35823; 65306; 24517;
   39035; 26159; 26377; 25928; 30340; 74; 83; 79; 78; 23545; 35937]%N.

(** ['缺少 notifications 配置'] *)
Definition error_no_notifications : jsstring :=
  [32570; 23569; 32; 110; 111; 116; 105; 102; 105; 99; 97; 116; 105; 111;
   110; 115; 32; 37197; 32622]%N.

(** ['第'] *)
Definition error_day_prefix : jsstring := [31532]%N.

(** ['天('] *)
Definition error_day_middle : jsstring := [22825; 40]%N.

(** [')缺少有效的 title'] *)
Definition error_no_title : jsstring :=
  [41; 32570; 23569; 26377; 25928; 30340; 32; 116; 105; 116; 108; 101]%N.

(** [')缺少有效的 content'] *)
Definition error_no_content : jsstring :=
  [41; 32570; 23569; 26377; 25928; 30340; 32; 99; 111; 110; 116; 101; 110;
   116]%N.

(** ['今天是 {weekday}，祝你有美好的一天！ 😊'] *)
Definition default_fallback_message : jsstring :=
  [20170; 22825; 26159; 32; 123; 119; 101; 101; 107; 100; 97; 121; 125;
   65292; 31069; 20320; 26377; 32654; 22909; 30340; 19968; 22825; 65281;
   32; 55357; 56842]%N.

(** ['{weekday}'] *)
Definition weekday_placeholder : jsstring :=
  [123; 119; 101; 101; 107; 100; 97; 121; 125]%N.

(** [' - '] *)
Definition dash : jsstring := [32; 45; 32]%N.

(** [['周日', '周一', '周二', '周三', '周四', '周五', '周六']] *)
Definition names : list jsstring :=
  [ [21608; 26085];
    [21608; 19968];
    [21608; 20108];
    [21608; 19977];
    [21608; 22235];
    [21608; 20116];
    [21608; 20845] ]%N.

(** [getWeekdayName]: [names[weekday] || '未知']. *)
Definition getWeekdayName (weekday : nat) : jsstring :=
  default unknown_day (names !! weekday).

(** [s.replace(pattern, replacement)] for a string pattern and a
    replacement without [$]: the first occurrence only. *)
Fixpoint replace_first (pattern replacement s : jsstring) : jsstring :=
  if starts_with pattern s then replacement ++ drop (List.length pattern) s
  else match s with
       | [] => []
       | c :: rest => c :: replace_first pattern replacement rest
       end.

(** A function that returns or throws a TypeError. *)
Inductive thrown (A : Type) :=
  | Returns (a : A)
  | TypeError.
Arguments Returns {A} a.
Arguments TypeError {A}.

Section weekly.
Context {num : Type} `{!JSNumber num}.

(** [typeof v === 'object'], [typeof v === 'string']. *)
Definition is_object (v : json num) : bool :=
  match v with JNull | JArr _ | JObj _ => true | _ => false end.
Definition is_a_string (x : option (json num)) : bool :=
  match x with Some (JStr _) => true | _ => false end.

(** [v[i.toString()]] for a value that is not [null]: a property of an
    object, an element of an array, a unit of a string. *)
Definition at_index (v : json num) (i : nat) : option (json num) :=
  own_properties v ≫= (fun properties => properties !! show_nat i).

(** [`${x}`] for a value that may be [undefined]; [None] when the
    conversion throws. *)
Definition template (x : option (json num)) : option jsstring :=
  match x with
  | Some v => to_string v
  | None => Some (str "undefined")
  end.

(** What the loop of [validateConfig] adds for day [i]. *)
Definition day_errors (i : nat) (dayConfig : option (json num)) : list jsstring :=
  if truthy_opt dayConfig then
    (if negb (truthy_opt (and_get dayConfig (str "title")))
        || negb (is_a_string (and_get dayConfig (str "title")))
     then [error_day_prefix ++ show_nat i ++ error_day_middle ++ getWeekdayName i
           ++ error_no_title]
     else [])
    ++ (if negb (truthy_opt (and_get dayConfig (str "content")))
           || negb (is_a_string (and_get dayConfig (str "content")))
        then [error_day_prefix ++ show_nat i ++ error_day_middle ++ getWeekdayName i
              ++ error_no_content]
        else [])
  else [].

Definition validateConfig (config : json num) : list jsstring :=
  if negb (truthy config) || negb (is_object config) then [error_not_an_object]
  else
    let notifications := get config (str "notifications") in
    if negb (truthy_opt notifications)
       || negb (is_object (default JNull notifications))
    then [error_no_notifications]
    else seq 0 7 ≫= (fun i => day_errors i (at_index (default JNull notifications) i)).

Record notification := {
  title : jsstring;
  content : option (json num);
  weekday : jsstring
}.

(** [process.env.WEEKLY_NOTIFY_TITLE || config.title_prefix ||
    CONFIG.DEFAULT_TITLE_PREFIX], as the template of the title prints it;
    [None] when the conversion throws. *)
Definition titlePrefix (WEEKLY_NOTIFY_TITLE : option jsstring) (config : json num)
    : option jsstring :=
  match WEEKLY_NOTIFY_TITLE with
  | Some (c :: s) => Some (c :: s)
  | _ => to_string (or_default (get config (str "title_prefix"))
                               (JStr DEFAULT_TITLE_PREFIX))
  end.

(** [getTodayNotification], for the day of the week [getCurrentWeekday]
    returns and the environment variable it reads: [Returns None] is [null].
    Reading a property of [null] throws, and so do the template of the title
    on a prefix or a title that cannot be converted, and the call of
    [replace] on a fallback message that is not a string. *)
Definition getTodayNotification (WEEKLY_NOTIFY_TITLE : option jsstring)
    (weekday : nat) (config : json num) : thrown (option notification) :=
  let weekdayName := getWeekdayName weekday in
  match config with
  | JNull => TypeError
  | _ =>
      let settings := get config (str "settings") in
      if truthy_opt settings
         && match and_get settings (str "enabled") with
            | Some (JBool false) => true
            | _ => false
            end
      then Returns None
      else
        let notifications := get config (str "notifications") in
        let todayConfig :=
          if truthy_opt notifications
          then at_index (default JNull notifications) weekday
          else None in
        if truthy_opt todayConfig
        then
          match titlePrefix WEEKLY_NOTIFY_TITLE config,
                template (and_get todayConfig (str "title")) with
          | Some prefix, Some day_title =>
              Returns (Some
                {| title := prefix ++ dash ++ day_title;
                   content := and_get todayConfig (str "content");
                   weekday := weekdayName |})
          | _, _ => TypeError
          end
        else
          let fallbackMessage :=
            or_default (and_get settings (str "fallback_message"))
                       (JStr default_fallback_message) in
          match titlePrefix WEEKLY_NOTIFY_TITLE config, fallbackMessage with
          | Some prefix, JStr message =>
              Returns (Some
                {| title := prefix ++ dash ++ weekdayName;
                   content := Some (JStr (replace_first weekday_placeholder weekdayName
                                            message));
                   weekday := weekdayName |})
          | _, _ => TypeError
          end
  end.
End weekly.

End WeeklyNotify.
(** ** Further sample values *)

Module MoreSamples.
Import JS Samples.

(** An account list of white space and a separator only. *)
Definition E_blank : environment := environment_with (Some (str " & ")) always_first.

(** Every request is answered with a first sign-in whose message cannot
    be printed. *)
Definition always_odd : nat -> jsstring -> reply :=
  fun _ _ => YbtSign.Response 200 odd_first_body.
Definition E_odd : environment := environment_with (Some (str "alice&bob")) always_odd.

(** A report of 1501 units. *)
Definition long_report : jsstring := replicate 1501 97%N.

(** Only PushPlus is configured, and only Bark. *)
Definition pushplus_env : SendNotify.process_env :=
  {| SendNotify.PUSH_KEY := None; SendNotify.SCKEY := None;
     SendNotify.TG_BOT_TOKEN := None; SendNotify.TG_USER_ID := None;
     SendNotify.DD_BOT_TOKEN := None; SendNotify.DD_BOT_SECRET := None;
     SendNotify.WW_BOT_KEY := None; SendNotify.BARK_PUSH := None;
     SendNotify.PUSH_PLUS_TOKEN := Some (str "pptoken");
     SendNotify.FEISHU_BOT_TOKEN := None |}.
Definition bark_env : SendNotify.process_env :=
  {| SendNotify.PUSH_KEY := None; SendNotify.SCKEY := None;
     SendNotify.TG_BOT_TOKEN := None; SendNotify.TG_USER_ID := None;
     SendNotify.DD_BOT_TOKEN := None; SendNotify.DD_BOT_SECRET := None;
     SendNotify.WW_BOT_KEY := None; SendNotify.BARK_PUSH := Some (str "devicekey");
     SendNotify.PUSH_PLUS_TOKEN := None; SendNotify.FEISHU_BOT_TOKEN := None |}.
Definition R_pushplus : SendNotify.runtime := runtime_with pushplus_env.
Definition R_bark : SendNotify.runtime := runtime_with bark_env.

(** The request of [pushPlusNotify] for the title [t] and the content
    [a\nb]. *)
Definition pushplus_request : SendNotify.request :=
  {| SendNotify.url := str "https://www.pushplus.plus/send";
     SendNotify.body :=
       SendNotify.PObj [ (str "token", SendNotify.PStr (str "pptoken"));
                         (str "title", SendNotify.PStr (str "t"));
                         (str "content", SendNotify.PStr (str "a<br>b"));
                         (str "template", SendNotify.PStr (str "html")) ];
     SendNotify.timeout := SendNotify.NOTIFY_timeout |}.

(** A panel that answers on port 5700 of 127.0.0.1 only, and one that
    never answers. *)
Definition second_url : jsstring := str "http://127.0.0.1:5700/notify".
Definition panel_second : YbtSignPlain.panel :=
  fun url _ _ => if bool_decide (url = second_url) then Some 200 else None.
Definition no_panel : YbtSignPlain.panel := fun _ _ _ => None.

(** A weekly configuration with an entry for Monday only:
    [{notifications: {1: {title: 'plan', content: 'review the week'}}}]. *)
Definition monday : json Z :=
  JObj (list_to_map [ (str "title", JStr (str "plan"));
                      (str "content", JStr (str "review the week")) ]).
Definition monday_only : json Z :=
  JObj {[ str "notifications" := JObj {[ str "1" := monday ]} ]}.

End MoreSamples.
(** * Properties of the cache variant of [ybt_sign.js] *)

Section ybt_sign_properties.
Import JS YbtSign Reading.
Context {num : Type} `{!JSNumber num}.
Implicit Types (E : environment (num:=num)) (σ : state (num:=num)).
Implicit Types (v entry data signData : json num) (k u : jsstring).
Implicit Types (cache : cache_object (num:=num)) (entries : gmap jsstring (json num)).

(** *** The day cache *)

Lemma dated_today_Some E v :
  dated_today E (Some v) = true ↔ get v (str "date") = Some (JStr (today E)).
Proof.
  unfold dated_today, and_get, getTodayString.
  destruct (truthy v) eqn:Htruthy.
  - unfold is_string. destruct (get v (str "date")) as [[]|]; simpl;
      rewrite ?bool_decide_eq_true; naive_solver.
  - destruct v; simpl in *; try naive_solver.
Qed.

Lemma dated_today_object E v :
  dated_today E (Some v) = true → ∃ fields, v = JObj fields.
Proof. intros Hd%dated_today_Some. destruct v; try done. eauto. Qed.

Lemma get_written v k : get (written v) k = written <$> get v k.
Proof.
  destruct v as [| | n| | |m]; simpl; try done.
  - by destruct (num_written n).
  - by rewrite lookup_fmap.
Qed.

Lemma written_string v s : written v = JStr s ↔ v = JStr s.
Proof.
  destruct v as [| | n| | |]; simpl; try done.
  destruct (num_written n); naive_solver.
Qed.

(** What [JSON.stringify] writes keeps the date of an entry. *)
Lemma dated_today_written E v :
  dated_today E (Some (written v)) = dated_today E (Some v).
Proof.
  apply eq_true_iff_eq. rewrite !dated_today_Some, get_written.
  destruct (get v (str "date")) as [d|]; simpl; [|done].
  split; intros [= Hd].
  - by apply written_string in Hd as ->.
  - by rewrite (proj2 (written_string d (today E)) Hd).
Qed.

Lemma todays_lookup E entries k entry :
  todays E entries !! k = Some entry
  ↔ entries !! k = Some entry ∧ get entry (str "date") = Some (JStr (today E)).
Proof.
  unfold todays. rewrite map_lookup_filter_Some. simpl. by rewrite dated_today_Some.
Qed.

Lemma todays_written E entries :
  (∀ k entry, entries !! k = Some entry →
     get entry (str "date") = Some (JStr (today E))) →
  todays E (written <$> entries) = written <$> entries.
Proof.
  intros Hall. apply map_filter_id. intros k v'.
  rewrite lookup_fmap. destruct (entries !! k) as [v|] eqn:Hk; [|done].
  intros [= <-]. simpl. rewrite dated_today_written. apply dated_today_Some. eauto.
Qed.

(** The object [readCache] builds from the entries it has parsed. *)
Lemma cleanedCache_spec E entries :
  map_fold (keep_dated E) empty_object entries
  = {| own := todays E (delete proto_key entries); proto := todays_proto E entries |}.
Proof.
  apply (map_fold_weak_ind (fun r m =>
    r = {| own := todays E (delete proto_key m); proto := todays_proto E m |})).
  { unfold todays, todays_proto. rewrite delete_empty, map_filter_empty. done. }
  intros k v m r Hk ->. unfold keep_dated, todays_proto, todays.
  destruct (decide (k = proto_key)) as [->|Hne].
  - rewrite lookup_insert_eq, delete_insert_eq, Hk by done.
    rewrite (delete_id m) by done.
    destruct (dated_today E (Some v)) eqn:Hd.
    + destruct (dated_today_object E v Hd) as [fields ->]. rewrite Hd.
      unfold assign, inherited. simpl.
      rewrite map_lookup_filter_None_2 by (by left).
      by rewrite !bool_decide_eq_true_2 by done.
    + destruct v; try done. by rewrite Hd.
  - rewrite lookup_insert_ne, delete_insert_ne by done.
    destruct (dated_today E (Some v)) eqn:Hd.
    + destruct (dated_today_object E v Hd) as [fields ->].
      unfold assign. simpl. rewrite (bool_decide_eq_false_2 (k = proto_key)) by done.
      simpl. f_equal. rewrite map_filter_insert_True by done. done.
    + rewrite map_filter_insert_not' ; [done|by simpl; rewrite Hd|].
      intros y Hy. rewrite lookup_delete_ne in Hy by done. congruence.
Qed.

Lemma readCache_own E σ :
  own (readCache E σ).1 = todays E (delete proto_key (cached_entries σ)).
Proof.
  unfold readCache, cached_entries.
  destruct (cache_file σ) as [| |cache]; simpl;
    try (by unfold todays; rewrite delete_empty, map_filter_empty).
  destruct (own_properties cache) as [entries|]; simpl.
  - rewrite cleanedCache_spec. by destruct (bool_decide _).
  - by unfold todays; rewrite delete_empty, map_filter_empty.
Qed.

Lemma readCache_proto E σ :
  proto (readCache E σ).1 = todays_proto E (cached_entries σ).
Proof.
  unfold readCache, cached_entries.
  destruct (cache_file σ) as [| |cache]; simpl; try done.
  destruct (own_properties cache) as [entries|]; simpl; [|done].
  rewrite cleanedCache_spec. by destruct (bool_decide _).
Qed.

Lemma readCache_own_lookup E σ k entry :
  own (readCache E σ).1 !! k = Some entry
  ↔ k ≠ proto_key ∧ cached_entries σ !! k = Some entry
    ∧ get entry (str "date") = Some (JStr (today E)).
Proof.
  rewrite readCache_own, todays_lookup, lookup_delete_Some. intuition congruence.
Qed.

Lemma writeCache_file E cache σ :
  cache_file (writeCache E cache σ)
  = if cache_writable E then FileJson (JObj (written <$> own cache)) else cache_file σ.
Proof. unfold writeCache. by destruct (cache_writable E). Qed.

Lemma writeCache_entries E cache σ :
  cached_entries (writeCache E cache σ)
  = if cache_writable E then written <$> own cache else cached_entries σ.
Proof. unfold cached_entries. rewrite writeCache_file. by destruct (cache_writable E). Qed.

(** [readCache] leaves the state as it was or writes what it returns. *)
Lemma readCache_state E σ :
  (readCache E σ).2
  = if bool_decide (size (own (readCache E σ).1) ≠ size (cached_entries σ))
    then writeCache E (readCache E σ).1 σ else σ.
Proof.
  unfold readCache, cached_entries.
  destruct (cache_file σ) as [| |cache] eqn:Hfile; simpl; try done.
  destruct (own_properties cache) as [entries|]; simpl; [|done].
  destruct (bool_decide (size (own (map_fold (keep_dated E) empty_object entries))
                         ≠ size entries)) eqn:Hb; simpl; by rewrite Hb.
Qed.

Lemma readCache_entries_after E σ :
  cached_entries (readCache E σ).2 = cached_entries σ
  ∨ cached_entries (readCache E σ).2 = written <$> own (readCache E σ).1.
Proof.
  rewrite readCache_state. case_bool_decide; [|by left].
  rewrite writeCache_entries. destruct (cache_writable E); auto.
Qed.

Lemma readCache_unwritable E σ : cache_writable E = false → (readCache E σ).2 = σ.
Proof.
  intros Hw. rewrite readCache_state. case_bool_decide; [|done].
  unfold writeCache. by rewrite Hw.
Qed.

(** A state in which the file holds what a [readCache] has written is not
    written again. *)
Lemma readCache_again E σ : (readCache E (readCache E σ).2).2 = (readCache E σ).2.
Proof.
  pose proof (readCache_own_lookup E σ) as Hown.
  remember (readCache E σ).2 as σ1 eqn:Hσ1. rewrite readCache_state in Hσ1.
  rewrite (readCache_state E σ1).
  destruct (bool_decide (size (own (readCache E σ1).1) ≠ size (cached_entries σ1)))
    eqn:Hagain; [|done].
  apply bool_decide_eq_true in Hagain.
  unfold writeCache in *. destruct (cache_writable E) eqn:Hw; [|done].
  exfalso. apply Hagain. clear Hagain. rewrite readCache_own.
  case_bool_decide as Hsize.
  - subst σ1. unfold cached_entries at 1 2. simpl. f_equal.
    assert ((written <$> own (readCache E σ).1) !! proto_key = None) as Hnk.
    { rewrite lookup_fmap. destruct (own (readCache E σ).1 !! proto_key) eqn:Hk; [|done].
      by apply Hown in Hk as [? _]. }
    rewrite delete_id by done.
    apply todays_written. intros k entry Hk. by apply Hown in Hk as (_ & _ & ?).
  - subst σ1. rewrite <-readCache_own. by destruct (decide (size (own (readCache E σ).1) = size (cached_entries σ))).
Qed.
(** What a second [readCache] returns: the file is as it was, or it holds
    what the first call has written. *)
Lemma readCache_own_again E σ :
  (own (readCache E (readCache E σ).2).1 = own (readCache E σ).1
   ∧ proto (readCache E (readCache E σ).2).1 = proto (readCache E σ).1)
  ∨ (own (readCache E (readCache E σ).2).1 = written <$> own (readCache E σ).1
     ∧ proto (readCache E (readCache E σ).2).1 = None).
Proof.
  pose proof (readCache_own_lookup E σ) as Hown.
  rewrite (readCache_own E (readCache E σ).2), (readCache_proto E (readCache E σ).2).
  destruct (readCache_entries_after E σ) as [-> | ->].
  - left. by rewrite <-readCache_own, <-readCache_proto.
  - right.
    assert ((written <$> own (readCache E σ).1) !! proto_key = None) as Hnk.
    { rewrite lookup_fmap. destruct (own (readCache E σ).1 !! proto_key) eqn:Hk; [|done].
      by apply Hown in Hk as [? _]. }
    split.
    + rewrite delete_id by done. apply todays_written.
      intros k entry Hk. by apply Hown in Hk as (_ & _ & ?).
    + unfold todays_proto. by rewrite Hnk.
Qed.

(** C7, as the code has it: whatever the cache file holds, every entry of
    the object [readCache] returns carries the date of the current day, and
    so does the entry that has become its prototype, if the file has a dated
    one under [__proto__]. A second [readCache] on the same day writes
    nothing and returns entries under the same keys. Each of them is the
    entry of the first call or, when the first call has rewritten the file,
    what is read back from the text written for it: the same entry when
    [JSON.stringify] writes every value of it as it is, not otherwise. *)
Theorem C7_readCache_purges_and_is_idempotent E σ :
  let first := readCache E σ in
  let second := readCache E first.2 in
  (∀ k entry, own first.1 !! k = Some entry →
     get entry (str "date") = Some (JStr (today E)))
  ∧ (∀ fields, proto first.1 = Some fields →
       get (JObj fields) (str "date") = Some (JStr (today E)))
  ∧ second.2 = first.2
  ∧ dom (own second.1) = dom (own first.1)
  ∧ (∀ k entry, own first.1 !! k = Some entry →
       own second.1 !! k = Some entry ∨ own second.1 !! k = Some (written entry))
  ∧ ((∀ k entry, own first.1 !! k = Some entry → written entry = entry) →
       own second.1 = own first.1).
Proof.
  intros first second. subst first second. split_and!.
  - intros k entry Hk. by apply readCache_own_lookup in Hk as (_ & _ & ?).
  - intros fields. rewrite readCache_proto. unfold todays_proto.
    destruct (cached_entries σ !! proto_key) as [[| | | | |fields']|]; try done.
    destruct (dated_today E (Some (JObj fields'))) eqn:Hd; [|done].
    intros [= <-]. by apply dated_today_Some.
  - apply readCache_again.
  - destruct (readCache_own_again E σ) as [[-> _] | [-> _]]; [done|].
    by rewrite dom_fmap_L.
  - intros k entry Hk.
    destruct (readCache_own_again E σ) as [[-> _] | [-> _]]; [by left|].
    right. by rewrite lookup_fmap, Hk.
  - intros Hstable.
    destruct (readCache_own_again E σ) as [[-> _] | [-> _]]; [done|].
    apply map_eq. intros k. rewrite lookup_fmap.
    destruct (own (readCache E σ).1 !! k) as [entry|] eqn:Hk; [|done].
    simpl. f_equal. by eapply Hstable.
Qed.

(** C10, as the code has it: the purge of [readCache] reads the date of
    each entry and nothing else. An entry dated today under any key but
    [__proto__] is an own property of the object returned, unchanged, and is
    still in the file afterwards, as it was or, in a rewritten file, as
    [JSON.stringify] writes it, whether or not [getUserList] has the key; and
    two environments with the same day and the same file permissions,
    whatever their account lists, give the same result. *)
Theorem C10_readCache_keeps_todays_entries E σ :
  (∀ k entry, cached_entries σ !! k = Some entry →
     get entry (str "date") = Some (JStr (today E)) →
     k ≠ proto_key →
     own (readCache E σ).1 !! k = Some entry
     ∧ (cached_entries (readCache E σ).2 !! k = Some entry
        ∨ cached_entries (readCache E σ).2 !! k = Some (written entry)))
  ∧ (∀ E', today E' = today E → cache_writable E' = cache_writable E →
       readCache E' σ = readCache E σ).
Proof.
  split_and!.
  - intros k entry Hk Hd Hne.
    assert (own (readCache E σ).1 !! k = Some entry) as Hret
      by (by apply readCache_own_lookup).
    split; [done|].
    destruct (readCache_entries_after E σ) as [-> | ->]; [by left|].
    right. by rewrite lookup_fmap, Hret.
  - intros E' Htoday Hw.
    unfold readCache, writeCache, keep_dated, dated_today, getTodayString.
    by rewrite Htoday, Hw.
Qed.
End ybt_sign_properties.

(** *** Classification of an answered request *)

Section classification.
Import JS YbtSign Reading.
Context {num : Type} `{!JSNumber num}.
Implicit Types (E : environment (num:=num)) (σ : state (num:=num)).
Implicit Types (v entry data signData : json num) (k u : jsstring).
Implicit Types (cache : cache_object (num:=num)) (entries : gmap jsstring (json num)).

Arguments saveToCacheIfFirstSign : simpl never.
Arguments getFromCache : simpl never.
Arguments readCache : simpl never.

Lemma get_Some_truthy v k x : get v k = Some x → truthy v = true.
Proof. by destruct v. Qed.

Lemma and_get_Some v k x : get v k = Some x → and_get (Some v) k = Some x.
Proof. intros Hget. unfold and_get. by rewrite (get_Some_truthy _ _ _ Hget). Qed.

Lemma is_true_Some (x : option (json num)) : is_true x = true ↔ x = Some (JBool true).
Proof. destruct x as [[| [] | | | |]|]; simpl; split; (done || by intros [= ?]). Qed.

Lemma is_number_Some (x : option (json num)) : is_number x = true ↔ ∃ n, x = Some (JNum n).
Proof.
  destruct x as [[]|]; simpl; split; try done; try (by intros [? ?]); eauto.
Qed.

Lemma and_get_inv (o : option (json num)) k x :
  and_get o k = Some x → ∃ v, o = Some v ∧ get v k = Some x.
Proof. destruct o as [v|]; [|done]; simpl. destruct (truthy v); [eauto|done]. Qed.

(** The guard of the first branch of [processSignResult], read back. *)
Lemma first_sign_guard status data :
  bool_decide (status = 200) && truthy_opt (and_get (Some data) (str "data"))
    && is_true (and_get (and_get (Some data) (str "data")) (str "sign_status"))
    && is_number (and_get (and_get (Some data) (str "data")) (str "get_traffic"))
    && is_number (and_get (and_get (Some data) (str "data")) (str "total_traffic"))
  = true
  ↔ complete_200 (Answered status data).
Proof.
  unfold complete_200.
  rewrite !andb_true_iff, bool_decide_eq_true, is_true_Some, !is_number_Some.
  split.
  - intros [[[[-> _] Hs] [g Hg]] [t Ht]].
    apply and_get_inv in Hs as (signData & Hd & Hs).
    apply and_get_inv in Hd as (? & [= <-] & Hd).
    rewrite (and_get_Some _ _ _ Hd) in Hg, Ht.
    apply and_get_inv in Hg as (? & [= <-] & Hg).
    apply and_get_inv in Ht as (? & [= <-] & Ht).
    by exists data, signData, g, t.
  - intros (data' & signData & g & t & [= -> <-] & Hd & Hs & Hg & Ht).
    rewrite (and_get_Some _ _ _ Hd), (and_get_Some _ _ _ Hs),
      (and_get_Some _ _ _ Hg), (and_get_Some _ _ _ Ht).
    simpl. rewrite (get_Some_truthy _ _ _ Hs). eauto 10.
Qed.

Lemma assign_own_eq cache u fields :
  u ≠ proto_key → own (assign cache u fields) !! u = Some (JObj fields).
Proof.
  intros Hne. unfold assign. rewrite (bool_decide_eq_false_2 (u = proto_key)) by done.
  simpl. apply lookup_insert_eq.
Qed.

Lemma assign_own_ne cache u fields k :
  k ≠ u → own (assign cache u fields) !! k = own cache !! k.
Proof.
  intros Hne. unfold assign. destruct (_ && _ && _); simpl; [done|].
  by rewrite lookup_insert_ne.
Qed.

Lemma saveToCache_entries E u signData σ :
  truthy signData = true → cache_writable E = true →
  cached_entries (saveToCacheIfFirstSign E u (Some signData) true σ)
  = written <$> own (assign (readCache E σ).1 u (cache_entry_fields E signData)).
Proof.
  intros Ht Hw. unfold saveToCacheIfFirstSign. rewrite Ht. simpl.
  destruct (readCache E σ) as [cache σ1]. simpl.
  by rewrite writeCache_entries, Hw.
Qed.

Lemma cache_entry_date E signData :
  get (written (cache_entry E signData)) (str "date") = Some (JStr (today E)).
Proof. rewrite get_written. done. Qed.

Lemma show_or_zero (n : num) :
  to_string (or_default (Some (JNum n)) (JNum num_zero)) = Some (num_show n).
Proof.
  simpl. destruct (num_truthy n) eqn:Hn; [done|]. simpl.
  f_equal. symmetry. by apply num_falsy_show.
Qed.

(** The first branch of [processSignResult]. *)
Lemma processSignResult_first E u data signData g t σ :
  get data (str "data") = Some signData →
  get signData (str "sign_status") = Some (JBool true) →
  get signData (str "get_traffic") = Some (JNum g) →
  get signData (str "total_traffic") = Some (JNum t) →
  processSignResult E u (Answered 200 data) σ
  = (first_sign_outcome u <$> full_details signData sign_ok,
     saveToCacheIfFirstSign E u (Some signData) true σ).
Proof.
  intros Hd Hs Hg Ht.
  assert (complete_200 (Answered 200 data)) as Hguard%first_sign_guard
    by (by exists data, signData, g, t).
  unfold processSignResult. rewrite Hguard. clear Hguard.
  rewrite (and_get_Some _ _ _ Hd). simpl.
  by destruct (full_details signData sign_ok).
Qed.

(** C1, as the code has it: for every account and every answer with
    status 200 whose body has [data.sign_status] equal to [true] and both
    traffic fields of type number, when the message and the count of the
    answer can be printed, the outcome is a first sign-in ([success],
    [isFirstSign], source ['api'], the four lines of details from the
    answer); and when the cache file can be written and the user name is not
    [__proto__], the file then holds an entry under that user name dated with
    the current day: the entry made from the answer, as [JSON.stringify]
    writes it. *)
Theorem C1_first_sign_classified_and_cached E u data signData g t m c σ :
  get data (str "data") = Some signData →
  get signData (str "sign_status") = Some (JBool true) →
  get signData (str "get_traffic") = Some (JNum g) →
  get signData (str "total_traffic") = Some (JNum t) →
  to_string (or_default (get signData (str "message")) (JStr sign_ok)) = Some m →
  to_string (or_default (get signData (str "sign_count")) (JNum num_zero)) = Some c →
  let r := processSignResult E u (Answered 200 data) σ in
  (∃ o, r.1 = Some o
        ∧ username o = u ∧ success o = true ∧ isFirstSign o = true
        ∧ dataSource o = Api ∧ message o = sign_ok
        ∧ details o = m ++ [10%N] ++ total_days ++ c ++ days_nl
                      ++ got_traffic ++ num_show g ++ mb_nl
                      ++ total_traffic_colon ++ num_show t ++ mb)
  ∧ (cache_writable E = true → u ≠ proto_key →
     cached_entries r.2 !! u = Some (written (cache_entry E signData))
     ∧ get (written (cache_entry E signData)) (str "date") = Some (JStr (today E))).
Proof.
  intros Hd Hs Hg Ht Hm Hc r. subst r.
  rewrite (processSignResult_first E u data signData g t σ Hd Hs Hg Ht). simpl.
  split.
  - unfold full_details. rewrite Hm, Hc, Hg, Ht, !show_or_zero. simpl.
    eexists. split; [done|]. by split_and!.
  - intros Hw Hne.
    rewrite (saveToCache_entries E u signData σ (get_Some_truthy _ _ _ Hs) Hw).
    split; [|exact (cache_entry_date E signData)].
    by rewrite lookup_fmap, assign_own_eq.
Qed.

Lemma getFromCache_fst E u σ :
  (getFromCache E u σ).1
  = if dated_today E (lookup (readCache E σ).1 u) then lookup (readCache E σ).1 u
    else None.
Proof.
  unfold getFromCache. destruct (readCache E σ) as [cache σ1]. simpl.
  by destruct (dated_today E (lookup cache u)).
Qed.

Lemma getFromCache_snd E u σ : (getFromCache E u σ).2 = (readCache E σ).2.
Proof.
  unfold getFromCache. destruct (readCache E σ) as [cache σ1]. simpl.
  by destruct (dated_today E (lookup cache u)).
Qed.

Lemma getFromCache_truthy E u σ :
  truthy_opt (getFromCache E u σ).1 = dated_today E (lookup (readCache E σ).1 u).
Proof.
  rewrite getFromCache_fst.
  destruct (dated_today E (lookup (readCache E σ).1 u)) eqn:Hd; [|done].
  destruct (lookup (readCache E σ).1 u) as [v|]; [|done].
  destruct (dated_today_object E v Hd) as [fields ->]. done.
Qed.

(** What [processSignResult] does with an already-signed answer that is
    not a first sign-in. *)
Lemma processSignResult_already_signed E u status data signData σ :
  get data (str "data") = Some signData →
  get signData (str "sign_status") = Some (JBool true) →
  ¬ complete_200 (Answered status data) →
  processSignResult E u (Answered status data) σ
  = (if dated_today E (lookup (readCache E σ).1 u)
     then cached_outcome u
            <$> full_details (default JNull (lookup (readCache E σ).1 u)) already_signed
     else limited_outcome u <$> limited_details signData,
     (readCache E σ).2).
Proof.
  intros Hd Hs Hnot. unfold processSignResult.
  destruct (bool_decide (status = 200) && _ && _ && _ && _) eqn:Hguard.
  { by apply first_sign_guard in Hguard. }
  rewrite (and_get_Some _ _ _ Hd), (and_get_Some _ _ _ Hs). simpl.
  rewrite (get_Some_truthy _ _ _ Hs). simpl.
  pose proof (getFromCache_truthy E u σ) as Htruthy.
  pose proof (getFromCache_fst E u σ) as Hfst.
  pose proof (getFromCache_snd E u σ) as Hsnd.
  destruct (getFromCache E u σ) as [cachedData σ1]. simpl in *. subst σ1.
  rewrite Htruthy. destruct (dated_today E (lookup (readCache E σ).1 u)).
  - subst cachedData. by destruct (full_details _ _).
  - by destruct (limited_details signData).
Qed.

(** An answer that says already signed in and lacks a traffic number, or
    has another status than 200, is no first sign-in answer. *)
Lemma not_complete_200 status data signData :
  get data (str "data") = Some signData →
  status ≠ 200
  ∨ is_number (get signData (str "get_traffic")) = false
  ∨ is_number (get signData (str "total_traffic")) = false →
  ¬ complete_200 (Answered status data).
Proof.
  intros Hd Hnot (data' & sd & g & t & [= -> <-] & Hd' & _ & Hg & Ht).
  assert (sd = signData) as -> by congruence.
  rewrite Hg, Ht in Hnot. by destruct Hnot as [?|[?|?]].
Qed.

Lemma lookup_own cache k v : own cache !! k = Some v → lookup cache k = Some v.
Proof. intros Hk. unfold lookup. by rewrite Hk. Qed.

Lemma lookup_plain cache k :
  own cache !! k = None → proto cache = None → lookup cache k = None.
Proof. intros Hk Hp. unfold lookup. by rewrite Hk, Hp. Qed.

(** C5, as the code has it: when the cache file has an entry for the
    account dated with the current day, the user name is not [__proto__],
    and the answer says already signed in ([sign_status] is [true]) without
    being a first sign-in answer (the status is not 200, or a traffic field
    is not a number), then, when the cached message, count and traffic
    fields can be printed, the outcome is served from the cache (source
    ['cache'], not a first sign-in) with the four lines built from the cached
    entry: cached count and traffic fields that are numbers are printed as
    these numbers, whatever the answer carries. *)
Theorem C5_already_signed_served_from_cache
    E u status data signData entry m c g t σ :
  cached_entries σ !! u = Some entry →
  get entry (str "date") = Some (JStr (today E)) →
  u ≠ proto_key →
  get data (str "data") = Some signData →
  get signData (str "sign_status") = Some (JBool true) →
  status ≠ 200
  ∨ is_number (get signData (str "get_traffic")) = false
  ∨ is_number (get signData (str "total_traffic")) = false →
  to_string (or_default (get entry (str "message")) (JStr already_signed)) = Some m →
  to_string (or_default (get entry (str "sign_count")) (JNum num_zero)) = Some c →
  to_string (or_default (get entry (str "get_traffic")) (JNum num_zero)) = Some g →
  to_string (or_default (get entry (str "total_traffic")) (JNum num_zero)) = Some t →
  let r := processSignResult E u (Answered status data) σ in
  (∃ o, r.1 = Some o
        ∧ username o = u ∧ success o = true ∧ isFirstSign o = false
        ∧ dataSource o = Cache ∧ message o = already_signed
        ∧ details o = m ++ [10%N] ++ total_days ++ c ++ days_nl
                      ++ got_traffic ++ g ++ mb_nl
                      ++ total_traffic_colon ++ t ++ mb)
  ∧ (∀ n, get entry (str "sign_count") = Some (JNum n) → c = num_show n)
  ∧ (∀ n, get entry (str "get_traffic") = Some (JNum n) → g = num_show n)
  ∧ (∀ n, get entry (str "total_traffic") = Some (JNum n) → t = num_show n).
Proof.
  intros Hk Hdate Hne Hd Hs Hnot Hm Hc Hg Ht r. subst r.
  rewrite (processSignResult_already_signed _ _ _ _ _ _ Hd Hs
             (not_complete_200 _ _ _ Hd Hnot)).
  assert (lookup (readCache E σ).1 u = Some entry) as ->.
  { apply lookup_own. by apply readCache_own_lookup. }
  rewrite (proj2 (dated_today_Some E entry) Hdate). simpl.
  split_and!.
  - unfold full_details. rewrite Hm, Hc, Hg, Ht. simpl.
    eexists. split; [done|]. by split_and!.
  - intros n Hn. rewrite Hn, show_or_zero in Hc. congruence.
  - intros n Hn. rewrite Hn, show_or_zero in Hg. congruence.
  - intros n Hn. rewrite Hn, show_or_zero in Ht. congruence.
Qed.

(** C6, as the code has it: when the cache file has no entry dated with
    the current day for the account, nor one under [__proto__], and the
    message and the count of the same kind of answer can be printed, the
    outcome is a limited one (source ['api_limited'], not a first sign-in)
    whose details are the message of the answer, its cumulative count and
    the note that traffic data comes with the first sign-in only: no traffic
    line, whatever traffic fields the answer or an outdated cache entry
    carries. *)
Theorem C6_already_signed_without_cache E u status data signData m c σ :
  (∀ entry, cached_entries σ !! u = Some entry →
     get entry (str "date") ≠ Some (JStr (today E))) →
  (∀ entry, cached_entries σ !! proto_key = Some entry →
     get entry (str "date") ≠ Some (JStr (today E))) →
  get data (str "data") = Some signData →
  get signData (str "sign_status") = Some (JBool true) →
  status ≠ 200
  ∨ is_number (get signData (str "get_traffic")) = false
  ∨ is_number (get signData (str "total_traffic")) = false →
  to_string (or_default (get signData (str "message")) (JStr already_signed)) = Some m →
  to_string (or_default (get signData (str "sign_count")) (JNum num_zero)) = Some c →
  let r := processSignResult E u (Answered status data) σ in
  ∃ o, r.1 = Some o
       ∧ username o = u ∧ success o = true ∧ isFirstSign o = false
       ∧ dataSource o = ApiLimited ∧ message o = already_signed
       ∧ details o = m ++ [10%N] ++ total_days ++ c ++ days_nl
                     ++ traffic_needs_first_sign.
Proof.
  intros Hnone Hproto Hd Hs Hnot Hm Hc r. subst r.
  rewrite (processSignResult_already_signed _ _ _ _ _ _ Hd Hs
             (not_complete_200 _ _ _ Hd Hnot)).
  assert (lookup (readCache E σ).1 u = None) as ->.
  { apply lookup_plain.
    - destruct (own (readCache E σ).1 !! u) as [entry|] eqn:Hk; [|done].
      apply readCache_own_lookup in Hk as (_ & Hk & Hdate). by apply Hnone in Hk.
    - rewrite readCache_proto. unfold todays_proto.
      destruct (cached_entries σ !! proto_key) as [[| | | | |fields]|] eqn:Hk; try done.
      destruct (dated_today E (Some (JObj fields))) eqn:Hdate; [|done].
      apply dated_today_Some in Hdate. by destruct (Hproto _ eq_refl). }
  simpl. unfold limited_details. rewrite Hm, Hc. simpl.
  eexists. split; [done|]. by split_and!.
Qed.

(** Whether a result is a first sign-in answer can be told. *)
Lemma classic_complete (result : sign_result (num:=num)) :
  complete_200 result ∨ ¬ complete_200 result.
Proof using All.
  destruct result as [status data|error code];
    [|right; by intros (? & ? & ? & ? & [=] & _)].
  destruct (bool_decide (status = 200) && truthy_opt (and_get (Some data) (str "data"))
    && is_true (and_get (and_get (Some data) (str "data")) (str "sign_status"))
    && is_number (and_get (and_get (Some data) (str "data")) (str "get_traffic"))
    && is_number (and_get (and_get (Some data) (str "data")) (str "total_traffic")))
    eqn:Hguard.
  - left. by apply first_sign_guard.
  - right. intros Hc%first_sign_guard. congruence.
Qed.

(** The file after [readCache]: every entry it holds was in the file
    before under the same key, as it was or as [JSON.stringify] writes it. *)
Lemma readCache_frame E σ k entry' :
  cached_entries (readCache E σ).2 !! k = Some entry' →
  ∃ entry, cached_entries σ !! k = Some entry
           ∧ (entry' = entry ∨ entry' = written entry).
Proof.
  destruct (readCache_entries_after E σ) as [-> | ->]; [by eauto|].
  rewrite lookup_fmap.
  destruct (own (readCache E σ).1 !! k) as [entry|] eqn:Hk; [|done].
  intros [= <-]. apply readCache_own_lookup in Hk as (_ & Hk & _). eauto.
Qed.

(** The state after [processSignResult] on a result that is no first
    sign-in answer: as it was, or as [readCache] leaves it. *)
Lemma processSignResult_other E u result σ :
  ¬ complete_200 result →
  (∀ o, (processSignResult E u result σ).1 = Some o → isFirstSign o = false)
  ∧ ((processSignResult E u result σ).2 = σ
     ∨ (processSignResult E u result σ).2 = (readCache E σ).2).
Proof.
  intros Hnot. unfold processSignResult.
  destruct result as [status data|error code];
    [|split; [by intros o [= <-]|by left]].
  destruct (bool_decide (status = 200) && _ && _ && _ && _) eqn:Hguard.
  { by apply first_sign_guard in Hguard. }
  destruct (truthy_opt _ && is_true _).
  - pose proof (getFromCache_snd E u σ) as Hsnd.
    destruct (getFromCache E u σ) as [cachedData σ1]. simpl in Hsnd. subst σ1.
    destruct (truthy_opt cachedData); simpl.
    + split; [|by right].
      intros o. destruct (full_details _ _); [|done]. by intros [= <-].
    + split; [|by right].
      intros o. destruct (limited_details _); [|done]. by intros [= <-].
  - destruct (is_string _ _); simpl; (split; [by intros o [= <-]|by left]).
Qed.

(** C9, as the code has it: an outcome is a first sign-in only for an
    answer with status 200 whose body has [data.sign_status] equal to [true]
    and both traffic fields of type number. For any other result, an answer
    with status 400 among them whatever its body, [processSignResult] returns
    no first sign-in and adds no entry: it leaves the state as it was or as
    the purge of [readCache] leaves it, so that every entry the cache file
    holds afterwards was in the file before under the same key, as it was or
    as [JSON.stringify] has written it again (a number that is not finite
    becomes [null]). *)
Theorem C9_first_sign_only_from_complete_200 E u result σ :
  let r := processSignResult E u result σ in
  (∀ o, r.1 = Some o → isFirstSign o = true →
     ∃ data signData g t,
       result = Answered 200 data
       ∧ get data (str "data") = Some signData
       ∧ get signData (str "sign_status") = Some (JBool true)
       ∧ get signData (str "get_traffic") = Some (JNum g)
       ∧ get signData (str "total_traffic") = Some (JNum t))
  ∧ (¬ complete_200 result →
     (∀ o, r.1 = Some o → isFirstSign o = false)
     ∧ (r.2 = σ ∨ r.2 = (readCache E σ).2)
     ∧ ∀ k entry', cached_entries r.2 !! k = Some entry' →
         ∃ entry, cached_entries σ !! k = Some entry
                  ∧ (entry' = entry ∨ entry' = written entry))
  ∧ (∀ data, result = Answered 400 data →
       (∀ o, r.1 = Some o → isFirstSign o = false)
       ∧ (r.2 = σ ∨ r.2 = (readCache E σ).2)
       ∧ ∀ k entry', cached_entries r.2 !! k = Some entry' →
           ∃ entry, cached_entries σ !! k = Some entry
                    ∧ (entry' = entry ∨ entry' = written entry)).
Proof.
  intros r.
  assert (¬ complete_200 result →
          (∀ o, r.1 = Some o → isFirstSign o = false)
          ∧ (r.2 = σ ∨ r.2 = (readCache E σ).2)
          ∧ ∀ k entry', cached_entries r.2 !! k = Some entry' →
              ∃ entry, cached_entries σ !! k = Some entry
                       ∧ (entry' = entry ∨ entry' = written entry)) as Hframe.
  { intros Hnot. subst r.
    destruct (processSignResult_other E u result σ Hnot) as [Hno Hstate].
    split_and!; [done..|].
    intros k entry'. destruct Hstate as [-> | ->]; [by eauto|apply readCache_frame]. }
  split_and!; [|done|].
  - intros o Ho Hfirst.
    destruct (classic_complete result) as [Hc|Hc]; [exact Hc|].
    destruct (Hframe Hc) as [Hno _]. rewrite (Hno o Ho) in Hfirst. done.
  - intros data ->. apply Hframe.
    by intros (data' & sd & g & t & [= ? ?] & _).
Qed.
End classification.

Section retry_and_run.
Import JS YbtSign Reading.
Context {num : Type} `{!JSNumber num}.
Implicit Types (E : environment (num:=num)) (σ : state (num:=num)).
Implicit Types (v entry data signData : json num) (k u : jsstring).

(** *** The retry loop *)

Lemma performSign_unfold E u retryCount σ :
  performSign E u retryCount σ
  = match axios E u σ with
    | (inl (status, data), σ1) => (Answered status data, σ1)
    | (inr error, σ1) =>
        if bool_decide (retryCount < MAX_RETRY) && retryable error
        then performSign E u (S retryCount) (delay RETRY_DELAY σ1)
        else (Failed (err_message error) (err_code error), σ1)
    end.
Proof.
  simp performSign. destruct (axios E u σ) as [[[status data]|error] σ1]; simpl.
  - done.
  - case_bool_decide; destruct (decide (retryCount < MAX_RETRY)); simpl; done.
Qed.

Lemma axios_answer E u σ status data :
  upstream E (sent σ) u = Response status data → status = 200 ∨ status = 400 →
  axios E u σ = (inl (status, data), issue u σ).
Proof. intros Hup Hs. unfold axios. rewrite Hup. by destruct Hs as [-> | ->]. Qed.

Lemma axios_no_response E u σ e :
  upstream E (sent σ) u = NoResponse e → axios E u σ = (inr e, issue u σ).
Proof. intros Hup. unfold axios. by rewrite Hup. Qed.

Lemma axios_state E u σ : (axios E u σ).2 = issue u σ.
Proof.
  unfold axios. destruct (upstream E (sent σ) u); [|done].
  by destruct (validateStatus status).
Qed.

Lemma performSign_sent E u retryCount σ :
  sent (performSign E u retryCount σ).2 ≤ sent σ + S (MAX_RETRY - retryCount).
Proof.
  remember (MAX_RETRY - retryCount) as k eqn:Hk.
  revert retryCount σ Hk. induction k as [|k IH]; intros retryCount σ Hk;
    rewrite performSign_unfold; pose proof (axios_state E u σ) as Hax;
    destruct (axios E u σ) as [[[status data]|error] σ1]; simpl in *; subst σ1;
    simpl; try lia.
  - rewrite bool_decide_eq_false_2 by lia. simpl. lia.
  - destruct (bool_decide (retryCount < MAX_RETRY) && retryable error); simpl; [|lia].
    etrans; [apply IH; lia|]. simpl. lia.
Qed.

Lemma performSign_retry E u retryCount σ e :
  upstream E (sent σ) u = NoResponse e → retryable e = true →
  retryCount < MAX_RETRY →
  performSign E u retryCount σ
  = performSign E u (S retryCount) (delay RETRY_DELAY (issue u σ)).
Proof.
  intros Hup He Hlt.
  rewrite performSign_unfold, (axios_no_response _ _ _ _ Hup), He.
  by rewrite bool_decide_eq_true_2.
Qed.

Lemma performSign_exhausted E u σ e :
  upstream E (sent σ) u = NoResponse e →
  performSign E u MAX_RETRY σ = (Failed (err_message e) (err_code e), issue u σ).
Proof.
  intros Hup. by rewrite performSign_unfold, (axios_no_response _ _ _ _ Hup).
Qed.

Lemma performSign_answered E u retryCount σ status data :
  upstream E (sent σ) u = Response status data → status = 200 ∨ status = 400 →
  performSign E u retryCount σ = (Answered status data, issue u σ).
Proof.
  intros Hup Hs. by rewrite performSign_unfold, (axios_answer _ _ _ _ _ Hup Hs).
Qed.

Lemma retryable_spec (e : js_error) :
  retryable e = true
  ↔ err_code e = Some (str "ECONNRESET") ∨ err_code e = Some (str "ETIMEDOUT")
    ∨ err_code e = Some (str "ENOTFOUND")
    ∨ includes (err_message e) (str "timeout") = true.
Proof.
  unfold retryable. rewrite !orb_true_iff, !bool_decide_eq_true. tauto.
Qed.

(** C3: [performSign] sends at most four requests, the first and three
    retries. A rejected request is retried, after a delay of 2000 ms, when
    fewer than three retries were made and the error is retryable: its code
    is ECONNRESET, ETIMEDOUT or ENOTFOUND, or its message contains
    'timeout'. So two retryable failures followed by an answer with status
    200 or 400 give that answer after three requests and two delays; three
    retryable failures followed by a fourth failure give a failed result
    with the message and the code of the fourth error, after four requests
    and three delays; and an answer with status 400 to the first request is
    returned at once, with no delay and no second request. *)
Theorem C3_performSign_retry_policy E u σ :
  sent (performSign E u 0 σ).2 ≤ sent σ + 4
  ∧ (∀ e, retryable e = true
          ↔ err_code e = Some (str "ECONNRESET") ∨ err_code e = Some (str "ETIMEDOUT")
            ∨ err_code e = Some (str "ENOTFOUND")
            ∨ includes (err_message e) (str "timeout") = true)
  ∧ (∀ retryCount e,
       upstream E (sent σ) u = NoResponse e → retryable e = true →
       retryCount < 3 →
       performSign E u retryCount σ
       = performSign E u (S retryCount) (delay 2000%N (issue u σ)))
  ∧ (∀ e1 e2 status data,
       upstream E (sent σ) u = NoResponse e1 → retryable e1 = true →
       upstream E (S (sent σ)) u = NoResponse e2 → retryable e2 = true →
       upstream E (S (S (sent σ))) u = Response status data →
       status = 200 ∨ status = 400 →
       performSign E u 0 σ
       = (Answered status data,
          {| cache_file := cache_file σ; sent := 3 + sent σ;
             trace := trace σ ++ [Request u; Delay 2000%N; Request u; Delay 2000%N;
                                  Request u] |}))
  ∧ (∀ e1 e2 e3 e4,
       upstream E (sent σ) u = NoResponse e1 → retryable e1 = true →
       upstream E (S (sent σ)) u = NoResponse e2 → retryable e2 = true →
       upstream E (S (S (sent σ))) u = NoResponse e3 → retryable e3 = true →
       upstream E (S (S (S (sent σ)))) u = NoResponse e4 →
       performSign E u 0 σ
       = (Failed (err_message e4) (err_code e4),
          {| cache_file := cache_file σ; sent := 4 + sent σ;
             trace := trace σ ++ [Request u; Delay 2000%N; Request u; Delay 2000%N;
                                  Request u; Delay 2000%N; Request u] |}))
  ∧ (∀ data,
       upstream E (sent σ) u = Response 400 data →
       performSign E u 0 σ = (Answered 400 data, issue u σ)).
Proof.
  split_and!.
  - apply (performSign_sent E u 0 σ).
  - apply retryable_spec.
  - intros retryCount e Hup He Hlt. by apply (performSign_retry E u retryCount σ e).
  - intros e1 e2 status data H1 R1 H2 R2 H3 Hs.
    rewrite (performSign_retry E u 0 σ e1) by (done || (unfold MAX_RETRY; lia)).
    rewrite (performSign_retry E u 1 _ e2) by (done || (unfold MAX_RETRY; lia)).
    rewrite (performSign_answered E u 2 _ status data) by done.
    unfold issue, delay, emit. simpl. by rewrite <-!app_assoc.
  - intros e1 e2 e3 e4 H1 R1 H2 R2 H3 R3 H4.
    rewrite (performSign_retry E u 0 σ e1) by (done || (unfold MAX_RETRY; lia)).
    rewrite (performSign_retry E u 1 _ e2) by (done || (unfold MAX_RETRY; lia)).
    rewrite (performSign_retry E u 2 _ e3) by (done || (unfold MAX_RETRY; lia)).
    rewrite (performSign_exhausted E u _ e4) by done.
    unfold issue, delay, emit. simpl. by rewrite <-!app_assoc.
  - intros data Hup. apply performSign_answered; auto.
Qed.

(** *** The run over the accounts and its report *)

Lemma sign_all_length E users σ :
  List.length (sign_all E users σ).1 = List.length users.
Proof.
  revert σ. induction users as [|u rest IH]; intros σ; [done|]. simpl.
  destruct (performSign E u 0 σ) as [signResult σ1].
  destruct (processSignResult E u signResult σ1) as [[processedResult|] σ2].
  - specialize (IH (match rest with [] => σ2 | _ => delay 1000%N σ2 end)).
    destruct (sign_all E rest _) as [results σ3]. simpl in *. by rewrite IH.
  - specialize (IH σ2).
    destruct (sign_all E rest _) as [results σ3]. simpl in *. by rewrite IH.
Qed.

Lemma getUserList_entries E users :
  YBT_USERS E = Some users →
  getUserList E
  = filter (fun user : jsstring => 0 < List.length user)
           (trim <$> split_on newline_or_amp users).
Proof. unfold getUserList. intros ->. by destruct users. Qed.

(** C2, as the code has it: the accounts of a run are the entries of
    [YBT_USERS] split at newlines and ampersands, trimmed, without the
    blank ones, and with every repetition of a name kept. The run makes one
    outcome for each of them; when there is at least one, [main] hands the
    notifier the report of these outcomes, and the total the report prints
    in its overview is the number of these entries. *)
Theorem C2_report_total_counts_every_entry E σ users :
  YBT_USERS E = Some users →
  let entries := filter (fun user : jsstring => 0 < List.length user)
                        (trim <$> split_on newline_or_amp users) in
  entries ≠ [] →
  getUserList E = entries
  ∧ ∃ results σ' rest,
      main E σ
      = delay 1000%N
          (emit (Notify notify_title (finalMessage (formatNotifyMessage E results))) σ')
      ∧ List.length results = List.length entries
      ∧ formatNotifyMessage E results
        = report_title_line ++ replicate 30 61%N ++ [10%N; 10%N] ++ overview_line
          ++ total_accounts ++ show_nat (List.length entries) ++ count_nl
          ++ rest.
Proof.
  intros Husers entries Hne. subst entries.
  rewrite <-(getUserList_entries E users Husers) in *.
  split; [done|]. unfold main.
  rewrite bool_decide_eq_false_2 by (by destruct (getUserList E)).
  destruct (readCache E σ) as [cache σ1].
  pose proof (sign_all_length E (getUserList E) σ1) as Hlen.
  destruct (sign_all E (getUserList E) σ1) as [results σ2]. simpl in Hlen.
  exists results, σ2. eexists. split; [done|]. split; [done|].
  unfold formatNotifyMessage. rewrite Hlen. reflexivity.
Qed.
End retry_and_run.

(** * Properties of [sendNotify.js] *)

Section send_notify_properties.
Import JS SendNotify Reading.
Implicit Types (R : runtime) (title content body : jsstring) (m : method).

Lemma run_method_spec title content m :
  run_method title content m
  = (Invoke (name m) title content :: (func m title content).1,
     Returned (if succeeded (func m title content) then 1 else 0)).
Proof.
  unfold run_method, succeeded, mbind, M_bind, bind, try_catch, tell, ret. simpl.
  destruct (func m title content) as [tr [[]|e]]; simpl; by rewrite ?app_nil_r.
Qed.

(** The fan-out, whatever the channel functions do: every one is called
    once, in order, with the same title and content, and the successes are
    counted. A channel that throws counts as a failure and the rest still
    run. *)
Lemma fan_out_spec title content (methods : list method) :
  fan_out title content methods
  = (methods ≫= (fun m => Invoke (name m) title content :: (func m title content).1),
     Returned (List.length (filter (fun m => succeeded (func m title content) = true)
                                   methods))).
Proof.
  induction methods as [|m rest IH]; [done|].
  cbn [fan_out]. rewrite run_method_spec, IH.
  unfold mbind at 1 2, M_bind, bind, mret, M_ret, ret. simpl.
  rewrite app_nil_r. rewrite filter_cons.
  by destruct (succeeded (func m title content)); simpl.
Qed.

Ltac channel :=
  unfold one_post_at_most, axios_post, encode, mbind, M_bind, mret, M_ret,
    bind, try_catch, tell, throw, ret;
  repeat match goal with
         | |- context [if ?b then _ else _] => destruct b eqn:?
         | |- context [match ?x with Some _ => _ | None => _ end] => destruct x eqn:?
         end;
  simpl; rewrite ?app_nil_r; eauto.

Lemma serverChanNotify_posts R title content :
  one_post_at_most (serverChanNotify R title content).
Proof. unfold serverChanNotify. channel. Qed.

Lemma telegramNotify_posts R title content :
  one_post_at_most (telegramNotify R title content).
Proof. unfold telegramNotify. channel. Qed.

Lemma dingTalkNotify_posts R title content :
  one_post_at_most (dingTalkNotify R title content).
Proof. unfold dingTalkNotify. channel. Qed.

Lemma workWechatNotify_posts R title content :
  one_post_at_most (workWechatNotify R title content).
Proof. unfold workWechatNotify. channel. Qed.

Lemma barkNotify_posts R title content :
  one_post_at_most (barkNotify R title content).
Proof. unfold barkNotify. channel. Qed.

Lemma pushPlusNotify_posts R title content :
  one_post_at_most (pushPlusNotify R title content).
Proof. unfold pushPlusNotify. channel. Qed.

Lemma feishuNotify_posts R title content :
  one_post_at_most (feishuNotify R title content).
Proof. unfold feishuNotify. channel. Qed.

Lemma notifyMethods_post R title content :
  Forall (fun m => one_post_at_most (func m title content)) (notifyMethods R).
Proof.
  unfold notifyMethods.
  repeat apply Forall_cons_2; simpl;
    auto using serverChanNotify_posts, telegramNotify_posts, dingTalkNotify_posts,
      workWechatNotify_posts, barkNotify_posts, pushPlusNotify_posts,
      feishuNotify_posts.
Qed.

Lemma notifyMethods_unconfigured R title content :
  no_channel_configured (env R) →
  Forall (fun m => func m title content = ([], Returned false)) (notifyMethods R).
Proof.
  intros (H1 & H2 & H3 & H4 & H5 & H6 & H7). unfold notifyMethods.
  repeat apply Forall_cons_2; simpl; [..|done].
  - unfold serverChanNotify. by rewrite H1.
  - unfold telegramNotify. by rewrite H2.
  - unfold dingTalkNotify. by rewrite H3.
  - unfold workWechatNotify. by rewrite H4.
  - unfold barkNotify. by rewrite H5.
  - unfold pushPlusNotify. by rewrite H6.
  - unfold feishuNotify. by rewrite H7.
Qed.

(** With channels that post at most once, some channel succeeded exactly
    when the trace has a request whose promise resolved. *)
Lemma fan_out_success title content (methods : list method) :
  Forall (fun m => one_post_at_most (func m title content)) methods →
  0 < List.length (filter (fun m => succeeded (func m title content) = true) methods)
  ↔ ∃ q, Post q true
         ∈ methods ≫= (fun m => Invoke (name m) title content :: (func m title content).1).
Proof.
  intros Hall. rewrite Forall_forall in Hall. split.
  - intros Hpos.
    destruct (filter _ methods) as [|m ?] eqn:Hf; [simpl in Hpos; lia|].
    assert (m ∈ filter (fun m => succeeded (func m title content) = true) methods)
      as [Hs Hm]%list_elem_of_filter by (rewrite Hf; left).
    destruct (Hall m Hm) as [Hr | (q & b & Hr)]; unfold succeeded in Hs;
      rewrite Hr in Hs; simpl in Hs; [done|].
    destruct b; [|done]. exists q. apply list_elem_of_bind. exists m.
    split; [|done]. rewrite Hr. simpl. set_solver.
  - intros (q & (m & Hq & Hm)%list_elem_of_bind).
    assert (m ∈ filter (fun m => succeeded (func m title content) = true) methods)
      as Hin.
    { apply list_elem_of_filter. split; [|done].
      apply elem_of_cons in Hq as [|Hq]; [done|].
      destruct (Hall m Hm) as [Hr | (q' & b & Hr)];
        rewrite Hr in Hq; simpl in Hq; [by apply elem_of_nil in Hq|].
      apply list_elem_of_singleton in Hq as [= <- <-].
      unfold succeeded. by rewrite Hr. }
    destruct (filter _ methods); [by apply elem_of_nil in Hin|simpl; lia].
Qed.

(** [sendNotify] with a title or a content. *)
Lemma sendNotify_unfold R title content :
  ¬ (title = [] ∧ content = []) →
  sendNotify R title content
  = let title' := if bool_decide (title = []) then default_title else title in
    let content' :=
      if bool_decide (4000 < js_length content)%N
      then substring0 4000%N content ++ truncated_marker else content in
    (notifyMethods R
       ≫= (fun m => Invoke (name m) title' content' :: (func m title' content').1),
     Returned (bool_decide
       (0 < List.length (filter (fun m => succeeded (func m title' content') = true)
                                (notifyMethods R))))).
Proof.
  intros Hne. unfold sendNotify.
  destruct (bool_decide (title = []) && bool_decide (content = [])) eqn:Hb.
  { apply andb_true_iff in Hb as [?%bool_decide_eq_true ?%bool_decide_eq_true].
    naive_solver. }
  cbv zeta. rewrite fan_out_spec.
  unfold mbind at 1, M_bind, bind, mret, M_ret, ret.
  by rewrite app_nil_r.
Qed.

(** C4: for every title and content, [sendNotify] returns, and it returns
    [true] exactly when the promise of some request of this call resolved,
    that is when a configured channel delivered. When no channel is
    configured it returns [false] and sends no request; when the call has a
    request that failed and one that resolved it returns [true]. And
    whatever the channel functions do, even throw, the fan-out returns: a
    channel that throws is counted as a failure. *)
Theorem C4_sendNotify_true_iff_delivered R title content :
  ∃ tr b,
    sendNotify R title content = (tr, Returned b)
    ∧ (b = true ↔ ∃ q, Post q true ∈ tr)
    ∧ (no_channel_configured (env R) → b = false ∧ ∀ q ok, Post q ok ∉ tr)
    ∧ (∀ q1 q2, Post q1 false ∈ tr → Post q2 true ∈ tr → b = true)
    ∧ (∀ (methods : list method) t c, ∃ tr' n, fan_out t c methods = (tr', Returned n)).
Proof.
  assert (∀ (methods : list method) t c,
            ∃ tr' n, fan_out t c methods = (tr', Returned n)) as Hsafe.
  { intros methods t c. rewrite fan_out_spec. eauto. }
  destruct (decide (title = [] ∧ content = [])) as [[-> ->]|Hne].
  { exists [], false. split_and!.
    - done.
    - split; [done|]. by intros [q Hq%elem_of_nil].
    - intros _. split; [done|]. intros q ok. apply not_elem_of_nil.
    - by intros q1 q2 Hq%elem_of_nil.
    - done. }
  rewrite (sendNotify_unfold R title content Hne). cbv zeta.
  set (title' := if bool_decide (title = []) then default_title else title).
  set (content' := if bool_decide (4000 < js_length content)%N then _ else content).
  pose proof (fan_out_success title' content' (notifyMethods R)
                (notifyMethods_post R title' content')) as Hiff.
  eexists _, _. split; [done|].
  assert (∀ b : bool, b = true ↔ b) as Hb by (by intros []).
  split_and!.
  - by rewrite bool_decide_eq_true.
  - intros Hnone.
    pose proof (notifyMethods_unconfigured R title' content' Hnone) as Hoff.
    rewrite Forall_forall in Hoff.
    assert (∀ q ok, Post q ok ∉ notifyMethods R
              ≫= (fun m => Invoke (name m) title' content' :: (func m title' content').1))
      as Hnot.
    { intros q ok (m & Hq & Hm)%list_elem_of_bind.
      rewrite (Hoff m Hm) in Hq. simpl in Hq.
      by apply list_elem_of_singleton in Hq. }
    split; [|done]. apply bool_decide_eq_false. rewrite Hiff.
    intros [q Hq]. by eapply Hnot.
  - intros q1 q2 _ Hq. apply bool_decide_eq_true, Hiff. eauto.
  - done.
Qed.

(** What each channel function sends when its variables are set. *)
Ltac sends :=
  unfold axios_post, encode, mbind, M_bind, mret, M_ret, bind, try_catch, tell,
    throw, ret;
  simpl; repeat (destruct (resolves _ _); simpl); rewrite ?app_nil_r; eauto.

Lemma serverChanNotify_sends R title content :
  unset (or_else (PUSH_KEY (env R)) (SCKEY (env R))) = false →
  ∃ q ok, (serverChanNotify R title content).1 = [Post q ok]
          ∧ body q = PObj [ (str "title", PStr title);
                            (str "desp", PStr (replace_newlines [10%N; 10%N] content)) ].
Proof. intros Hset. unfold serverChanNotify. rewrite Hset. sends. Qed.

Lemma telegramNotify_sends R title content :
  unset (TG_BOT_TOKEN (env R)) = false → unset (TG_USER_ID (env R)) = false →
  ∃ q ok, (telegramNotify R title content).1 = [Post q ok]
          ∧ body q = PObj [ (str "chat_id", PStr (value (TG_USER_ID (env R))));
                            (str "text",
                             PStr (megaphone ++ title ++ [10%N; 10%N] ++ content));
                            (str "parse_mode", PStr (str "HTML")) ].
Proof. intros H1 H2. unfold telegramNotify. rewrite H1, H2. sends. Qed.

Lemma dingTalkNotify_sends R title content :
  unset (DD_BOT_TOKEN (env R)) = false →
  unset (DD_BOT_SECRET (env R)) = true
  ∨ is_Some (encodeURIComponent R
               (hmac_sha256_base64 R (value (DD_BOT_SECRET (env R)))
                  (show_N (Date_now R) ++ [10%N] ++ value (DD_BOT_SECRET (env R))))) →
  ∃ q ok, (dingTalkNotify R title content).1 = [Post q ok]
          ∧ body q = PObj [ (str "msgtype", PStr (str "text"));
                            (str "text",
                             PObj [ (str "content",
                                     PStr (title ++ [10%N; 10%N] ++ content)) ]) ].
Proof.
  intros Hset Hsign. unfold dingTalkNotify. rewrite Hset.
  destruct (unset (DD_BOT_SECRET (env R))); [sends|].
  destruct Hsign as [?|[sign Hsign]]; [done|].
  unfold encode. rewrite Hsign. sends.
Qed.

Lemma workWechatNotify_sends R title content :
  unset (WW_BOT_KEY (env R)) = false →
  ∃ q ok, (workWechatNotify R title content).1 = [Post q ok]
          ∧ body q = PObj [ (str "msgtype", PStr (str "text"));
                            (str "text",
                             PObj [ (str "content",
                                     PStr (title ++ [10%N; 10%N] ++ content)) ]) ].
Proof. intros Hset. unfold workWechatNotify. rewrite Hset. sends. Qed.

Lemma barkNotify_sends R title content t c :
  unset (BARK_PUSH (env R)) = false →
  encodeURIComponent R title = Some t → encodeURIComponent R content = Some c →
  ∃ q ok base, (barkNotify R title content).1 = [Post q ok]
               ∧ url q = base ++ str "/" ++ t ++ str "/" ++ c.
Proof.
  intros Hset Ht Hc. unfold barkNotify, encode. rewrite Hset, Ht, Hc.
  unfold axios_post, mbind, M_bind, mret, M_ret, bind, try_catch, tell, throw, ret.
  simpl. destruct (resolves _ _); simpl; eauto.
Qed.

Lemma pushPlusNotify_sends R title content :
  unset (PUSH_PLUS_TOKEN (env R)) = false →
  ∃ q ok, (pushPlusNotify R title content).1 = [Post q ok]
          ∧ body q = PObj [ (str "token", PStr (value (PUSH_PLUS_TOKEN (env R))));
                            (str "title", PStr title);
                            (str "content", PStr (replace_newlines (str "<br>") content));
                            (str "template", PStr (str "html")) ].
Proof. intros Hset. unfold pushPlusNotify. rewrite Hset. sends. Qed.

Lemma feishuNotify_sends R title content :
  unset (FEISHU_BOT_TOKEN (env R)) = false →
  ∃ q ok, (feishuNotify R title content).1 = [Post q ok]
          ∧ body q = PObj [ (str "msg_type", PStr (str "text"));
                            (str "content",
                             PObj [ (str "text",
                                     PStr (title ++ [10%N; 10%N] ++ content)) ]) ].
Proof. intros Hset. unfold feishuNotify. rewrite Hset. sends. Qed.

Ltac listed :=
  unfold notifyMethods;
  repeat first [apply list_elem_of_here | apply list_elem_of_further].

(** A request a channel function makes is in the trace of the fan-out. *)
Lemma fan_out_has title content (methods : list method) m q ok :
  m ∈ methods → (func m title content).1 = [Post q ok] →
  Post q ok ∈ methods ≫= (fun m => Invoke (name m) title content :: (func m title content).1).
Proof.
  intros Hm Hq. apply list_elem_of_bind. exists m. split; [|done].
  rewrite Hq. right. left.
Qed.

(** C8: for every body longer than 4000 code units, the content is cut
    once, to the first 4000 units of the body followed by the marker (4014
    units in all), and the seven channel functions, Server酱, Telegram,
    钉钉机器人, 企业微信, Bark, PushPlus and 飞书, are each called once with that
    one content: the trace of the call is these calls in this order, each
    followed by what the channel posts. Every channel whose variables are
    set posts the cut content: Server酱 with its newlines doubled, Telegram,
    钉钉, 企业微信 and 飞书 after the title and an empty line, PushPlus with
    [<br>] for its newlines, Bark encoded at the end of the address. *)
Theorem C8_sendNotify_truncates_once R title body :
  (4000 < js_length body)%N →
  let content' := substring0 4000%N body ++ truncated_marker in
  let title' := if bool_decide (title = []) then default_title else title in
  let tr := (sendNotify R title body).1 in
  js_length content' = 4014%N
  ∧ tr = Invoke name_serverchan title' content' :: (serverChanNotify R title' content').1
         ++ Invoke (str "Telegram") title' content' :: (telegramNotify R title' content').1
         ++ Invoke name_dingtalk title' content' :: (dingTalkNotify R title' content').1
         ++ Invoke name_wechat title' content' :: (workWechatNotify R title' content').1
         ++ Invoke (str "Bark") title' content' :: (barkNotify R title' content').1
         ++ Invoke (str "PushPlus") title' content' :: (pushPlusNotify R title' content').1
         ++ Invoke name_feishu title' content' :: (feishuNotify R title' content').1
  ∧ (∀ n t c, Invoke n t c ∈ tr → t = title' ∧ c = content')
  ∧ (unset (or_else (PUSH_KEY (env R)) (SCKEY (env R))) = false →
     posts_body tr
       (PObj [ (str "title", PStr title');
               (str "desp", PStr (replace_newlines [10%N; 10%N] content')) ]))
  ∧ (unset (TG_BOT_TOKEN (env R)) = false → unset (TG_USER_ID (env R)) = false →
     posts_body tr
       (PObj [ (str "chat_id", PStr (value (TG_USER_ID (env R))));
               (str "text", PStr (megaphone ++ title' ++ [10%N; 10%N] ++ content'));
               (str "parse_mode", PStr (str "HTML")) ]))
  ∧ (unset (DD_BOT_TOKEN (env R)) = false →
     unset (DD_BOT_SECRET (env R)) = true
     ∨ is_Some (encodeURIComponent R
                  (hmac_sha256_base64 R (value (DD_BOT_SECRET (env R)))
                     (show_N (Date_now R) ++ [10%N] ++ value (DD_BOT_SECRET (env R))))) →
     posts_body tr
       (PObj [ (str "msgtype", PStr (str "text"));
               (str "text",
                PObj [ (str "content", PStr (title' ++ [10%N; 10%N] ++ content')) ]) ]))
  ∧ (unset (WW_BOT_KEY (env R)) = false →
     posts_body tr
       (PObj [ (str "msgtype", PStr (str "text"));
               (str "text",
                PObj [ (str "content", PStr (title' ++ [10%N; 10%N] ++ content')) ]) ]))
  ∧ (∀ t c, unset (BARK_PUSH (env R)) = false →
       encodeURIComponent R title' = Some t → encodeURIComponent R content' = Some c →
       ∃ q ok base, Post q ok ∈ tr ∧ url q = base ++ str "/" ++ t ++ str "/" ++ c)
  ∧ (unset (PUSH_PLUS_TOKEN (env R)) = false →
     posts_body tr
       (PObj [ (str "token", PStr (value (PUSH_PLUS_TOKEN (env R))));
               (str "title", PStr title');
               (str "content", PStr (replace_newlines (str "<br>") content'));
               (str "template", PStr (str "html")) ]))
  ∧ (unset (FEISHU_BOT_TOKEN (env R)) = false →
     posts_body tr
       (PObj [ (str "msg_type", PStr (str "text"));
               (str "content",
                PObj [ (str "text", PStr (title' ++ [10%N; 10%N] ++ content')) ]) ])).
Proof.
  intros Hlen content' title' tr.
  assert (tr = notifyMethods R
                 ≫= (fun m => Invoke (name m) title' content' :: (func m title' content').1))
    as Htrace.
  { subst tr.
    rewrite sendNotify_unfold
      by (intros [_ ->]; unfold js_length in Hlen; simpl in Hlen; lia).
    cbv zeta. by rewrite (bool_decide_eq_true_2 _ Hlen). }
  assert (∀ m q ok, m ∈ notifyMethods R → (func m title' content').1 = [Post q ok] →
                    Post q ok ∈ tr) as Hhas.
  { intros m q ok Hm Hq. rewrite Htrace. by eapply fan_out_has. }
  assert (∀ (f : jsstring → jsstring → M bool) (b : payload) (nm : jsstring),
            {| name := nm; func := f |} ∈ notifyMethods R →
            (∃ q ok, (f title' content').1 = [Post q ok] ∧ SendNotify.body q = b) →
            posts_body tr b) as Hposts.
  { intros f b nm Hm (q & ok & Hq & Hb). exists q, ok. split; [|done].
    by apply (Hhas _ q ok Hm). }
  split_and!.
  - unfold content', js_length, substring0 in *.
    rewrite length_app, length_take.
    change (List.length truncated_marker) with 14. lia.
  - rewrite Htrace. unfold notifyMethods. simpl. by rewrite app_nil_r.
  - intros n t c. rewrite Htrace.
    intros (m & Hin & Hm)%list_elem_of_bind.
    apply elem_of_cons in Hin as [Hin|Hin]; [by injection Hin as _ -> ->|].
    pose proof (notifyMethods_post R title' content') as Hall.
    rewrite Forall_forall in Hall.
    destruct (Hall m Hm) as [Hr | (q & b & Hr)]; rewrite Hr in Hin; simpl in Hin.
    + by apply elem_of_nil in Hin.
    + by apply list_elem_of_singleton in Hin.
  - intros Hset. apply (Hposts (serverChanNotify R) _ name_serverchan); [listed|by apply serverChanNotify_sends].
  - intros H1 H2. apply (Hposts (telegramNotify R) _ (str "Telegram")); [listed|by apply telegramNotify_sends].
  - intros H1 H2. apply (Hposts (dingTalkNotify R) _ name_dingtalk); [listed|by apply dingTalkNotify_sends].
  - intros Hset. apply (Hposts (workWechatNotify R) _ name_wechat); [listed|by apply workWechatNotify_sends].
  - intros t c Hset Ht Hc.
    destruct (barkNotify_sends R title' content' t c Hset Ht Hc)
      as (q & ok & base & Hq & Hurl).
    exists q, ok, base. split; [|done].
    by apply (Hhas {| name := str "Bark"; func := barkNotify R |}); [listed|].
  - intros Hset. apply (Hposts (pushPlusNotify R) _ (str "PushPlus")); [listed|by apply pushPlusNotify_sends].
  - intros Hset. apply (Hposts (feishuNotify R) _ name_feishu); [listed|by apply feishuNotify_sends].
Qed.
End send_notify_properties.
(** * Further properties of [ybt_sign.js], cache variant *)

Section account_list.
Import JS YbtSign Reading.
Context {num : Type} `{!JSNumber num}.
Implicit Types (E : environment (num:=num)) (σ : state (num:=num)).
Implicit Types (u w s : jsstring) (sep : N → bool).

Lemma split_on_elem sep s w c :
  w ∈ split_on sep s → c ∈ w → c ∈ s ∧ sep c = false.
Proof.
  revert w. induction s as [|x s IH]; intros w Hw Hc; simpl in Hw.
  - apply list_elem_of_singleton in Hw as ->. by apply elem_of_nil in Hc.
  - destruct (sep x) eqn:Hx.
    + apply elem_of_cons in Hw as [-> | Hw]; [by apply elem_of_nil in Hc|].
      destruct (IH w Hw Hc). split; [by right|done].
    + destruct (split_on sep s) as [|w0 ws] eqn:Hs.
      * apply list_elem_of_singleton in Hw as ->.
        apply list_elem_of_singleton in Hc as ->. split; [left|done].
      * apply elem_of_cons in Hw as [-> | Hw].
        -- apply elem_of_cons in Hc as [-> | Hc]; [split; [left|done]|].
           destruct (IH w0) as [? ?]; [left|done|]. split; [by right|done].
        -- destruct (IH w) as [? ?]; [by right|done|]. split; [by right|done].
  Qed.

Lemma split_on_cover sep s c :
  c ∈ s → sep c = false → ∃ w, w ∈ split_on sep s ∧ c ∈ w.
Proof.
  induction s as [|x s IH]; intros Hc Hsep; [by apply elem_of_nil in Hc|].
  simpl. apply elem_of_cons in Hc as [-> | Hc].
  - rewrite Hsep. destruct (split_on sep s) as [|w0 ws].
    + exists [x]. split; left.
    + exists (x :: w0). split; left.
  - destruct (IH Hc Hsep) as (w & Hw & Hcw).
    destruct (sep x); [exists w; split; [by right|done]|].
    destruct (split_on sep s) as [|w0 ws]; [by apply elem_of_nil in Hw|].
    apply elem_of_cons in Hw as [-> | Hw].
    + exists (x :: w0). split; [left|by right].
    + exists w. split; [by right|done].
Qed.

Lemma split_on_clean sep w :
  (∀ c, c ∈ w → sep c = false) → split_on sep w = [w].
Proof.
  induction w as [|x w IH]; intros Hw; [done|]. simpl.
  rewrite (Hw x) by left. rewrite IH; [done|]. intros c Hc. apply Hw. by right.
Qed.

Lemma split_on_app sep w x s :
  (∀ c, c ∈ w → sep c = false) → sep x = true →
  split_on sep (w ++ x :: s) = w :: split_on sep s.
Proof.
  induction w as [|y w IH]; intros Hw Hx; simpl; [by rewrite Hx|].
  rewrite (Hw y) by left. rewrite IH; [done| |done].
  intros c Hc. apply Hw. by right.
Qed.

Lemma trim_start_elem s c : c ∈ trim_start s → c ∈ s.
Proof.
  induction s as [|x s IH]; [done|]. simpl.
  destruct (is_space x); [|done]. intros Hc. right. by apply IH.
Qed.

Lemma trim_start_keeps s c : c ∈ s → is_space c = false → c ∈ trim_start s.
Proof.
  induction s as [|x s IH]; intros Hc Hsp; [done|]. simpl.
  destruct (is_space x) eqn:Hx; [|done].
  apply elem_of_cons in Hc as [-> | Hc]; [congruence|]. by apply IH.
Qed.

Lemma trim_start_spaces s : (∀ c, c ∈ s → is_space c = true) → trim_start s = [].
Proof.
  induction s as [|x s IH]; intros Hs; [done|]. simpl.
  rewrite (Hs x) by left. apply IH. intros c Hc. apply Hs. by right.
Qed.

Lemma trim_start_head s :
  match trim_start s with [] => True | c :: _ => is_space c = false end.
Proof.
  induction s as [|x s IH]; [done|]. simpl.
  destruct (is_space x) eqn:Hx; [done|]. simpl. done.
Qed.

Lemma trim_start_app s c t :
  is_space c = false → trim_start (s ++ c :: t) = trim_start s ++ c :: t.
Proof.
  intros Hc. induction s as [|x s IH]; simpl; [by rewrite Hc|].
  by destruct (is_space x).
Qed.

Lemma trim_start_fixed s :
  match s with [] => True | c :: _ => is_space c = false end → trim_start s = s.
Proof. destruct s as [|c s]; [done|]. simpl. by intros ->. Qed.

(** [trim] by cases on what [trim_start] leaves. *)
Lemma trim_unfold s :
  trim s = match trim_start s with
           | [] => []
           | c :: r => c :: reverse (trim_start (reverse r))
           end.
Proof.
  unfold trim. pose proof (trim_start_head s) as Hhead.
  destruct (trim_start s) as [|c r]; [done|].
  rewrite reverse_cons, trim_start_app by done.
  by rewrite reverse_app.
Qed.

Lemma trim_elem s c : c ∈ trim s → c ∈ s.
Proof.
  unfold trim. rewrite elem_of_reverse. intros Hc%trim_start_elem.
  rewrite elem_of_reverse in Hc. by apply trim_start_elem.
Qed.

Lemma trim_keeps s c : c ∈ s → is_space c = false → c ∈ trim s.
Proof.
  intros Hc Hsp. unfold trim. rewrite elem_of_reverse.
  apply trim_start_keeps; [|done]. rewrite elem_of_reverse.
  by apply trim_start_keeps.
Qed.

Lemma trim_idemp s : trim (trim s) = trim s.
Proof.
  rewrite (trim_unfold s). pose proof (trim_start_head s) as Hhead.
  destruct (trim_start s) as [|c r]; [done|].
  rewrite trim_unfold. simpl. rewrite Hhead.
  rewrite reverse_involutive.
  by rewrite (trim_start_fixed (trim_start (reverse r))) by apply trim_start_head.
Qed.

Lemma getUserList_elem E u :
  u ∈ getUserList E ↔
  u ≠ [] ∧ ∃ users w, YBT_USERS E = Some users
                      ∧ w ∈ split_on newline_or_amp users ∧ u = trim w.
Proof.
  unfold getUserList. destruct (YBT_USERS E) as [users|].
  2:{ split; [by intros ?%elem_of_nil|]. by intros (_ & ? & ? & ? & _). }
  assert (u ∈ filter (fun user : jsstring => 0 < List.length user)
                     (trim <$> split_on newline_or_amp users)
          ↔ u ≠ [] ∧ ∃ w, w ∈ split_on newline_or_amp users ∧ u = trim w) as Hin.
  { rewrite list_elem_of_filter, list_elem_of_fmap. split.
    - intros [Hlen (w & -> & Hw)]. split; [|by eauto].
      intros Hnil. rewrite Hnil in Hlen. simpl in Hlen. lia.
    - intros [Hne (w & Hw & ->)]. split; [|by eauto].
      destruct (trim w); [done|simpl; lia]. }
  destruct users as [|c users].
  - split; [by intros ?%elem_of_nil|].
    intros (Hne & ? & w & [= <-] & Hw & ->). simpl in Hw.
    by apply list_elem_of_singleton in Hw as ->.
  - rewrite Hin. split.
    + intros [Hne (w & Hw & ->)]. split; [done|]. by exists (c :: users), w.
    + intros [Hne (? & w & [= <-] & Hw & ->)]. split; [done|]. by exists w.
Qed.

(** X1: every name [getUserList] returns is not empty, has no newline and no
    ampersand in it, and has no white space at either end. *)
Theorem getUserList_names_are_clean E u :
  u ∈ getUserList E → clean_name u.
Proof.
  intros (Hne & users & w & _ & Hw & ->)%getUserList_elem.
  split_and!; [done| |apply trim_idemp].
  intros c Hc%trim_elem. by destruct (split_on_elem _ _ _ _ Hw Hc).
Qed.

Lemma join_names_nonempty (sepc : N) (names : list jsstring) :
  names ≠ [] → Forall clean_name names → join_names sepc names ≠ [].
Proof.
  destruct names as [|u rest]; [done|]. intros _ Hall.
  apply Forall_cons in Hall as [(Hu & _ & _) _].
  destruct rest; simpl; [done|]. by destruct u.
Qed.

Lemma split_join_names (sepc : N) (names : list jsstring) :
  newline_or_amp sepc = true → names ≠ [] → Forall clean_name names →
  split_on newline_or_amp (join_names sepc names) = names.
Proof.
  intros Hsep Hne Hall. induction names as [|u rest IH]; [done|].
  apply Forall_cons in Hall as [(Hu & Hclean & _) Hrest].
  destruct rest as [|v rest].
  - simpl. by apply split_on_clean.
  - change (join_names sepc (u :: v :: rest))
      with (u ++ sepc :: join_names sepc (v :: rest)).
    rewrite split_on_app by done. by rewrite IH.
Qed.

(** X2: the account list read back: clean names written with one newline or
    one ampersand between two are returned as they are, in the same order
    and with their repetitions. *)
Theorem getUserList_join_names E (sepc : N) (names : list jsstring) :
  sepc = 10%N ∨ sepc = 38%N →
  names ≠ [] → Forall clean_name names →
  YBT_USERS E = Some (join_names sepc names) →
  getUserList E = names.
Proof.
  intros Hsep Hne Hall Husers.
  assert (newline_or_amp sepc = true) as Hsepb by (by destruct Hsep as [-> | ->]).
  unfold getUserList. rewrite Husers.
  pose proof (join_names_nonempty sepc names Hne Hall) as Hjoin.
  destruct (join_names sepc names) as [|c rest] eqn:Hj; [done|].
  rewrite <-Hj, split_join_names by done.
  clear Hj Hjoin Husers Hne. induction Hall as [|u rest' (Hu & _ & Htrim) _ IH]; [done|].
  rewrite fmap_cons, Htrim, filter_cons_True; [by rewrite IH|].
  destruct u; [done|simpl; lia].
Qed.

(** X3: a run without accounts: [getUserList] is empty exactly when
    [YBT_USERS] is unset or holds nothing but white space, newlines and
    ampersands, and then [main] does nothing: no cache read, no request, no
    notification. *)
Theorem main_without_accounts E σ :
  (getUserList E = [] ↔
     YBT_USERS E = None
     ∨ ∃ users, YBT_USERS E = Some users
                ∧ ∀ c, c ∈ users → is_space c = true ∨ c = 38%N)
  ∧ (getUserList E = [] → main E σ = σ).
Proof.
  split.
  - split.
    + intros Hnil. destruct (YBT_USERS E) as [users|] eqn:Husers; [right|by left].
      exists users. split; [done|]. intros c Hc.
      destruct (is_space c) eqn:Hsp; [by left|right].
      destruct (decide (c = 38%N)) as [|Hamp]; [done|exfalso].
      assert (newline_or_amp c = false) as Hsep.
      { unfold newline_or_amp. rewrite (bool_decide_eq_false_2 (c = 38%N)) by done.
        rewrite bool_decide_eq_false_2; [done|]. by intros ->. }
      destruct (split_on_cover _ _ _ Hc Hsep) as (w & Hw & Hcw).
      assert (trim w ∈ getUserList E) as Hin.
      { apply getUserList_elem. split; [|by exists users, w].
        intros Hempty. pose proof (trim_keeps w c Hcw Hsp) as Hk.
        rewrite Hempty in Hk. by apply elem_of_nil in Hk. }
      rewrite Hnil in Hin. by apply elem_of_nil in Hin.
    + intros Hblank. destruct (getUserList E) as [|u rest] eqn:Hlist; [done|exfalso].
      assert (u ∈ getUserList E) as Hin by (rewrite Hlist; left).
      apply getUserList_elem in Hin as (Hne & users & w & Husers & Hw & ->).
      destruct Hblank as [Hnone | (users' & Husers' & Hblank)]; [congruence|].
      assert (users' = users) as -> by congruence.
      apply Hne. rewrite trim_unfold, trim_start_spaces; [done|].
      intros c Hc. destruct (split_on_elem _ _ _ _ Hw Hc) as [Hcu Hsep].
      destruct (Hblank c Hcu) as [? | ->]; [done|]. by vm_compute in Hsep.
  - intros Hnil. unfold main. by rewrite Hnil.
Qed.
End account_list.

(** One step of the retry loop, under a name the module of the script
    does not hide. *)
Lemma performSign_step {num : Type}
    (E : YbtSign.environment (num:=num)) (u : JS.jsstring) (retryCount : nat)
    (σ : YbtSign.state (num:=num)) :
  YbtSign.performSign E u retryCount σ
  = match YbtSign.axios E u σ with
    | (inl (status, data), σ1) => (YbtSign.Answered status data, σ1)
    | (inr error, σ1) =>
        if bool_decide (retryCount < YbtSign.MAX_RETRY) && YbtSign.retryable error
        then YbtSign.performSign E u (S retryCount)
               (YbtSign.delay YbtSign.RETRY_DELAY σ1)
        else (YbtSign.Failed (YbtSign.err_message error) (YbtSign.err_code error), σ1)
    end.
Proof. exact (performSign_unfold E u retryCount σ). Qed.

Section retry_and_classification.
Import JS YbtSign Reading.
Context {num : Type} `{!JSNumber num}.
Implicit Types (E : environment (num:=num)) (σ : state (num:=num)).
Implicit Types (v entry data signData : json num) (k u : jsstring).

Lemma axios_caught E u σ :
  axios E u σ
  = (match caught E (sent σ) u with
     | Some e => inr e
     | None => match upstream E (sent σ) u with
               | Response status data => inl (status, data)
               | NoResponse e => inr e
               end
     end, issue u σ).
Proof.
  unfold axios, caught. destruct (upstream E (sent σ) u) as [status data|e]; [|done].
  by destruct (validateStatus status).
Qed.

Lemma performSign_outcome_from E u retryCount σ r :
  retryCount ≤ MAX_RETRY →
  r = performSign E u retryCount σ →
  ∃ retries,
    retries ≤ MAX_RETRY - retryCount
    ∧ r.2 = {| cache_file := cache_file σ; sent := sent σ + S retries;
               trace := trace σ ++ attempts u retries |}
    ∧ (∀ i, i < retries →
         ∃ e, caught E (sent σ + i) u = Some e ∧ retryable e = true)
    ∧ match r.1 with
      | Answered status data =>
          upstream E (sent σ + retries) u = Response status data
          ∧ (status = 200 ∨ status = 400)
      | Failed error code =>
          ∃ e, caught E (sent σ + retries) u = Some e
               ∧ error = err_message e ∧ code = err_code e
               ∧ (retries = MAX_RETRY - retryCount ∨ retryable e = false)
      end.
Proof.
  remember (MAX_RETRY - retryCount) as budget eqn:Hb.
  revert retryCount σ r Hb.
  assert (∀ status, validateStatus status = true → status = 200 ∨ status = 400)
    as Hvalid.
  { intros status Hv. unfold validateStatus in Hv.
    apply orb_true_iff in Hv as [?%bool_decide_eq_true|?%bool_decide_eq_true]; auto. }
  assert (∀ σ e,
            caught E (sent σ) u = Some e →
            ∃ retries : nat,
              retries ≤ 0
              ∧ issue u σ = {| cache_file := cache_file σ; sent := sent σ + S retries;
                               trace := trace σ ++ attempts u retries |}
              ∧ (∀ i, i < retries →
                   ∃ e, caught E (sent σ + i) u = Some e ∧ retryable e = true)
              ∧ ∃ e', caught E (sent σ + retries) u = Some e'
                      ∧ err_message e = err_message e' ∧ err_code e = err_code e')
    as Hstop.
  { intros σ e He. exists 0. rewrite Nat.add_0_r.
    split_and!; [lia|by unfold issue; rewrite Nat.add_1_r|intros; lia|eauto]. }
  induction budget as [|budget IH]; intros retryCount σ r Hb Hle Hr;
    rewrite performSign_step in Hr;
    pose proof (axios_caught E u σ) as Hax;
    destruct (axios E u σ) as [[[status data]|error] σ1];
    injection Hax as Hres ->.
  - subst r. simpl. exists 0. rewrite Nat.add_0_r. unfold caught in Hres.
    destruct (upstream E (sent σ) u) as [status' data'|e] eqn:Hup; [|done].
    destruct (validateStatus status') eqn:Hv; [|done]. injection Hres as <- <-.
    split_and!; [lia|by unfold issue; rewrite Nat.add_1_r|intros; lia|done|auto].
  - rewrite bool_decide_eq_false_2 in Hr by lia. subst r. simpl.
    assert (caught E (sent σ) u = Some error) as Hc.
    { unfold caught in *. destruct (upstream E (sent σ) u) as [status' ?|?]; [|congruence].
      destruct (validateStatus status'); [done|congruence]. }
    destruct (Hstop σ error Hc) as (n & Hn & Hstate & Hbefore & e' & He' & Hm & Hcode).
    exists n. split_and!; [lia|done|done|].
    exists e'. split_and!; [done..|]. left. lia.
  - subst r. simpl. exists 0. rewrite Nat.add_0_r. unfold caught in Hres.
    destruct (upstream E (sent σ) u) as [status' data'|e] eqn:Hup; [|done].
    destruct (validateStatus status') eqn:Hv; [|done]. injection Hres as <- <-.
    split_and!; [lia|by unfold issue; rewrite Nat.add_1_r|intros; lia|done|auto].
  - rewrite bool_decide_eq_true_2 in Hr by lia.
    assert (caught E (sent σ) u = Some error) as Hc.
    { unfold caught in *. destruct (upstream E (sent σ) u) as [status' ?|?]; [|congruence].
      destruct (validateStatus status'); [done|congruence]. }
    simpl in Hr. destruct (retryable error) eqn:Hre.
    + destruct (IH (S retryCount) (delay RETRY_DELAY (issue u σ)) r)
        as (n & Hn & Hstate & Hbefore & Hlast); [lia..|done|].
      exists (S n). split_and!; [lia| | |].
      * rewrite Hstate. simpl. f_equal; [lia|]. by rewrite <-!app_assoc.
      * intros [|i] Hi.
        -- exists error. by rewrite Nat.add_0_r.
        -- destruct (Hbefore i) as (e' & He & Hre'); [lia|].
           exists e'. split; [|done]. simpl in He.
           by replace (sent σ + S i) with (S (sent σ + i)) by lia.
      * simpl in Hlast.
        replace (sent σ + S n) with (S (sent σ + n)) by lia.
        destruct r.1; [done|].
        destruct Hlast as (e' & ? & ? & ? & Hl). exists e'.
        split_and!; [done..|]. destruct Hl; [left; lia|by right].
    + subst r. simpl.
      destruct (Hstop σ error Hc) as (n & Hn & Hstate & Hbefore & e' & He' & Hm & Hcode).
      assert (n = 0) as -> by lia. rewrite Nat.add_0_r in He'.
      assert (e' = error) as -> by congruence.
      exists 0. rewrite Nat.add_0_r. split_and!; [lia|done|intros; lia|].
      exists error. auto.
Qed.

(** X4: [performSign] on any service: it sends between one and four requests
    for the account, with a delay of 2000 ms before each retry and nothing
    else in the trace, and leaves the cache file alone. Every request before
    the last met a retryable error. The result is the answer to the last
    request, whose status is then 200 or 400, or the message and the code of
    the error of the last request, which is then the fourth request or an
    error that is not retryable. *)
Theorem performSign_outcome E u σ :
  ∃ retries,
    retries ≤ 3
    ∧ (performSign E u 0 σ).2
      = {| cache_file := cache_file σ; sent := sent σ + S retries;
           trace := trace σ ++ attempts u retries |}
    ∧ (∀ i, i < retries →
         ∃ e, caught E (sent σ + i) u = Some e ∧ retryable e = true)
    ∧ match (performSign E u 0 σ).1 with
      | Answered status data =>
          upstream E (sent σ + retries) u = Response status data
          ∧ (status = 200 ∨ status = 400)
      | Failed error code =>
          ∃ e, caught E (sent σ + retries) u = Some e
               ∧ error = err_message e ∧ code = err_code e
               ∧ (retries = 3 ∨ retryable e = false)
      end.
Proof.
  apply (performSign_outcome_from E u 0 σ (performSign E u 0 σ)); [|done].
  unfold MAX_RETRY. lia.
Qed.

(** *** Classification and the cache file *)

Lemma app_cons_not_nil (l r : jsstring) (c : N) : l ++ c :: r ≠ [].
Proof. by destruct l. Qed.

Lemma full_details_not_nil (d : json num) (m s : jsstring) :
  full_details d m = Some s → s ≠ [].
Proof.
  unfold full_details. intros Hs.
  destruct (to_string (or_default (get d (str "message")) _)); [|done].
  destruct (to_string (or_default (get d (str "sign_count")) _)); [|done].
  destruct (to_string (or_default (get d (str "get_traffic")) _)); [|done].
  destruct (to_string (or_default (get d (str "total_traffic")) _)); [|done].
  simpl in Hs. injection Hs as <-. apply app_cons_not_nil.
Qed.

Lemma limited_details_not_nil (d : json num) (s : jsstring) :
  limited_details d = Some s → s ≠ [].
Proof.
  unfold limited_details. intros Hs.
  destruct (to_string (or_default (get d (str "message")) _)); [|done].
  destruct (to_string (or_default (get d (str "sign_count")) _)); [|done].
  simpl in Hs. injection Hs as <-. apply app_cons_not_nil.
Qed.

(** X5: the outcome of any classification that returns one: it carries the
    user name it was made for; it is a success exactly when its source is not
    ['error'] and a first sign-in exactly when its source is ['api']; the
    source fixes the message of a success; and the details are never
    empty. *)
Theorem processSignResult_outcome_shape E u (result : sign_result (num:=num)) σ :
  ∀ o, (processSignResult E u result σ).1 = Some o →
  username o = u
  ∧ (success o = true ↔ dataSource o ≠ Error)
  ∧ (isFirstSign o = true ↔ dataSource o = Api)
  ∧ (dataSource o = Api → message o = sign_ok)
  ∧ (dataSource o = Cache ∨ dataSource o = ApiLimited → message o = already_signed)
  ∧ details o ≠ [].
Proof.
  intros o. unfold processSignResult.
  pose proof full_details_not_nil as Hfull.
  pose proof limited_details_not_nil as Hlim.
  destruct result as [status data|error code];
    [destruct (bool_decide (status = 200) && _ && _ && _ && _);
       [destruct (full_details _ _) eqn:Hd
       |destruct (truthy_opt _ && is_true _);
           [destruct (getFromCache E u σ) as [cachedData σ1];
            destruct (truthy_opt cachedData);
              [destruct (full_details _ _) eqn:Hd|destruct (limited_details _) eqn:Hd]
           |destruct (is_string _ _)]]|];
    simpl; intros [= <-]; simpl; split_and!;
    solve [done | by split | by intros [?|?] | by eapply Hfull | by eapply Hlim].
Qed.

Lemma writeCache_cases E (cache : cache_object (num:=num)) σ :
  (cache_writable E = false ∧ writeCache E cache σ = σ)
  ∨ (cache_writable E = true ∧ rewritten σ (writeCache E cache σ) cache).
Proof. unfold writeCache, rewritten. destruct (cache_writable E); auto. Qed.

Lemma readCache_cases E σ :
  (readCache E σ).2 = σ
  ∨ (cache_writable E = true ∧ rewritten σ (readCache E σ).2 (readCache E σ).1).
Proof.
  rewrite readCache_state. case_bool_decide; [|by left].
  destruct (writeCache_cases E (readCache E σ).1 σ) as [[_ ->]|[? ?]]; auto.
Qed.

Lemma readCache_today E σ k entry :
  own (readCache E σ).1 !! k = Some entry →
  get entry (str "date") = Some (JStr (today E)).
Proof. rewrite readCache_own_lookup. tauto. Qed.

Lemma written_today E (m : gmap jsstring (json num)) :
  (∀ k entry, m !! k = Some entry → get entry (str "date") = Some (JStr (today E))) →
  ∀ k entry, (written <$> m) !! k = Some entry →
    get entry (str "date") = Some (JStr (today E)).
Proof.
  intros Hm k entry. rewrite lookup_fmap.
  destruct (m !! k) as [v|] eqn:Hv; [|done]. intros [= <-].
  rewrite get_written, (Hm k v Hv). done.
Qed.

Lemma assign_today E (cache : cache_object (num:=num)) u signData :
  (∀ k entry, own cache !! k = Some entry →
     get entry (str "date") = Some (JStr (today E))) →
  ∀ k entry, own (assign cache u (cache_entry_fields E signData)) !! k = Some entry →
    get entry (str "date") = Some (JStr (today E)).
Proof.
  intros Hm k entry. unfold assign.
  destruct (bool_decide (u = proto_key) && _ && _); simpl; [apply Hm|].
  destruct (decide (k = u)) as [->|Hk].
  - rewrite lookup_insert_eq. by intros [= <-].
  - rewrite lookup_insert_ne by done. apply Hm.
Qed.

Lemma cache_step_refl E σ : cache_step E σ σ.
Proof.
  split_and!; [done| |done|by left]. exists 0. split; [lia|]. simpl.
  by rewrite app_nil_r.
Qed.

Lemma readCache_step E σ : cache_step E σ (readCache E σ).2.
Proof.
  destruct (readCache_cases E σ) as [-> | [Hw ->]]; [apply cache_step_refl|].
  split_and!; simpl; [done| |congruence|].
  - exists 1. split; [lia|done].
  - right. eexists. split; [done|]. apply written_today, readCache_today.
Qed.

Lemma saveToCache_step E u (x : option (json num)) (b : bool) σ :
  cache_step E σ (saveToCacheIfFirstSign E u x b σ).
Proof.
  unfold saveToCacheIfFirstSign. destruct x as [signData|]; [|apply cache_step_refl].
  destruct (negb b || negb (truthy signData)); [apply cache_step_refl|].
  pose proof (readCache_cases E σ) as Hread.
  pose proof (readCache_today E σ) as Htoday.
  destruct (readCache E σ) as [cache σ1]. simpl in *.
  destruct (writeCache_cases E (assign cache u (cache_entry_fields E signData)) σ1)
    as [[Hw ->]|[Hw ->]].
  - destruct Hread as [-> | [? _]]; [apply cache_step_refl|congruence].
  - split_and!; simpl.
    + by destruct Hread as [-> | [_ ->]].
    + destruct Hread as [-> | [_ ->]]; simpl.
      * exists 1. split; [lia|done].
      * exists 2. split; [lia|]. by rewrite <-app_assoc.
    + congruence.
    + right. eexists. split; [done|]. by apply written_today, assign_today.
Qed.

(** Classification and the rest of the state: [processSignResult] sends
    no request; it adds at most two writes of the cache file to the trace and
    nothing else; when the file cannot be written the state is unchanged; and
    a file it has written is an object all of whose entries carry the date of
    the current day. *)
Lemma processSignResult_step E u (result : sign_result (num:=num)) σ :
  cache_step E σ (processSignResult E u result σ).2.
Proof.
  unfold processSignResult.
  destruct result as [status data|error code]; [|apply cache_step_refl].
  destruct (bool_decide (status = 200) && _ && _ && _ && _).
  { apply saveToCache_step. }
  destruct (truthy_opt _ && is_true _).
  - pose proof (getFromCache_snd E u σ) as Hsnd.
    destruct (getFromCache E u σ) as [cachedData σ1]. simpl in Hsnd. subst σ1.
    destruct (truthy_opt cachedData); apply readCache_step.
  - destruct (is_string _ _); apply cache_step_refl.
Qed.

(** X6: what a classification does to the state: it sends no request, it writes
    the cache file at most twice, it changes nothing when the file cannot be
    written, and a file it has written holds entries of the current day
    only. *)
Theorem processSignResult_frame E u (result : sign_result (num:=num)) σ :
  let σ' := (processSignResult E u result σ).2 in
  sent σ' = sent σ
  ∧ (∃ n, n ≤ 2 ∧ trace σ' = trace σ ++ replicate n WriteCache)
  ∧ (cache_writable E = false → σ' = σ)
  ∧ (cache_file σ' = cache_file σ
     ∨ ∃ m, cache_file σ' = FileJson (JObj m)
            ∧ ∀ k entry, m !! k = Some entry →
                get entry (str "date") = Some (JStr (today E))).
Proof.
  apply processSignResult_step.
Qed.

Lemma or_default_again (x : option (json num)) (d1 d2 : json num) :
  truthy d1 = true ∨ d1 = d2 →
  or_default (Some (or_default x d1)) d2 = or_default x d1.
Proof.
  intros Hd. unfold or_default at 1.
  destruct (truthy (or_default x d1)) eqn:Ht; [done|].
  destruct Hd as [Hd | <-].
  - unfold or_default in Ht. destruct x as [v|]; [|congruence].
    destruct (truthy v) eqn:Hv; congruence.
  - unfold or_default in *. destruct x as [v|]; [|done].
    destruct (truthy v) eqn:Hv; congruence.
Qed.

Lemma full_details_of_entry E signData :
  full_details (cache_entry E signData) already_signed = full_details signData sign_ok.
Proof.
  unfold full_details.
  change (get (cache_entry E signData) (str "message"))
    with (Some (or_default (get signData (str "message")) (JStr sign_ok))).
  change (get (cache_entry E signData) (str "sign_count"))
    with (Some (or_default (get signData (str "sign_count")) (JNum num_zero))).
  change (get (cache_entry E signData) (str "get_traffic"))
    with (Some (or_default (get signData (str "get_traffic")) (JNum num_zero))).
  change (get (cache_entry E signData) (str "total_traffic"))
    with (Some (or_default (get signData (str "total_traffic")) (JNum num_zero))).
  rewrite !or_default_again; auto.
Qed.

(** The entries of the file after a first sign-in, when the file could be
    written: under the user name, unless it is [__proto__], what
    [JSON.stringify] writes of the new entry; under [__proto__], for another
    user name, nothing; under every other key, what it writes of the entry
    of before, if that carries the date of the current day. *)
Lemma saveToCache_lookup E u signData σ k :
  truthy signData = true → cache_writable E = true →
  k ≠ proto_key →
  cached_entries (saveToCacheIfFirstSign E u (Some signData) true σ) !! k
  = if decide (k = u) then Some (written (cache_entry E signData))
    else written <$> todays E (cached_entries σ) !! k.
Proof.
  intros Hs Hw Hk. rewrite (saveToCache_entries E u signData σ Hs Hw), lookup_fmap.
  destruct (decide (k = u)) as [->|Hne].
  - by rewrite assign_own_eq.
  - rewrite assign_own_ne, readCache_own by done.
    f_equal. unfold todays. destruct (filter _ (delete _ _) !! k) as [v|] eqn:Hv.
    + apply map_lookup_filter_Some in Hv as [Hv Hd].
      rewrite lookup_delete_ne in Hv by done. symmetry.
      by apply map_lookup_filter_Some.
    + destruct (filter _ (cached_entries σ) !! k) as [v|] eqn:Hv'; [|done].
      apply map_lookup_filter_Some in Hv' as [Hv' Hd].
      assert (filter (λ kv : jsstring * json num, dated_today E (Some kv.2) = true)
                (delete proto_key (cached_entries σ)) !! k = Some v) as Hin.
      { apply map_lookup_filter_Some. by rewrite lookup_delete_ne. }
      congruence.
Qed.

(** X7: the cache at work: after a first sign-in of an account, other than
    [__proto__], has been classified, the cache file could be written, and
    what [JSON.stringify] writes of the new entry reads back as the entry (it
    holds no number that is not finite), an already-signed answer for the
    same account, on the same day, is served from the cache, and its details
    are the details of the first outcome, line for line. *)
Theorem repeat_sign_shows_first_details E u data signData g t status' data' signData' σ :
  get data (str "data") = Some signData →
  get signData (str "sign_status") = Some (JBool true) →
  get signData (str "get_traffic") = Some (JNum g) →
  get signData (str "total_traffic") = Some (JNum t) →
  cache_writable E = true →
  u ≠ proto_key →
  written (cache_entry E signData) = cache_entry E signData →
  get data' (str "data") = Some signData' →
  get signData' (str "sign_status") = Some (JBool true) →
  status' ≠ 200
  ∨ is_number (get signData' (str "get_traffic")) = false
  ∨ is_number (get signData' (str "total_traffic")) = false →
  let first := processSignResult E u (Answered 200 data) σ in
  let again := (processSignResult E u (Answered status' data') first.2).1 in
  ∀ o, first.1 = Some o →
    ∃ o', again = Some o'
          ∧ dataSource o' = Cache ∧ success o' = true ∧ isFirstSign o' = false
          ∧ details o' = details o.
Proof.
  intros Hd Hs Hg Ht Hw Hu Hstable Hd' Hs' Hnot first again o. subst first again.
  rewrite (processSignResult_first E u data signData g t σ Hd Hs Hg Ht).
  cbn [fst snd].
  rewrite (processSignResult_already_signed _ _ _ _ _ _ Hd' Hs'
             (not_complete_200 _ _ _ Hd' Hnot)).
  cbn [fst].
  assert (lookup (readCache E (saveToCacheIfFirstSign E u (Some signData) true σ)).1 u
          = Some (cache_entry E signData)) as ->.
  { apply lookup_own, readCache_own_lookup. split; [done|].
    rewrite (saveToCache_lookup E u signData σ u (get_Some_truthy _ _ _ Hs) Hw Hu).
    rewrite decide_True by done. rewrite Hstable. split; [done|].
    rewrite <-Hstable. apply cache_entry_date. }
  rewrite (proj2 (dated_today_Some E (cache_entry E signData))).
  2:{ rewrite <-Hstable. apply cache_entry_date. }
  change (default JNull (Some (cache_entry E signData))) with (cache_entry E signData).
  rewrite full_details_of_entry.
  destruct (full_details signData sign_ok) as [details1|]; [|done].
  simpl. intros [= <-]. eexists. split; [done|]. done.
Qed.

(** X8: the other accounts at a first sign-in: when the file could be written,
    it holds afterwards, under every other user name, what [JSON.stringify]
    writes of the entries it held before that carry the date of the current
    day, and nothing else; but it holds nothing under [__proto__]. *)
Theorem first_sign_keeps_other_accounts E u data signData g t σ k entry' :
  get data (str "data") = Some signData →
  get signData (str "sign_status") = Some (JBool true) →
  get signData (str "get_traffic") = Some (JNum g) →
  get signData (str "total_traffic") = Some (JNum t) →
  cache_writable E = true →
  k ≠ u →
  cached_entries (processSignResult E u (Answered 200 data) σ).2 !! k = Some entry'
  ↔ k ≠ proto_key
    ∧ ∃ entry, cached_entries σ !! k = Some entry
               ∧ get entry (str "date") = Some (JStr (today E))
               ∧ entry' = written entry.
Proof.
  intros Hd Hs Hg Ht Hw Hk.
  rewrite (processSignResult_first E u data signData g t σ Hd Hs Hg Ht).
  cbn [fst snd].
  destruct (decide (k = proto_key)) as [->|Hp].
  - rewrite (saveToCache_entries E u signData σ (get_Some_truthy _ _ _ Hs) Hw).
    rewrite lookup_fmap, assign_own_ne, readCache_own by done.
    unfold todays. rewrite map_lookup_filter, lookup_delete_eq. simpl.
    split; [done|]. by intros [? _].
  - rewrite (saveToCache_lookup E u signData σ k (get_Some_truthy _ _ _ Hs) Hw Hp).
    rewrite decide_False by done.
    destruct (todays E (cached_entries σ) !! k) as [v|] eqn:Hv; simpl.
    + apply todays_lookup in Hv as [Hv Hdate]. split.
      * intros [= <-]. split; [done|]. by exists v.
      * intros [_ (entry & Hentry & _ & ->)]. congruence.
    + split; [done|]. intros [_ (entry & Hentry & Hdate & ->)].
      assert (todays E (cached_entries σ) !! k = Some entry) as Hin
        by by apply todays_lookup.
      congruence.
Qed.

(** X9: an unknown account: an answer whose body has the message
    ['用户不存在'], and whose [data], if it has one, does not say signed in,
    is classified as such, with the advice to check the user name, whatever
    its status; the state is unchanged. *)
Theorem processSignResult_unknown_account E u status data σ :
  get data (str "message") = Some (JStr no_such_user) →
  (∀ signData, get data (str "data") = Some signData →
     get signData (str "sign_status") ≠ Some (JBool true)) →
  processSignResult E u (Answered status data) σ
  = (Some {| username := u; success := false; message := no_such_user;
             details := check_username; isFirstSign := false; dataSource := Error |},
     σ).
Proof.
  intros Hm Hd. unfold processSignResult.
  assert (is_true (and_get (and_get (Some data) (str "data")) (str "sign_status"))
          = false) as Hs.
  { destruct (is_true _) eqn:Hs; [exfalso|done].
    apply is_true_Some, and_get_inv in Hs as (signData & Hsd & Hs).
    apply and_get_inv in Hsd as (? & [= <-] & Hsd). by apply (Hd signData). }
  rewrite Hs, !andb_false_r, (and_get_Some _ _ _ Hm). by simpl.
Qed.
End retry_and_classification.

Section whole_run.
Import JS YbtSign Reading.
Context {num : Type} `{!JSNumber num}.
Implicit Types (E : environment (num:=num)) (σ : state (num:=num)).








(** X11: what [main] hands over: never more than 1500 code units. A report of
    at most 1500 units is handed over as it is; a longer one is cut to its
    first 1400 units followed by the marker, 1414 units in all. *)
Theorem finalMessage_length (notifyMessage : jsstring) :
  (js_length (finalMessage notifyMessage) <= 1500)%N
  ∧ ((js_length notifyMessage <= 1500)%N → finalMessage notifyMessage = notifyMessage)
  ∧ ((1500 < js_length notifyMessage)%N →
       finalMessage notifyMessage = take 1400 notifyMessage ++ truncated_marker
       ∧ js_length (finalMessage notifyMessage) = 1414%N).
Proof.
  unfold finalMessage, js_length, substring0.
  change (N.to_nat 1400) with 1400.
  case_bool_decide as Hlong.
  - rewrite length_app, length_take.
    change (List.length truncated_marker) with 14.
    split_and!; [lia|lia|]. intros _. split; [done|lia].
  - split_and!; [lia|done|lia].
Qed.
End whole_run.

(** * Further properties of [sendNotify.js] *)

Section channels.
Import JS SendNotify Reading.
Implicit Types (R : runtime) (title content body : jsstring) (m : method).

Ltac timed_channel :=
  unfold one_timed_post_at_most, axios_post, encode, mbind, M_bind, mret, M_ret,
    bind, try_catch, tell, throw, ret;
  repeat match goal with
         | |- context [if ?b then _ else _] => destruct b eqn:?
         | |- context [match ?x with Some _ => _ | None => _ end] => destruct x eqn:?
         end;
  simpl; rewrite ?app_nil_r; eauto 10.

Lemma notifyMethods_timed R title content :
  Forall (fun m => one_timed_post_at_most (func m title content)) (notifyMethods R).
Proof.
  unfold notifyMethods. repeat apply Forall_cons_2; simpl; [..|done].
  - unfold serverChanNotify. timed_channel.
  - unfold telegramNotify. timed_channel.
  - unfold dingTalkNotify. timed_channel.
  - unfold workWechatNotify. timed_channel.
  - unfold barkNotify. timed_channel.
  - unfold pushPlusNotify. timed_channel.
  - unfold feishuNotify. timed_channel.
Qed.

Lemma invoked_fan_out title content (methods : list method) :
  Forall (fun m => one_timed_post_at_most (func m title content)) methods →
  invoked (methods ≫= (fun m => Invoke (name m) title content :: (func m title content).1))
  = name <$> methods.
Proof.
  induction 1 as [|m rest Hm _ IH]; [done|].
  rewrite bind_cons, fmap_cons. unfold invoked in *. rewrite omap_app, IH.
  destruct Hm as [-> | (q & b & -> & _)]; done.
Qed.

Lemma posted_fan_out title content (methods : list method) :
  Forall (fun m => one_timed_post_at_most (func m title content)) methods →
  List.length (posted (methods
     ≫= (fun m => Invoke (name m) title content :: (func m title content).1)))
  ≤ List.length methods
  ∧ Forall (fun q => timeout q = NOTIFY_timeout)
      (posted (methods
         ≫= (fun m => Invoke (name m) title content :: (func m title content).1))).
Proof.
  induction 1 as [|m rest Hm _ [IHlen IHall]]; [by split|].
  rewrite bind_cons. unfold posted in *. rewrite omap_app, length_app, Forall_app.
  destruct Hm as [-> | (q & b & -> & Hq)]; simpl.
  - split; [lia|]. split; [constructor|done].
  - split; [lia|]. split; [by repeat constructor|done].
Qed.

(** X12: a call with a title or a content calls the seven channel functions
    once each, in the order Server酱, Telegram, DingTalk, WeChat Work, Bark,
    PushPlus, Feishu; a call with neither calls none and returns [false].
    A call sends at most seven requests, each with the timeout of 10000 ms,
    none of them repeated. *)
Theorem sendNotify_calls_and_requests R title content :
  (title = [] ∧ content = [] → sendNotify R title content = ([], Returned false))
  ∧ (¬ (title = [] ∧ content = []) →
       invoked (sendNotify R title content).1
       = [name_serverchan; str "Telegram"; name_dingtalk; name_wechat; str "Bark";
          str "PushPlus"; name_feishu])
  ∧ List.length (posted (sendNotify R title content).1) ≤ 7
  ∧ Forall (fun q => timeout q = 10000%N) (posted (sendNotify R title content).1).
Proof.
  destruct (decide (title = [] ∧ content = [])) as [[-> ->]|Hne].
  { split_and!; [done|naive_solver|simpl; lia|constructor]. }
  rewrite (sendNotify_unfold R title content Hne). cbv zeta. cbn [fst].
  set (title' := if bool_decide (title = []) then default_title else title).
  set (content' := if bool_decide (4000 < js_length content)%N then _ else content).
  pose proof (notifyMethods_timed R title' content') as Hall.
  destruct (posted_fan_out title' content' _ Hall) as [Hlen Htime].
  split_and!; [done| |done|done].
  intros _. by rewrite invoked_fan_out.
Qed.

Lemma sendNotify_short_invoke R title content n t c :
  (js_length content <= 4000)%N →
  Invoke n t c ∈ (sendNotify R title content).1 →
  c = content ∧ t = (if bool_decide (title = []) then default_title else title).
Proof.
  intros Hshort Hin.
  destruct (decide (title = [] ∧ content = [])) as [[-> ->]|Hne].
  { by apply elem_of_nil in Hin. }
  rewrite (sendNotify_unfold R title content Hne) in Hin. cbv zeta in Hin.
  rewrite (bool_decide_eq_false_2 (4000 < js_length content)%N) in Hin by lia.
  cbn [fst] in Hin.
  apply list_elem_of_bind in Hin as (m & Hin & Hm).
  apply elem_of_cons in Hin as [Hin|Hin]; [by injection Hin as _ -> ->|].
  pose proof (notifyMethods_timed R
    (if bool_decide (title = []) then default_title else title) content) as Hall.
  rewrite Forall_forall in Hall.
  destruct (Hall m Hm) as [Hr | (q & b & Hr & _)]; rewrite Hr in Hin; simpl in Hin.
  - by apply elem_of_nil in Hin.
  - by apply list_elem_of_singleton in Hin.
Qed.

(** X13: a body of at most 4000 code units reaches every channel function as it
    is, and so does the title, but for an empty title, which is replaced by
    the default title. *)
Theorem sendNotify_short_content_unchanged R title content n t c :
  (js_length content <= 4000)%N →
  Invoke n t c ∈ (sendNotify R title content).1 →
  c = content ∧ t = (if bool_decide (title = []) then default_title else title).
Proof. apply sendNotify_short_invoke. Qed.

(** X14: from [main] to the channels: what [main] of the check-in script hands
    over, a report cut to at most 1500 units under the title
    ['YBT 签到报告'], is not cut again by [sendNotify]: every channel
    function is called with that title and that message. *)
Theorem main_message_reaches_channels_uncut R (notifyMessage : jsstring) n t c :
  Invoke n t c
    ∈ (sendNotify R YbtSign.notify_title (YbtSign.finalMessage notifyMessage)).1 →
  t = YbtSign.notify_title ∧ c = YbtSign.finalMessage notifyMessage.
Proof.
  intros Hin.
  assert (js_length (YbtSign.finalMessage notifyMessage) <= 4000)%N as Hshort.
  { unfold YbtSign.finalMessage, js_length, substring0.
    change (N.to_nat 1400) with 1400.
    case_bool_decide; [|lia].
    rewrite length_app, length_take.
    change (List.length YbtSign.truncated_marker) with 14. lia. }
  destruct (sendNotify_short_invoke R YbtSign.notify_title _ n t c Hshort Hin)
    as [-> ->].
  done.
Qed.

Lemma replace_newlines_elem (r s : jsstring) (c : N) :
  c ∈ replace_newlines r s → c ∈ r ∨ (c ∈ s ∧ c ≠ 10%N).
Proof.
  unfold replace_newlines. intros (x & Hc & Hx)%list_elem_of_bind.
  case_bool_decide as Hnl; [by left|].
  apply list_elem_of_singleton in Hc as ->. by right.
Qed.

Lemma replace_newlines_none (r s : jsstring) :
  10%N ∉ s → replace_newlines r s = s.
Proof.
  unfold replace_newlines. induction s as [|x s IH]; intros Hs; [done|].
  rewrite bind_cons, IH by set_solver.
  rewrite bool_decide_eq_false_2; [done|]. set_solver.
Qed.

(** X15: what PushPlus is sent: one request to the one address of the service,
    whose content is the body with every newline replaced by [<br>], so that
    it has no newline left; a body without newlines is sent as it is. *)
Theorem pushPlusNotify_content_has_no_newline R title content q b :
  Post q b ∈ (pushPlusNotify R title content).1 →
  url q = str "https://www.pushplus.plus/send"
  ∧ ∃ sent_content,
      body q = PObj [ (str "token", PStr (value (PUSH_PLUS_TOKEN (env R))));
                      (str "title", PStr title);
                      (str "content", PStr sent_content);
                      (str "template", PStr (str "html")) ]
      ∧ (10%N ∉ sent_content)
      ∧ (10%N ∉ content → sent_content = content).
Proof.
  unfold pushPlusNotify. destruct (unset (PUSH_PLUS_TOKEN (env R))).
  { by intros ?%elem_of_nil. }
  unfold axios_post, mbind, M_bind, mret, M_ret, bind, try_catch, tell, throw, ret.
  set (r := {| url := _; body := _; timeout := _ |}).
  intros Hin.
  assert (Post q b = Post r (resolves R r)) as [= -> ->].
  { destruct (resolves R r); simpl in Hin;
      by apply list_elem_of_singleton in Hin. }
  split; [done|]. eexists. split; [done|]. split.
  - intros [Hbr | [_ ?]]%replace_newlines_elem; [|done].
    apply list_elem_of_In in Hbr. vm_compute in Hbr. intuition discriminate.
  - apply replace_newlines_none.
Qed.

(** X16: Bark and a title or body that cannot be encoded: when
    [encodeURIComponent] throws on either, the exception stays inside the
    channel, which sends no request and returns [false]. When both can be
    encoded, one request goes to the address followed by the encoded title
    and the encoded body, the address being the value of [BARK_PUSH] itself
    when it starts with [http] and the Bark server followed by the value
    otherwise. *)
Theorem barkNotify_request R title content :
  unset (BARK_PUSH (env R)) = false →
  match encodeURIComponent R title, encodeURIComponent R content with
  | Some t, Some c =>
      let base := if starts_with (str "http") (value (BARK_PUSH (env R)))
                  then value (BARK_PUSH (env R))
                  else str "https://api.day.app/" ++ value (BARK_PUSH (env R)) in
      let q := {| url := base ++ str "/" ++ t ++ str "/" ++ c; body := PObj [];
                  timeout := NOTIFY_timeout |} in
      barkNotify R title content = ([Post q (resolves R q)], Returned (resolves R q))
  | _, _ => barkNotify R title content = ([], Returned false)
  end.
Proof.
  intros Hset. unfold barkNotify. rewrite Hset.
  unfold axios_post, encode, mbind, M_bind, mret, M_ret, bind, try_catch, tell,
    throw, ret.
  destruct (encodeURIComponent R title) as [t|]; [|done].
  destruct (encodeURIComponent R content) as [c|]; [|done].
  cbv zeta. simpl.
  destruct (resolves R _); by rewrite ?app_nil_r.
Qed.
End channels.

(** * Properties of the variant of [ybt_sign.js] without cache *)

Section panel_notifier.
Import JS YbtSignPlain.
Implicit Types (P : panel) (R : SendNotify.runtime) (title content url : jsstring).

Lemma accepted_dec (answer : option nat) : Decision (accepted answer).
Proof. unfold accepted. apply _. Qed.

Lemma try_urls_step P url rest title content :
  try_urls P (url :: rest) title content
  = if decide (accepted (P url title content))
    then (true, [Put url title content (P url title content)])
    else ((try_urls P rest title content).1,
          Put url title content (P url title content)
            :: (try_urls P rest title content).2).
Proof.
  cbn [try_urls]. unfold accepted, axios_put.
  destruct (try_urls P rest title content) as [found tr].
  destruct (P url title content) as [status|].
  2:{ destruct (decide _) as [[Ha | Ha]|Ha]; done. }
  destruct (decide _) as [Ha|Ha].
  - destruct Ha as [Ha | Ha]; injection Ha as ->; done.
  - destruct ((200 <=? status) && (status <? 300)); [|done].
    destruct (bool_decide (status = 200) || bool_decide (status = 201)) eqn:Hs; [|done].
    exfalso. apply Ha.
    apply orb_true_iff in Hs as [Hs | Hs]; apply bool_decide_eq_true in Hs;
      subst status; auto.
Qed.

Lemma try_urls_found P urls title content i url :
  urls !! i = Some url →
  accepted (P url title content) →
  (∀ j url', j < i → urls !! j = Some url' → ¬ accepted (P url' title content)) →
  try_urls P urls title content
  = (true, (fun url' => Put url' title content (P url' title content)) <$> take (S i) urls).
Proof.
  revert i. induction urls as [|url0 rest IH]; intros i Hi Hacc Hbefore; [done|].
  rewrite try_urls_step. destruct i as [|i].
  - injection Hi as ->. by rewrite decide_True.
  - rewrite decide_False by (apply (Hbefore 0); [lia|done]).
    rewrite (IH i); [done..|].
    intros j url' Hj Hurl'. apply (Hbefore (S j)); [lia|done].
Qed.

Lemma try_urls_none P urls title content :
  (∀ url, url ∈ urls → ¬ accepted (P url title content)) →
  try_urls P urls title content
  = (false, (fun url' => Put url' title content (P url' title content)) <$> urls).
Proof.
  induction urls as [|url0 rest IH]; intros Hnone; [done|].
  rewrite try_urls_step, decide_False by (apply Hnone; left).
  rewrite IH; [done|]. intros url Hurl. apply Hnone. by right.
Qed.

(** X17: [sendQLNotify] tries the six addresses of the panel in order and stops
    at the first that answers 200 or 201: it returns [true], has sent a PUT
    to that address and to each one before it, and has called no channel of
    [sendNotify]. *)
Theorem sendQLNotify_stops_at_first_panel P R title content i url :
  possibleUrls !! i = Some url →
  accepted (P url title content) →
  (∀ j url', j < i → possibleUrls !! j = Some url' → ¬ accepted (P url' title content)) →
  sendQLNotify P R title content
  = (true,
     (fun url' => Put url' title content (P url' title content))
       <$> take (S i) possibleUrls).
Proof.
  intros Hi Hacc Hbefore. unfold sendQLNotify.
  by rewrite (try_urls_found P possibleUrls title content i url).
Qed.

(** X18: when no address of the panel answers 200 or 201, whatever else
    happens to the six requests, [sendQLNotify] falls back on [sendNotify]:
    after the six PUTs, in order, come the events of [sendNotify] for the
    same title and content, and the result is the result of [sendNotify]. *)
Theorem sendQLNotify_falls_back P R title content :
  (∀ url, url ∈ possibleUrls → ¬ accepted (P url title content)) →
  ∃ result,
    (SendNotify.sendNotify R title content).2 = SendNotify.Returned result
    ∧ sendQLNotify P R title content
      = (result,
         ((fun url' => Put url' title content (P url' title content)) <$> possibleUrls)
         ++ (Channel <$> (SendNotify.sendNotify R title content).1)).
Proof.
  intros Hnone. unfold sendQLNotify, fallbackSendNotify.
  rewrite (try_urls_none P possibleUrls title content Hnone).
  destruct (decide (title = [] ∧ content = [])) as [[-> ->]|Hne].
  { by exists false. }
  rewrite (sendNotify_unfold R title content Hne). cbv zeta. eauto.
Qed.
End panel_notifier.
Section two_variants.
Import JS YbtSign.
Context {num : Type} `{!JSNumber num}.
Implicit Types (E : environment (num:=num)) (σ : state (num:=num)).

(** X19: the two classifications side by side, on a result of [performSign]
    (a failure, or an answer with status 200 or 400). When both return an
    outcome: whatever the cache variant counts as a success, the variant
    without cache does too, and on a failure and on an answer with status 400
    the two agree on success and message. And whatever the variant without
    cache returns as a failure, the cache variant returns too, as a failure
    with the same message and details. *)
Theorem plain_and_cache_classification E (u : jsstring) result σ :
  (∀ status data, result = Answered status data → status = 200 ∨ status = 400) →
  let p := YbtSignPlain.processSignResult E u result in
  let c := (processSignResult E u result σ).1 in
  (∀ op oc, p = Some op → c = Some oc →
     success oc = true → YbtSignPlain.success op = true)
  ∧ ((∀ data, result ≠ Answered 200 data) →
       ∀ op oc, p = Some op → c = Some oc →
         YbtSignPlain.success op = success oc ∧ YbtSignPlain.message op = message oc)
  ∧ (∀ op, p = Some op → YbtSignPlain.success op = false →
       ∃ oc, c = Some oc
             ∧ success oc = false ∧ YbtSignPlain.message op = message oc
             ∧ YbtSignPlain.details op = details oc).
Proof.
  intros Hstatus p c. subst p c.
  unfold processSignResult, YbtSignPlain.processSignResult.
  destruct result as [status data|error code].
  2:{ simpl. split_and!.
    - by intros op oc [= <-] [= <-].
    - by intros _ op oc [= <-] [= <-].
    - intros op [= <-] _. by eexists. }
  destruct (Hstatus status data eq_refl) as [-> | ->].
  - rewrite !(bool_decide_eq_true_2 (200 = 200)) by done.
    rewrite (bool_decide_eq_false_2 (200 = 400)) by done.
    rewrite !andb_true_l, !andb_false_l.
    destruct (truthy_opt (and_get (Some data) (str "data"))) eqn:Hsd.
    + rewrite !andb_true_l.
      destruct (full_details (default JNull (and_get (Some data) (str "data"))) sign_ok)
        as [details0|] eqn:Hfull; simpl.
      * split_and!.
        -- by intros op oc [= <-] _ _.
        -- intros Hno. by destruct (Hno data).
        -- by intros op [= <-] ?.
      * split_and!; [done|intros Hno; by destruct (Hno data)|done].
    + rewrite !andb_false_l.
      destruct (is_string _ _); simpl;
        (split_and!;
           [by intros op oc [= <-] [= <-]
           |intros Hno; by destruct (Hno data)
           |intros op [= <-] _; by eexists]).
  - rewrite !(bool_decide_eq_false_2 (400 = 200)) by done.
    rewrite (bool_decide_eq_true_2 (400 = 400)) by done.
    rewrite !andb_true_l, !andb_false_l.
    destruct (truthy_opt _ && is_true _).
    + destruct (getFromCache E u σ) as [cachedData σ1].
      destruct (YbtSignPlain.repeat_details _) as [details0|]; simpl;
        [|by destruct (truthy_opt cachedData)].
      destruct (truthy_opt cachedData);
        [destruct (full_details _ _)|destruct (limited_details _)]; simpl;
        (split_and!;
           [try done; by intros op oc [= <-] [= <-]
           |try done; by intros _ op oc [= <-] [= <-]
           |by intros op [= <-] ?]).
    + destruct (is_string _ _); simpl;
        (split_and!;
           [by intros op oc [= <-] [= <-]
           |by intros _ op oc [= <-] [= <-]
           |intros op [= <-] _; by eexists]).
Qed.
End two_variants.

(** * Properties of the weekly notification script *)

Section weekly_properties.
Import JS WeeklyNotify.
Context {num : Type} `{!JSNumber num}.
Implicit Types (config d : json num) (env_title : option jsstring).

Lemma getWeekdayName_known wd : wd < 7 → getWeekdayName wd ≠ unknown_day.
Proof.
  intros Hwd. do 7 (destruct wd as [|wd]; [by vm_compute|]). lia.
Qed.

Lemma valid_string_check (x : option (json num)) :
  negb (truthy_opt x) || negb (is_a_string x) = false →
  ∃ s, s ≠ [] ∧ x = Some (JStr s).
Proof.
  destruct x as [[| | |s| |]|]; simpl; rewrite ?orb_true_r; try done.
  destruct s as [|c s]; [done|]. intros _. by exists (c :: s).
Qed.

Lemma day_errors_nil i (dayConfig : option (json num)) d :
  day_errors i dayConfig = [] → dayConfig = Some d → truthy d = true →
  ∃ t s, t ≠ [] ∧ s ≠ []
         ∧ get d (str "title") = Some (JStr t)
         ∧ get d (str "content") = Some (JStr s).
Proof.
  intros Herr -> Hd. unfold day_errors in Herr. simpl in Herr. rewrite Hd in Herr.
  apply app_eq_nil in Herr as [Htitle Hcontent].
  destruct (negb (truthy_opt (get d (str "title"))) || _) eqn:Ht; [done|].
  destruct (negb (truthy_opt (get d (str "content"))) || _) eqn:Hs; [done|].
  apply valid_string_check in Ht as (t & ? & ?), Hs as (s & ? & ?).
  by exists t, s.
Qed.

Lemma validateConfig_nil config :
  validateConfig config = [] →
  config ≠ JNull
  ∧ ∃ notifications,
      get config (str "notifications") = Some notifications
      ∧ truthy notifications = true
      ∧ ∀ i, i < 7 → day_errors i (at_index notifications i) = [].
Proof.
  unfold validateConfig.
  destruct (negb (truthy config) || negb (is_object config)) eqn:Hc; [done|].
  cbv zeta.
  destruct (negb (truthy_opt (get config (str "notifications"))) || _) eqn:Hn; [done|].
  apply orb_false_elim in Hn as [Hn _]. apply negb_false_iff in Hn.
  destruct (get config (str "notifications")) as [notifications|]; [|done].
  simpl in Hn. cbn [default]. unfold id. intros Hall.
  split; [by intros ->|].
  exists notifications. split_and!; [done..|].
  intros i Hi.
  assert (i ∈ seq 0 7) as Hin by (apply elem_of_seq; lia).
  destruct (day_errors i (at_index notifications i)) as [|e es] eqn:He; [done|].
  assert (e ∈ seq 0 7 ≫= (fun i => day_errors i (at_index notifications i))) as Hbad.
  { apply list_elem_of_bind. exists i. split; [|done]. rewrite He. left. }
  rewrite Hall in Hbad. by apply elem_of_nil in Hbad.
Qed.

(** X20: a configuration that [validateConfig] accepts, on any day of the week:
    [getTodayNotification] does not throw, provided the fallback message of
    the settings, if there is one, is a string, and the title prefix can be
    printed (it is not an object with a property [toString], nor an array
    with such an element), neither of which [validateConfig] checks. It
    returns [null] or a notification for the name of the day
    whose content is a string; and when the configuration has an entry for
    the day, the notification carries the title and the content of that
    entry, both not empty, the title after the prefix and a dash. *)
Theorem validated_config_gives_notification env_title wd config prefix :
  validateConfig config = [] →
  wd < 7 →
  (∀ v, and_get (get config (str "settings")) (str "fallback_message") = Some v →
        truthy v = true → ∃ message, v = JStr message) →
  titlePrefix env_title config = Some prefix →
  ∃ r notifications,
    getTodayNotification env_title wd config = Returns r
    ∧ get config (str "notifications") = Some notifications
    ∧ ∀ n, r = Some n →
        weekday n = getWeekdayName wd
        ∧ getWeekdayName wd ≠ unknown_day
        ∧ (∃ s, content n = Some (JStr s))
        ∧ ∀ d, at_index notifications wd = Some d → truthy d = true →
            ∃ t s, t ≠ [] ∧ s ≠ []
                   ∧ get d (str "title") = Some (JStr t)
                   ∧ get d (str "content") = Some (JStr s)
                   ∧ title n = prefix ++ dash ++ t
                   ∧ content n = Some (JStr s).
Proof.
  intros (Hnull & notifications & Hns & Htruthy & Hdays)%validateConfig_nil Hwd Hfallback
    Hprefix.
  pose proof (getWeekdayName_known wd Hwd) as Hname.
  unfold getTodayNotification. rewrite Hns, Hprefix. simpl. rewrite Htruthy.
  set (settings := get config (str "settings")) in *.
  assert (∀ x : thrown (option (@notification num)),
            match config with JNull => TypeError | _ => x end = x) as Hmatch
    by (intros x; by destruct config).
  rewrite Hmatch. clear Hmatch.
  destruct (truthy_opt settings && _).
  { exists None, notifications. split_and!; [done..|]. by intros n. }
  destruct (at_index notifications wd) as [d|] eqn:Hd; simpl.
  - destruct (truthy d) eqn:Htd.
    + destruct (day_errors_nil wd (Some d) d) as (t & s & Ht & Hs & Hgt & Hgs);
        [by rewrite <-Hd; apply Hdays|done..|].
      rewrite Hgt. simpl.
      eexists _, notifications. split_and!; [done..|].
      intros n [= <-]. simpl. rewrite ?Htd, ?Hgt, ?Hgs.
      split_and!; [done|done|by eauto|].
      intros d' Hd' _. assert (d' = d) as -> by congruence.
      exists t, s. by rewrite ?Hgt, ?Hgs.
    + destruct (or_default _ _) as [| | |message| |] eqn:Hor;
        try (exfalso; unfold or_default in Hor;
             destruct (and_get settings (str "fallback_message")) as [v|] eqn:Hv;
             [destruct (truthy v) eqn:Htv;
                [destruct (Hfallback v eq_refl Htv) as [? ->]; done|done]
             |done]).
      eexists _, notifications. split_and!; [done..|].
      intros n [= <-]. simpl. split_and!; [done|done|by eauto|].
      intros d' Hd' Htd'. assert (d' = d) as -> by congruence. congruence.
  - destruct (or_default _ _) as [| | |message| |] eqn:Hor;
      try (exfalso; unfold or_default in Hor;
           destruct (and_get settings (str "fallback_message")) as [v|] eqn:Hv;
           [destruct (truthy v) eqn:Htv;
              [destruct (Hfallback v eq_refl Htv) as [? ->]; done|done]
           |done]).
    eexists _, notifications. split_and!; [done..|].
    intros n [= <-]. simpl. split_and!; [done|done|by eauto|].
    intros d' Hd'. congruence.
Qed.

(** X21: without an entry for the day and without a fallback message in the
    settings, a configuration that is not [null] and not disabled, and whose
    title prefix can be printed, gives the built-in message with the name of the day in place of [{weekday}], under
    the title made of the prefix, a dash and the name of the day. This holds
    for configurations [validateConfig] rejects too, such as one without
    [notifications]. *)
Theorem default_fallback_notification env_title wd config prefix :
  config ≠ JNull →
  get config (str "settings") = None →
  titlePrefix env_title config = Some prefix →
  (∀ notifications, get config (str "notifications") = Some notifications →
     truthy notifications = true →
     truthy_opt (at_index notifications wd) = false) →
  getTodayNotification env_title wd config
  = Returns (Some
      {| title := prefix ++ dash ++ getWeekdayName wd;
         content := Some (JStr ([20170; 22825; 26159; 32]%N ++ getWeekdayName wd
                                ++ [65292; 31069; 20320; 26377; 32654; 22909; 30340;
                                    19968; 22825; 65281; 32; 55357; 56842]%N));
         weekday := getWeekdayName wd |}).
Proof.
  intros Hnull Hsettings Hprefix Hday. unfold getTodayNotification.
  rewrite Hsettings, Hprefix. simpl.
  assert ((if truthy_opt (get config (str "notifications"))
           then at_index (default JNull (get config (str "notifications"))) wd
           else None) = None
          ∨ truthy_opt (if truthy_opt (get config (str "notifications"))
                        then at_index (default JNull (get config (str "notifications"))) wd
                        else None) = false) as Hnone.
  { destruct (get config (str "notifications")) as [notifications|]; [|by left].
    simpl. destruct (truthy notifications) eqn:Hn; [|by left].
    right. by apply Hday. }
  assert (truthy_opt (if truthy_opt (get config (str "notifications"))
                      then at_index (default JNull (get config (str "notifications"))) wd
                      else None) = false) as ->.
  { by destruct Hnone as [-> | ->]. }
  destruct config; done.
Qed.
End weekly_properties.

(** * The properties on the sample runs *)

Section sample_runs.
Import JS YbtSign Reading Samples.

(** The answer the specification names for C1, [sign_status: false] with
    numeric traffic fields and status 200, is not classified as a first
    sign-in: the outcome is a failure with source ['error'], and no cache
    entry is written. And where C1 as amended says nothing: for the user name
    [__proto__] a first sign-in writes a file without an entry, and for a
    message that cannot be printed [processSignResult] throws. *)
Lemma C1_counterexample :
  (get unsigned_body (str "data") = Some unsigned_data
   ∧ get unsigned_data (str "sign_status") = Some (JBool false)
   ∧ is_number (get unsigned_data (str "get_traffic")) = true
   ∧ is_number (get unsigned_data (str "total_traffic")) = true
   ∧ ∃ o σ', processSignResult E_one alice (Answered 200 unsigned_body) no_cache
             = (Some o, σ')
             ∧ success o = false ∧ isFirstSign o = false ∧ dataSource o = Error
             ∧ cached_entries σ' !! alice = None ∧ cache_file σ' = FileMissing)
  ∧ (∃ o σ', processSignResult E_one proto_key (Answered 200 first_sign_body) no_cache
             = (Some o, σ')
             ∧ isFirstSign o = true
             ∧ cache_file σ' = FileJson (JObj ∅))
  ∧ (processSignResult E_one alice (Answered 200 odd_first_body) no_cache).1 = None.
Proof.
  split_and!; try (by vm_compute).
  - eexists _, _. split; [vm_compute; reflexivity|]. by vm_compute.
  - eexists _, _. split; [vm_compute; reflexivity|]. by vm_compute.
Qed.

(** C1 as amended, on a first sign-in answer for alice with no cache file. *)
Lemma C1_witness :
  get first_sign_body (str "data") = Some first_sign_data
  ∧ get first_sign_data (str "sign_status") = Some (JBool true)
  ∧ get first_sign_data (str "get_traffic") = Some (JNum 50%Z)
  ∧ get first_sign_data (str "total_traffic") = Some (JNum 500%Z)
  ∧ cache_writable E_one = true
  ∧ alice ≠ proto_key
  ∧ (∃ o, (processSignResult E_one alice (Answered 200 first_sign_body) no_cache).1
          = Some o
          ∧ isFirstSign o = true
          ∧ details o = sign_ok ++ [10%N] ++ total_days ++ str "10" ++ days_nl
                        ++ got_traffic ++ str "50" ++ mb_nl
                        ++ total_traffic_colon ++ str "500" ++ mb)
  ∧ cached_entries (processSignResult E_one alice (Answered 200 first_sign_body) no_cache).2
      !! alice = Some todays_entry.
Proof.
  assert (get first_sign_body (str "data") = Some first_sign_data) as Hd
    by reflexivity.
  assert (get first_sign_data (str "sign_status") = Some (JBool true)) as Hs
    by reflexivity.
  assert (get first_sign_data (str "get_traffic") = Some (JNum 50%Z)) as Hg
    by reflexivity.
  assert (get first_sign_data (str "total_traffic") = Some (JNum 500%Z)) as Ht
    by reflexivity.
  assert (alice ≠ proto_key) as Hne by discriminate.
  pose proof (C1_first_sign_classified_and_cached E_one alice first_sign_body
                first_sign_data 50%Z 500%Z sign_ok (str "10") no_cache Hd Hs Hg Ht
                eq_refl eq_refl) as H.
  cbv zeta in H. destruct H as [(o & Ho & _ & _ & Hfirst & _ & _ & Hdetails) Hcache].
  destruct (Hcache eq_refl Hne) as [Hentry _].
  split_and!; try assumption; [reflexivity|].
  exists o. split_and!; assumption.
Defined.

(** The account list the specification names for C2, one name twice: the
    run signs in twice and the report counts two accounts, while the list
    without its repetition has one entry. *)
Lemma C2_counterexample :
  YBT_USERS E_twice = Some (str "alice&alice")
  ∧ getUserList E_twice = [alice; alice]
  ∧ List.length (remove_dups (getUserList E_twice)) = 1
  ∧ ∃ results σ',
      main E_twice no_cache
      = delay 1000%N
          (emit (Notify notify_title (finalMessage (formatNotifyMessage E_twice results)))
                σ')
      ∧ List.length results = 2
      ∧ includes (formatNotifyMessage E_twice results)
                 (total_accounts ++ str "2" ++ count_nl) = true
      ∧ includes (formatNotifyMessage E_twice results)
                 (total_accounts ++ str "1" ++ count_nl) = false.
Proof.
  split_and!; [by vm_compute..|].
  exists (sign_all E_twice (getUserList E_twice) (readCache E_twice no_cache).2).1,
         (sign_all E_twice (getUserList E_twice) (readCache E_twice no_cache).2).2.
  split_and!; by vm_compute.
Qed.

(** C2 on that list: the entries are [alice; alice] and the report counts
    them both. *)
Lemma C2_witness :
  YBT_USERS E_twice = Some (str "alice&alice")
  ∧ filter (fun user : jsstring => 0 < List.length user)
           (trim <$> split_on newline_or_amp (str "alice&alice")) = [alice; alice]
  ∧ ∃ results σ' rest,
      main E_twice no_cache
      = delay 1000%N
          (emit (Notify notify_title (finalMessage (formatNotifyMessage E_twice results)))
                σ')
      ∧ List.length results = 2
      ∧ formatNotifyMessage E_twice results
        = report_title_line ++ replicate 30 61%N ++ [10%N; 10%N] ++ overview_line
          ++ total_accounts ++ str "2" ++ count_nl ++ rest.
Proof.
  assert (filter (fun user : jsstring => 0 < List.length user)
                 (trim <$> split_on newline_or_amp (str "alice&alice")) = [alice; alice])
    as Hentries by (vm_compute; reflexivity).
  assert (filter (fun user : jsstring => 0 < List.length user)
                 (trim <$> split_on newline_or_amp (str "alice&alice")) ≠ []) as Hne
    by (rewrite Hentries; discriminate).
  pose proof (C2_report_total_counts_every_entry E_twice no_cache (str "alice&alice")
                eq_refl Hne) as H.
  cbv zeta in H. rewrite Hentries in H. destruct H as [_ H].
  split; [reflexivity|]. split; [exact Hentries|]. exact H.
Defined.

(** C3 on three services: two timeouts then an answer, no answer at all,
    and status 400 at once. *)
Lemma C3_witness :
  upstream E_flaky (sent no_cache) alice = NoResponse timeout_error
  ∧ retryable timeout_error = true
  ∧ upstream E_flaky (S (S (sent no_cache))) alice = Response 200 first_sign_body
  ∧ performSign E_flaky alice 0 no_cache
    = (Answered 200 first_sign_body,
       {| cache_file := FileMissing; sent := 3;
          trace := [Request alice; Delay 2000%N; Request alice; Delay 2000%N;
                    Request alice] |})
  ∧ upstream E_down (S (S (S (sent no_cache)))) alice = NoResponse reset_error
  ∧ performSign E_down alice 0 no_cache
    = (Failed (err_message reset_error) (err_code reset_error),
       {| cache_file := FileMissing; sent := 4;
          trace := [Request alice; Delay 2000%N; Request alice; Delay 2000%N;
                    Request alice; Delay 2000%N; Request alice] |})
  ∧ performSign E_400 alice 0 no_cache = (Answered 400 first_sign_body, issue alice no_cache).
Proof.
  destruct (C3_performSign_retry_policy E_flaky alice no_cache)
    as (_ & _ & _ & Hflaky & _ & _).
  destruct (C3_performSign_retry_policy E_down alice no_cache)
    as (_ & _ & _ & _ & Hdown & _).
  destruct (C3_performSign_retry_policy E_400 alice no_cache)
    as (_ & _ & _ & _ & _ & H400).
  split; [reflexivity|]. split; [reflexivity|]. split; [reflexivity|].
  split.
  { apply (Hflaky timeout_error timeout_error 200 first_sign_body);
      (reflexivity || (left; reflexivity)). }
  split; [reflexivity|]. split.
  { apply (Hdown timeout_error timeout_error timeout_error reset_error); reflexivity. }
  apply (H400 first_sign_body). reflexivity.
Defined.

(** An already-signed answer for alice, whose entry of today has a
    message that cannot be printed: [processSignResult] throws. And for the
    user name [__proto__], whose entry of today has a property [__proto__]:
    the outcome is a limited one, not one from the cache. *)
Lemma C5_counterexample :
  (cached_entries odd_cache !! alice = Some odd_entry
   ∧ get odd_entry (str "date") = Some (JStr (today E_400))
   ∧ get already_body (str "data") = Some already_data
   ∧ get already_data (str "sign_status") = Some (JBool true)
   ∧ is_number (get already_data (str "get_traffic")) = false
   ∧ (processSignResult E_400 alice (Answered 400 already_body) odd_cache).1 = None)
  ∧ (cached_entries nested_cache !! proto_key = Some nested_entry
     ∧ get nested_entry (str "date") = Some (JStr (today E_400))
     ∧ ∃ o, (processSignResult E_400 proto_key (Answered 400 already_body)
               nested_cache).1 = Some o
            ∧ dataSource o = ApiLimited).
Proof.
  split_and!; try (by vm_compute).
  eexists. split; [vm_compute; reflexivity|]. by vm_compute.
Qed.

(** C5 as amended, on an already-signed answer for alice, whose entry of
    today is in the cache file. *)
Lemma C5_witness :
  cached_entries mixed_cache !! alice = Some todays_entry
  ∧ get todays_entry (str "date") = Some (JStr (today E_400))
  ∧ alice ≠ proto_key
  ∧ ∃ o, (processSignResult E_400 alice (Answered 400 already_body) mixed_cache).1
         = Some o
         ∧ success o = true ∧ dataSource o = Cache
         ∧ details o
           = sign_ok ++ [10%N] ++ total_days ++ str "10" ++ days_nl
             ++ got_traffic ++ str "50" ++ mb_nl ++ total_traffic_colon ++ str "500"
             ++ mb.
Proof.
  assert (cached_entries mixed_cache !! alice = Some todays_entry) as Hk
    by (vm_compute; reflexivity).
  assert (get todays_entry (str "date") = Some (JStr (today E_400))) as Hdate
    by reflexivity.
  assert (alice ≠ proto_key) as Hne by discriminate.
  assert (get already_body (str "data") = Some already_data) as Hd by reflexivity.
  assert (get already_data (str "sign_status") = Some (JBool true)) as Hs by reflexivity.
  assert (400 ≠ 200
          ∨ is_number (get already_data (str "get_traffic")) = false
          ∨ is_number (get already_data (str "total_traffic")) = false) as Hnot
    by (left; lia).
  pose proof (C5_already_signed_served_from_cache E_400 alice 400 already_body
                already_data todays_entry sign_ok (str "10") (str "50") (str "500")
                mixed_cache Hk Hdate Hne Hd Hs Hnot eq_refl eq_refl eq_refl eq_refl) as H.
  cbv zeta in H. destruct H as [(o & Ho & _ & Hsucc & _ & Hsrc & _ & Hdetails) _].
  split_and!; try assumption.
  exists o. split_and!; assumption.
Defined.

(** An already-signed answer whose message cannot be printed, without a
    cache file: [processSignResult] throws. And an answer for alice when the
    cache file has no entry for her but one of today under [__proto__] that
    holds one: the outcome is served from it. *)
Lemma C6_counterexample :
  (cached_entries no_cache !! alice = None
   ∧ get odd_already_body (str "data") = Some odd_already_data
   ∧ get odd_already_data (str "sign_status") = Some (JBool true)
   ∧ is_number (get odd_already_data (str "get_traffic")) = false
   ∧ (processSignResult E_400 alice (Answered 400 odd_already_body) no_cache).1 = None)
  ∧ (cached_entries heir_cache !! alice = None
     ∧ ∃ o, (processSignResult E_400 alice (Answered 400 already_body) heir_cache).1
            = Some o
            ∧ dataSource o = Cache).
Proof.
  split_and!; try (by vm_compute).
  eexists. split; [vm_compute; reflexivity|]. by vm_compute.
Qed.

(** C6 as amended, on the answer for alice when the cache file has only
    an entry of yesterday for her. *)
Lemma C6_witness :
  cached_entries stale_cache !! alice = Some yesterdays_entry
  ∧ get yesterdays_entry (str "date") ≠ Some (JStr (today E_400))
  ∧ cached_entries stale_cache !! proto_key = None
  ∧ ∃ o, (processSignResult E_400 alice (Answered 400 already_body) stale_cache).1
         = Some o
         ∧ success o = true ∧ dataSource o = ApiLimited
         ∧ details o
           = already_signed ++ [10%N] ++ total_days ++ str "10" ++ days_nl
             ++ traffic_needs_first_sign.
Proof.
  assert (cached_entries stale_cache !! alice = Some yesterdays_entry) as Hk
    by (vm_compute; reflexivity).
  assert (get yesterdays_entry (str "date") ≠ Some (JStr (today E_400))) as Hold
    by (vm_compute; discriminate).
  assert (cached_entries stale_cache !! proto_key = None) as Hp
    by (vm_compute; reflexivity).
  assert (∀ entry, cached_entries stale_cache !! alice = Some entry →
            get entry (str "date") ≠ Some (JStr (today E_400))) as Hnone.
  { intros entry Hentry. rewrite Hk in Hentry.
    injection Hentry as <-. exact Hold. }
  assert (∀ entry, cached_entries stale_cache !! proto_key = Some entry →
            get entry (str "date") ≠ Some (JStr (today E_400))) as Hproto.
  { intros entry Hentry. rewrite Hp in Hentry. discriminate Hentry. }
  assert (get already_body (str "data") = Some already_data) as Hd by reflexivity.
  assert (get already_data (str "sign_status") = Some (JBool true)) as Hs by reflexivity.
  assert (400 ≠ 200
          ∨ is_number (get already_data (str "get_traffic")) = false
          ∨ is_number (get already_data (str "total_traffic")) = false) as Hnot
    by (left; lia).
  pose proof (C6_already_signed_without_cache E_400 alice 400 already_body
                already_data already_signed (str "10") stale_cache Hnone Hproto Hd Hs
                Hnot eq_refl eq_refl) as H.
  cbv zeta in H. destruct H as (o & Ho & _ & Hsucc & _ & Hsrc & _ & Hdetails).
  split_and!; try assumption.
  exists o. split_and!; assumption.
Defined.

(** A cache file with [1e999] in the entry of today for alice and an
    entry of the day before for bob: the first [readCache] returns the entry
    with the infinity and rewrites the file, the second returns it with
    [null]. The two calls do not return the same entries. *)
Lemma C7_counterexample :
  own (readCache E_number infinite_cache).1 !! alice = Some infinite_entry
  ∧ own (readCache E_number (readCache E_number infinite_cache).2).1 !! alice
    = Some null_entry
  ∧ own (readCache E_number (readCache E_number infinite_cache).2).1
    ≠ own (readCache E_number infinite_cache).1.
Proof.
  assert (own (readCache E_number infinite_cache).1 !! alice = Some infinite_entry)
    as H1 by (vm_compute; reflexivity).
  assert (own (readCache E_number (readCache E_number infinite_cache).2).1 !! alice
          = Some null_entry) as H2 by (vm_compute; reflexivity).
  split; [exact H1|]. split; [exact H2|].
  intros Heq. rewrite Heq, H1 in H2. vm_compute in H2. discriminate H2.
Qed.

(** C7 as amended, on a cache file with entries of today and of
    yesterday. *)
Lemma C7_witness :
  own (readCache E_one mixed_cache).1 !! alice = Some todays_entry
  ∧ get todays_entry (str "date") = Some (JStr (today E_one))
  ∧ own (readCache E_one mixed_cache).1 !! bob = None
  ∧ (∀ k entry, own (readCache E_one mixed_cache).1 !! k = Some entry →
       written entry = entry)
  ∧ own (readCache E_one (readCache E_one mixed_cache).2).1
    = own (readCache E_one mixed_cache).1
  ∧ (readCache E_one (readCache E_one mixed_cache).2).2 = (readCache E_one mixed_cache).2.
Proof.
  pose proof (C7_readCache_purges_and_is_idempotent E_one mixed_cache) as H.
  cbv zeta in H. destruct H as (Hdated & _ & Hstate & _ & _ & Hidem).
  assert (own (readCache E_one mixed_cache).1 !! alice = Some todays_entry) as Hk
    by (vm_compute; reflexivity).
  assert (∀ k entry, own (readCache E_one mixed_cache).1 !! k = Some entry →
            written entry = entry) as Hstable.
  { intros k entry Hentry.
    assert (own (readCache E_one mixed_cache).1
            = list_to_map [ (alice, todays_entry); (carol, todays_entry) ]) as Hown
      by (vm_compute; reflexivity).
    rewrite Hown in Hentry.
    apply elem_of_list_to_map_2 in Hentry.
    apply list_elem_of_In in Hentry. simpl in Hentry.
    destruct Hentry as [[= _ <-] | [[= _ <-] | []]]; vm_compute; reflexivity. }
  split; [exact Hk|]. split; [exact (Hdated alice todays_entry Hk)|].
  split; [vm_compute; reflexivity|]. split; [exact Hstable|].
  split; [exact (Hidem Hstable)|exact Hstate].
Defined.

(** A cache file with [1e999] in the entry of today for alice and an
    entry of the day before for bob, and an answer with status 400 that says
    already signed in: the purge inside [getFromCache] rewrites the file, and
    the entry of alice in it has changed. *)
Lemma C9_counterexample :
  cached_entries infinite_cache !! alice = Some infinite_entry
  ∧ cached_entries
      (processSignResult E_number alice (Answered 400 bare_already_body)
         infinite_cache).2 !! alice = Some null_entry
  ∧ null_entry ≠ infinite_entry.
Proof.
  split_and!; by vm_compute.
Qed.

(** C9 as amended, on a complete first sign-in body answered with
    status 400, and with status 200. *)
Lemma C9_witness :
  (∀ o, (processSignResult E_400 alice (Answered 400 first_sign_body) mixed_cache).1
        = Some o → isFirstSign o = false)
  ∧ (∃ o, (processSignResult E_400 alice (Answered 400 first_sign_body) mixed_cache).1
          = Some o)
  ∧ (processSignResult E_400 alice (Answered 400 first_sign_body) mixed_cache).2
    = (readCache E_400 mixed_cache).2
  ∧ cached_entries
      (processSignResult E_400 alice (Answered 400 first_sign_body) mixed_cache).2
      !! bob = None
  ∧ ∃ o data signData g t,
      (processSignResult E_one alice (Answered 200 first_sign_body) no_cache).1 = Some o
      ∧ isFirstSign o = true
      ∧ Answered 200 first_sign_body = Answered 200 data
      ∧ get data (str "data") = Some signData
      ∧ get signData (str "sign_status") = Some (JBool true)
      ∧ get signData (str "get_traffic") = Some (JNum g)
      ∧ get signData (str "total_traffic") = Some (JNum t).
Proof.
  pose proof (C9_first_sign_only_from_complete_200 E_400 alice
                (Answered 400 first_sign_body) mixed_cache) as H400.
  pose proof (C9_first_sign_only_from_complete_200 E_one alice
                (Answered 200 first_sign_body) no_cache) as H200.
  cbv zeta in H400, H200.
  destruct H400 as (_ & _ & H400). destruct H200 as (H200 & _ & _).
  destruct (H400 first_sign_body eq_refl) as (Hno & Hstate & Hframe).
  split; [exact Hno|]. split; [eexists; vm_compute; reflexivity|].
  split.
  { destruct Hstate as [Hsame | Hpurged]; [|exact Hpurged].
    exfalso. apply (f_equal trace) in Hsame. vm_compute in Hsame. discriminate Hsame. }
  split; [vm_compute; reflexivity|].
  assert (∃ o, (processSignResult E_one alice (Answered 200 first_sign_body) no_cache).1
               = Some o ∧ isFirstSign o = true) as (o & Ho & Hyes)
    by (eexists; split; vm_compute; reflexivity).
  destruct (H200 o Ho Hyes) as (data & signData & g & t & Hshape).
  exists o, data, signData, g, t. split; [exact Ho|]. split; [exact Hyes|exact Hshape].
Defined.

(** A cache file whose one entry, dated today, is under [__proto__]:
    [readCache] returns an object without it and rewrites the file without
    it. And the file with [1e999] in the entry of today for alice: the
    rewritten file holds [null] in its place. *)
Lemma C10_counterexample :
  (cached_entries proto_cache !! proto_key = Some todays_entry
   ∧ get todays_entry (str "date") = Some (JStr (today E_one))
   ∧ own (readCache E_one proto_cache).1 !! proto_key = None
   ∧ cache_file (readCache E_one proto_cache).2 = FileJson (JObj ∅))
  ∧ (cached_entries infinite_cache !! alice = Some infinite_entry
     ∧ get infinite_entry (str "date") = Some (JStr (today E_number))
     ∧ cached_entries (readCache E_number infinite_cache).2 !! alice = Some null_entry
     ∧ null_entry ≠ infinite_entry).
Proof.
  split_and!; by vm_compute.
Qed.

(** C10 as amended, on the entry of carol, who is not in the account
    list. *)
Lemma C10_witness :
  getUserList E_bob_only = [bob]
  ∧ cached_entries mixed_cache !! carol = Some todays_entry
  ∧ get todays_entry (str "date") = Some (JStr (today E_bob_only))
  ∧ carol ≠ proto_key
  ∧ own (readCache E_bob_only mixed_cache).1 !! carol = Some todays_entry
  ∧ cached_entries (readCache E_bob_only mixed_cache).2 !! carol = Some todays_entry
  ∧ readCache E_one mixed_cache = readCache E_bob_only mixed_cache.
Proof.
  destruct (C10_readCache_keeps_todays_entries E_bob_only mixed_cache) as [Hkeep Hsame].
  assert (cached_entries mixed_cache !! carol = Some todays_entry) as Hk
    by (vm_compute; reflexivity).
  assert (get todays_entry (str "date") = Some (JStr (today E_bob_only))) as Hdate
    by reflexivity.
  assert (carol ≠ proto_key) as Hne by discriminate.
  destruct (Hkeep carol todays_entry Hk Hdate Hne) as [Hret Hfile].
  assert (written todays_entry = todays_entry) as Hstable by (vm_compute; reflexivity).
  rewrite Hstable in Hfile.
  split; [vm_compute; reflexivity|]. split; [exact Hk|]. split; [exact Hdate|].
  split; [exact Hne|]. split; [exact Hret|].
  split; [by destruct Hfile|].
  exact (Hsame E_one eq_refl eq_refl).
Defined.

(** C4 with no channel configured, and with two channels of which one
    delivers. *)
Lemma C4_witness :
  SendNotify.no_channel_configured (SendNotify.env R_none)
  ∧ (∃ tr, SendNotify.sendNotify R_none alice bob = (tr, SendNotify.Returned false)
           ∧ ∀ q ok, SendNotify.Post q ok ∉ tr)
  ∧ ∃ tr q1 q2,
      SendNotify.sendNotify R_two alice bob = (tr, SendNotify.Returned true)
      ∧ SendNotify.url q1 = wechat_url ∧ SendNotify.Post q1 false ∈ tr
      ∧ SendNotify.url q2 = feishu_url ∧ SendNotify.Post q2 true ∈ tr.
Proof.
  assert (SendNotify.no_channel_configured (SendNotify.env R_none)) as Hnone
    by (vm_compute; repeat split).
  split; [exact Hnone|]. split.
  - destruct (C4_sendNotify_true_iff_delivered R_none alice bob)
      as (tr & b & Heq & _ & Hoff & _).
    destruct (Hoff Hnone) as [-> Hposts]. exists tr. split; [exact Heq|exact Hposts].
  - destruct (C4_sendNotify_true_iff_delivered R_two alice bob)
      as (tr & b & Heq & _ & _ & Hmixed & _).
    assert (tr = (SendNotify.sendNotify R_two alice bob).1) as Htr
      by (rewrite Heq; reflexivity).
    set (text := SendNotify.PStr (alice ++ [10%N; 10%N] ++ bob)).
    set (q1 := {| SendNotify.url := wechat_url;
                  SendNotify.body :=
                    SendNotify.PObj [ (str "msgtype", SendNotify.PStr (str "text"));
                                      (str "text", SendNotify.PObj [ (str "content", text) ]) ];
                  SendNotify.timeout := SendNotify.NOTIFY_timeout |}).
    set (q2 := {| SendNotify.url := feishu_url;
                  SendNotify.body :=
                    SendNotify.PObj [ (str "msg_type", SendNotify.PStr (str "text"));
                                      (str "content", SendNotify.PObj [ (str "text", text) ]) ];
                  SendNotify.timeout := SendNotify.NOTIFY_timeout |}).
    assert (SendNotify.Post q1 false ∈ tr) as H1.
    { rewrite Htr. vm_compute. do 4 right. left. }
    assert (SendNotify.Post q2 true ∈ tr) as H2.
    { rewrite Htr. vm_compute. do 8 right. left. }
    exists tr, q1, q2. rewrite Heq, (Hmixed q1 q2 H1 H2).
    split; [reflexivity|]. split; [reflexivity|]. split; [exact H1|].
    split; [reflexivity|exact H2].
Defined.

(** C8 on a body of 4001 units, with WeChat Work and Feishu configured:
    both are sent the title, an empty line and the body cut to 4014
    units. *)
Lemma C8_witness :
  (4000 < js_length long_body)%N
  ∧ SendNotify.unset (SendNotify.WW_BOT_KEY (SendNotify.env R_two)) = false
  ∧ SendNotify.unset (SendNotify.FEISHU_BOT_TOKEN (SendNotify.env R_two)) = false
  ∧ js_length (substring0 4000%N long_body ++ SendNotify.truncated_marker) = 4014%N
  ∧ invoked (SendNotify.sendNotify R_two alice long_body).1
    = [SendNotify.name_serverchan; str "Telegram"; SendNotify.name_dingtalk;
       SendNotify.name_wechat; str "Bark"; str "PushPlus"; SendNotify.name_feishu]
  ∧ (∀ n t c,
       SendNotify.Invoke n t c ∈ (SendNotify.sendNotify R_two alice long_body).1 →
       t = alice ∧ c = substring0 4000%N long_body ++ SendNotify.truncated_marker)
  ∧ posts_body (SendNotify.sendNotify R_two alice long_body).1
      (SendNotify.PObj
         [ (str "msgtype", SendNotify.PStr (str "text"));
           (str "text",
            SendNotify.PObj
              [ (str "content",
                 SendNotify.PStr (alice ++ [10%N; 10%N] ++ substring0 4000%N long_body
                                  ++ SendNotify.truncated_marker)) ]) ])
  ∧ posts_body (SendNotify.sendNotify R_two alice long_body).1
      (SendNotify.PObj
         [ (str "msg_type", SendNotify.PStr (str "text"));
           (str "content",
            SendNotify.PObj
              [ (str "text",
                 SendNotify.PStr (alice ++ [10%N; 10%N] ++ substring0 4000%N long_body
                                  ++ SendNotify.truncated_marker)) ]) ]).
Proof.
  assert (4000 < js_length long_body)%N as Hlen by (vm_compute; reflexivity).
  pose proof (C8_sendNotify_truncates_once R_two alice long_body Hlen) as H.
  cbv zeta in H.
  destruct H as (Hsize & Htrace & Hsame & _ & _ & _ & Hwechat & _ & _ & Hfeishu).
  split; [exact Hlen|]. split; [reflexivity|]. split; [reflexivity|].
  split; [exact Hsize|]. split; [rewrite Htrace; vm_compute; reflexivity|].
  split; [exact Hsame|]. split; [exact (Hwechat eq_refl)|exact (Hfeishu eq_refl)].
Defined.

(** The example of the specification: the list [alice&bob], a first sign-in
    for alice and an unknown account for bob. The report counts two accounts,
    one success and one failure, and shows the traffic alice got and the
    message for bob. *)
Example report_alice_and_bob :
  ∃ results σ',
    main E_alice_bob no_cache
    = delay 1000%N
        (emit (Notify notify_title (finalMessage (formatNotifyMessage E_alice_bob results)))
              σ')
    ∧ (success <$> results) = [true; false]
    ∧ includes (formatNotifyMessage E_alice_bob results)
               (total_accounts ++ str "2" ++ count_nl) = true
    ∧ includes (formatNotifyMessage E_alice_bob results)
               (signed_accounts ++ str "1" ++ count_nl) = true
    ∧ includes (formatNotifyMessage E_alice_bob results)
               (failed_accounts ++ str "1" ++ count_nl) = true
    ∧ includes (formatNotifyMessage E_alice_bob results)
               (got_traffic ++ str "50" ++ mb_nl) = true
    ∧ includes (formatNotifyMessage E_alice_bob results)
               (status_prefix ++ no_such_user ++ [10%N]) = true.
Proof.
  exists (sign_all E_alice_bob (getUserList E_alice_bob)
            (readCache E_alice_bob no_cache).2).1,
         (sign_all E_alice_bob (getUserList E_alice_bob)
            (readCache E_alice_bob no_cache).2).2.
  split_and!; by vm_compute.
Qed.
End sample_runs.

(** * The further properties on sample runs *)

Section further_sample_runs.
Import JS YbtSign Reading Samples MoreSamples.

Lemma clean_name_check (u : jsstring) :
  u ≠ [] → forallb (fun c => negb (newline_or_amp c)) u = true → trim u = u →
  clean_name u.
Proof.
  intros Hne Hall Htrim. split_and!; [done| |done].
  intros c Hc. rewrite forallb_forall in Hall.
  apply negb_true_iff, Hall. by apply list_elem_of_In.
Qed.

(** X1 on a sample: bob, the second name of the list [alice&bob], is clean. *)
Lemma getUserList_names_are_clean_witness :
  bob ∈ getUserList E_alice_bob ∧ clean_name bob.
Proof.
  assert (bob ∈ getUserList E_alice_bob) as Hin by (vm_compute; right; left).
  split; [exact Hin|].
  exact (getUserList_names_are_clean E_alice_bob bob Hin).
Defined.

(** X2 on a sample: the list [alice&bob] is read back as alice and bob. *)
Lemma getUserList_join_names_witness :
  Forall clean_name [alice; bob]
  ∧ YBT_USERS E_alice_bob = Some (join_names 38%N [alice; bob])
  ∧ getUserList E_alice_bob = [alice; bob].
Proof.
  assert (Forall clean_name [alice; bob]) as Hclean.
  { repeat constructor; apply clean_name_check; (discriminate || reflexivity). }
  split; [exact Hclean|]. split; [reflexivity|].
  apply (getUserList_join_names E_alice_bob 38%N [alice; bob]);
    [right; reflexivity|discriminate|exact Hclean|reflexivity].
Defined.

(** X3 on a sample: a list of one blank, an ampersand and one blank names no account, and
    the run ends where it began. *)
Lemma main_without_accounts_witness :
  YBT_USERS E_blank = Some (str " & ")
  ∧ getUserList E_blank = []
  ∧ main E_blank no_cache = no_cache.
Proof.
  destruct (main_without_accounts E_blank no_cache) as [Hiff Hmain].
  assert (getUserList E_blank = []) as Hnone.
  { apply Hiff. right. exists (str " & "). split; [reflexivity|].
    intros c Hc. apply list_elem_of_In in Hc. simpl in Hc.
    destruct Hc as [<- | [<- | [<- | []]]];
      [left; reflexivity|right; reflexivity|left; reflexivity]. }
  split; [reflexivity|]. split; [exact Hnone|exact (Hmain Hnone)].
Defined.

(** X4 on a sample: two timeouts and then an answer: two retries, three requests, and the
    answer of the third request is the result. *)
Lemma performSign_outcome_witness :
  (performSign E_flaky alice 0 no_cache).2
  = {| cache_file := FileMissing; sent := 3; trace := attempts alice 2 |}
  ∧ caught E_flaky 0 alice = Some timeout_error
  ∧ caught E_flaky 1 alice = Some timeout_error
  ∧ (performSign E_flaky alice 0 no_cache).1 = Answered 200 first_sign_body.
Proof.
  destruct (performSign_outcome E_flaky alice no_cache)
    as (retries & Hle & Hstate & Hcaught & Hresult).
  assert (sent (performSign E_flaky alice 0 no_cache).2 = 3) as Hsent
    by (vm_compute; reflexivity).
  rewrite Hstate in Hsent. cbn [sent no_cache state_with] in Hsent.
  assert (retries = 2) as -> by lia.
  split; [exact Hstate|].
  destruct (Hcaught 0 ltac:(lia)) as (e0 & He0 & _).
  destruct (Hcaught 1 ltac:(lia)) as (e1 & He1 & _).
  assert (e0 = timeout_error) as ->
    by (change (Some timeout_error = Some e0) in He0; congruence).
  assert (e1 = timeout_error) as ->
    by (change (Some timeout_error = Some e1) in He1; congruence).
  split; [exact He0|]. split; [exact He1|].
  destruct (performSign E_flaky alice 0 no_cache).1 as [status data|error code].
  - destruct Hresult as [Hup _].
    change (Response 200 first_sign_body = Response status data) in Hup. congruence.
  - destruct Hresult as (e & He & _). vm_compute in He. discriminate.
Defined.

(** X5 on a sample: a first sign-in of alice: the outcome is a success from the service
    with the message of a sign-in. *)
Lemma processSignResult_outcome_shape_witness :
  ∃ o, (processSignResult E_one alice (Answered 200 first_sign_body) no_cache).1 = Some o
       ∧ dataSource o = Api
       ∧ username o = alice ∧ success o = true ∧ isFirstSign o = true
       ∧ message o = sign_ok ∧ details o ≠ [].
Proof.
  assert (∃ o, (processSignResult E_one alice (Answered 200 first_sign_body) no_cache).1
               = Some o ∧ dataSource o = Api) as (o & Ho & Hsource)
    by (eexists; split; vm_compute; reflexivity).
  destruct (processSignResult_outcome_shape E_one alice (Answered 200 first_sign_body)
              no_cache o Ho) as (Hname & Hsuccess & Hfirst & Hmessage & _ & Hdetails).
  exists o. split; [exact Ho|]. split; [exact Hsource|]. split; [exact Hname|].
  split; [apply Hsuccess; rewrite Hsource; discriminate|].
  split; [apply Hfirst; exact Hsource|].
  split; [exact (Hmessage Hsource)|exact Hdetails].
Defined.

(** X6 on a sample: a first sign-in of alice over a cache file with an entry of the day
    before: one request counter, at most two writes, and every entry of the
    file written is of today. *)
Lemma processSignResult_frame_witness :
  let σ' := (processSignResult E_one alice (Answered 200 first_sign_body) mixed_cache).2 in
  cache_file σ' ≠ cache_file mixed_cache
  ∧ sent σ' = 0
  ∧ (∃ n, n ≤ 2 ∧ trace σ' = replicate n WriteCache)
  ∧ ∃ m, cache_file σ' = FileJson (JObj m)
         ∧ ∀ k entry, m !! k = Some entry → get entry (str "date") = Some (JStr day).
Proof.
  intros σ'.
  destruct (processSignResult_frame E_one alice (Answered 200 first_sign_body) mixed_cache)
    as (Hsent & Htrace & _ & Hfile).
  fold σ' in Hsent, Htrace, Hfile.
  assert (cache_file σ' ≠ cache_file mixed_cache) as Hchanged.
  { intros Heq. apply (f_equal (fun f => match f with
                                         | FileJson cache => get cache bob
                                         | _ => None
                                         end)) in Heq.
    vm_compute in Heq. discriminate. }
  split; [exact Hchanged|]. split; [exact Hsent|]. split; [exact Htrace|].
  destruct Hfile as [Hsame | Hnew]; [contradiction|exact Hnew].
Defined.

(** X7 on a sample: alice signs in and asks again: the second answer, status 400 without
    traffic fields, shows the details of the first. *)
Lemma repeat_sign_shows_first_details_witness :
  get first_sign_body (str "data") = Some first_sign_data
  ∧ get already_body (str "data") = Some already_data
  ∧ get already_data (str "sign_status") = Some (JBool true)
  ∧ alice ≠ proto_key
  ∧ written (cache_entry E_one first_sign_data) = cache_entry E_one first_sign_data
  ∧ let first := processSignResult E_one alice (Answered 200 first_sign_body) no_cache in
    let again := (processSignResult E_one alice (Answered 400 already_body) first.2).1 in
    ∃ o o', first.1 = Some o ∧ again = Some o'
            ∧ dataSource o' = Cache ∧ success o' = true ∧ isFirstSign o' = false
            ∧ details o' = details o.
Proof.
  assert (alice ≠ proto_key) as Hne by discriminate.
  assert (written (cache_entry E_one first_sign_data) = cache_entry E_one first_sign_data)
    as Hstable by (vm_compute; reflexivity).
  split; [reflexivity|]. split; [reflexivity|]. split; [reflexivity|].
  split; [exact Hne|]. split; [exact Hstable|].
  assert (get first_sign_body (str "data") = Some first_sign_data) as Hd
    by reflexivity.
  assert (get first_sign_data (str "sign_status") = Some (JBool true)) as Hs
    by reflexivity.
  assert (get first_sign_data (str "get_traffic") = Some (JNum 50%Z)) as Hg
    by reflexivity.
  assert (get first_sign_data (str "total_traffic") = Some (JNum 500%Z)) as Ht
    by reflexivity.
  assert (cache_writable E_one = true) as Hw by reflexivity.
  assert (get already_body (str "data") = Some already_data) as Hd' by reflexivity.
  assert (get already_data (str "sign_status") = Some (JBool true)) as Hs'
    by reflexivity.
  assert (400 ≠ 200
          ∨ is_number (get already_data (str "get_traffic")) = false
          ∨ is_number (get already_data (str "total_traffic")) = false) as Hnot
    by (left; lia).
  pose proof (repeat_sign_shows_first_details E_one alice first_sign_body
                first_sign_data 50%Z 500%Z 400 already_body already_data no_cache
                Hd Hs Hg Ht Hw Hne Hstable Hd' Hs' Hnot) as Hrepeat.
  cbv zeta in Hrepeat |- *.
  assert (∃ o, (processSignResult E_one alice (Answered 200 first_sign_body) no_cache).1
               = Some o) as [o Ho] by (eexists; vm_compute; reflexivity).
  destruct (Hrepeat o Ho) as (o' & Ho' & Hshape).
  exists o, o'. split; [exact Ho|]. split; [exact Ho'|exact Hshape].
Defined.

(** X8 on a sample: a first sign-in of alice leaves the entry of today of carol in the
    cache file and drops the entry of the day before of bob. *)
Lemma first_sign_keeps_other_accounts_witness :
  cached_entries mixed_cache !! carol = Some todays_entry
  ∧ cached_entries mixed_cache !! bob = Some yesterdays_entry
  ∧ written todays_entry = todays_entry
  ∧ cached_entries
      (processSignResult E_one alice (Answered 200 first_sign_body) mixed_cache).2
      !! carol = Some todays_entry
  ∧ cached_entries
      (processSignResult E_one alice (Answered 200 first_sign_body) mixed_cache).2
      !! bob = None.
Proof.
  assert (cached_entries mixed_cache !! carol = Some todays_entry) as Hcarol
    by (vm_compute; reflexivity).
  assert (cached_entries mixed_cache !! bob = Some yesterdays_entry) as Hbob
    by (vm_compute; reflexivity).
  assert (written todays_entry = todays_entry) as Hstable by (vm_compute; reflexivity).
  split; [exact Hcarol|]. split; [exact Hbob|]. split; [exact Hstable|]. split.
  - apply (first_sign_keeps_other_accounts E_one alice first_sign_body first_sign_data
             50%Z 500%Z mixed_cache carol todays_entry);
      try reflexivity; [discriminate|].
    split; [discriminate|]. exists todays_entry.
    split; [exact Hcarol|]. split; [reflexivity|]. symmetry. exact Hstable.
  - destruct (cached_entries
                (processSignResult E_one alice (Answered 200 first_sign_body)
                   mixed_cache).2 !! bob) as [entry'|] eqn:Hkept; [|reflexivity].
    apply (first_sign_keeps_other_accounts E_one alice first_sign_body first_sign_data
             50%Z 500%Z mixed_cache bob entry') in Hkept;
      try reflexivity; [|discriminate].
    destruct Hkept as [_ (entry & Hentry & Hdate & _)].
    rewrite Hbob in Hentry. injection Hentry as <-.
    vm_compute in Hdate. discriminate Hdate.
Defined.

(** X9 on a sample: the answer for an unknown account, for bob. *)
Lemma processSignResult_unknown_account_witness :
  get unknown_body (str "message") = Some (JStr no_such_user)
  ∧ get unknown_body (str "data") = None
  ∧ processSignResult E_alice_bob bob (Answered 400 unknown_body) no_cache
    = (Some {| username := bob; success := false; message := no_such_user;
               details := check_username; isFirstSign := false; dataSource := Error |},
       no_cache).
Proof.
  split; [reflexivity|]. split; [reflexivity|].
  apply (processSignResult_unknown_account E_alice_bob bob 400 unknown_body no_cache);
    [reflexivity|].
  intros signData Hdata. discriminate.
Defined.


(** X11 on a sample: a report of 1501 units is cut to 1414 units. *)
Lemma finalMessage_length_witness :
  (1500 < js_length long_report)%N
  ∧ finalMessage long_report = take 1400 long_report ++ truncated_marker
  ∧ js_length (finalMessage long_report) = 1414%N.
Proof.
  assert (1500 < js_length long_report)%N as Hlong by (vm_compute; reflexivity).
  split; [exact Hlong|].
  destruct (finalMessage_length long_report) as (_ & _ & Hcut).
  exact (Hcut Hlong).
Defined.

(** X12 on a sample: with WeChat Work and Feishu configured, the seven channels are called
    in order and two requests are made, each with the timeout of ten
    seconds. *)
Lemma sendNotify_calls_and_requests_witness :
  ¬ (alice = [] ∧ bob = [])
  ∧ invoked (SendNotify.sendNotify R_two alice bob).1
    = [SendNotify.name_serverchan; str "Telegram"; SendNotify.name_dingtalk;
       SendNotify.name_wechat; str "Bark"; str "PushPlus"; SendNotify.name_feishu]
  ∧ SendNotify.url <$> posted (SendNotify.sendNotify R_two alice bob).1
    = [wechat_url; feishu_url]
  ∧ Forall (fun q => SendNotify.timeout q = 10000%N)
           (posted (SendNotify.sendNotify R_two alice bob).1).
Proof.
  assert (¬ (alice = [] ∧ bob = [])) as Hnot by (intros [Ha _]; discriminate Ha).
  destruct (sendNotify_calls_and_requests R_two alice bob) as (_ & Hcalls & _ & Htimed).
  split; [exact Hnot|]. split; [exact (Hcalls Hnot)|].
  split; [vm_compute; reflexivity|exact Htimed].
Defined.

(** X13 on a sample: a short content under an empty title reaches Feishu as it is, under
    the default title. *)
Lemma sendNotify_short_content_unchanged_witness :
  (js_length alice <= 4000)%N
  ∧ SendNotify.Invoke SendNotify.name_feishu SendNotify.default_title alice
      ∈ (SendNotify.sendNotify R_two [] alice).1
  ∧ SendNotify.default_title
    = (if bool_decide ([] = [] :> jsstring) then SendNotify.default_title else []).
Proof.
  assert (js_length alice <= 4000)%N as Hshort by (vm_compute; discriminate).
  assert (SendNotify.Invoke SendNotify.name_feishu SendNotify.default_title alice
            ∈ (SendNotify.sendNotify R_two [] alice).1) as Hin
    by (vm_compute; do 7 right; left).
  split; [exact Hshort|]. split; [exact Hin|].
  exact (proj2 (sendNotify_short_content_unchanged R_two [] alice SendNotify.name_feishu
                  SendNotify.default_title alice Hshort Hin)).
Defined.

(** X14 on a sample: the report of 1501 units, cut by [main], reaches Feishu as cut. *)
Lemma main_message_reaches_channels_uncut_witness :
  ∃ t c,
    SendNotify.Invoke SendNotify.name_feishu t c
      ∈ (SendNotify.sendNotify R_two YbtSign.notify_title
           (YbtSign.finalMessage long_report)).1
    ∧ t = YbtSign.notify_title ∧ c = YbtSign.finalMessage long_report.
Proof.
  assert (SendNotify.Invoke SendNotify.name_feishu YbtSign.notify_title
            (YbtSign.finalMessage long_report)
            ∈ (SendNotify.sendNotify R_two YbtSign.notify_title
                 (YbtSign.finalMessage long_report)).1) as Hin
    by (vm_compute; do 7 right; left).
  exists YbtSign.notify_title, (YbtSign.finalMessage long_report).
  split; [exact Hin|].
  exact (main_message_reaches_channels_uncut R_two long_report SendNotify.name_feishu
           YbtSign.notify_title (YbtSign.finalMessage long_report) Hin).
Defined.

(** X15 on a sample: the content [a\nb] goes to PushPlus as [a<br>b]. *)
Lemma pushPlusNotify_content_has_no_newline_witness :
  SendNotify.Post pushplus_request false
    ∈ (SendNotify.pushPlusNotify R_pushplus (str "t") [97; 10; 98]%N).1
  ∧ ∃ sent_content,
      SendNotify.body pushplus_request
      = SendNotify.PObj [ (str "token", SendNotify.PStr (str "pptoken"));
                          (str "title", SendNotify.PStr (str "t"));
                          (str "content", SendNotify.PStr sent_content);
                          (str "template", SendNotify.PStr (str "html")) ]
      ∧ (10%N ∉ sent_content).
Proof.
  assert (SendNotify.Post pushplus_request false
            ∈ (SendNotify.pushPlusNotify R_pushplus (str "t") [97; 10; 98]%N).1) as Hin
    by (vm_compute; left).
  split; [exact Hin|].
  destruct (pushPlusNotify_content_has_no_newline R_pushplus (str "t") [97; 10; 98]%N
              pushplus_request false Hin) as (_ & sent_content & Hbody & Hnone & _).
  exists sent_content. split; [exact Hbody|exact Hnone].
Defined.

(** X16 on a sample: with a device key for Bark, the request goes to [api.day.app] with
    title and content in the address. *)
Lemma barkNotify_request_witness :
  SendNotify.unset (SendNotify.BARK_PUSH (SendNotify.env R_bark)) = false
  ∧ SendNotify.barkNotify R_bark alice bob
    = ([SendNotify.Post {| SendNotify.url := str "https://api.day.app/devicekey/alice/bob";
                           SendNotify.body := SendNotify.PObj [];
                           SendNotify.timeout := 10000%N |} false],
       SendNotify.Returned false).
Proof.
  split; [reflexivity|].
  exact (barkNotify_request R_bark alice bob eq_refl).
Defined.

(** X17 on a sample: the panel answers at the second address: two requests and no
    fall-back. *)
Lemma sendQLNotify_stops_at_first_panel_witness :
  YbtSignPlain.possibleUrls !! 1 = Some second_url
  ∧ YbtSignPlain.accepted (panel_second second_url alice bob)
  ∧ YbtSignPlain.sendQLNotify panel_second R_two alice bob
    = (true,
       [ YbtSignPlain.Put (str "http://localhost:5700/notify") alice bob None;
         YbtSignPlain.Put second_url alice bob (Some 200) ]).
Proof.
  assert (YbtSignPlain.accepted (panel_second second_url alice bob)) as Hok
    by (left; reflexivity).
  split; [reflexivity|]. split; [exact Hok|].
  apply (sendQLNotify_stops_at_first_panel panel_second R_two alice bob 1 second_url);
    [reflexivity|exact Hok|].
  intros j url' Hj Hurl [Hbad | Hbad];
    (destruct j as [|j]; [|lia]); injection Hurl as <-; discriminate Hbad.
Defined.

(** X18 on a sample: no panel answers: six requests, and the result and the requests of
    [sendNotify] after them. *)
Lemma sendQLNotify_falls_back_witness :
  YbtSignPlain.sendQLNotify no_panel R_two alice bob
  = (true,
     ((fun url => YbtSignPlain.Put url alice bob None) <$> YbtSignPlain.possibleUrls)
     ++ (YbtSignPlain.Channel <$> (SendNotify.sendNotify R_two alice bob).1)).
Proof.
  destruct (sendQLNotify_falls_back no_panel R_two alice bob) as (result & Hresult & Hrun).
  { intros url _ [Hbad | Hbad]; discriminate Hbad. }
  assert (result = true) as -> by (vm_compute in Hresult; congruence).
  exact Hrun.
Defined.

(** X19 on a sample: an already-signed answer without a cache file: both variants report a
    success with the same message. *)
Lemma plain_and_cache_classification_witness :
  ∃ op oc,
    YbtSignPlain.processSignResult E_400 alice (YbtSign.Answered 400 already_body)
    = Some op
    ∧ (YbtSign.processSignResult E_400 alice (YbtSign.Answered 400 already_body)
         no_cache).1 = Some oc
    ∧ YbtSign.success oc = true
    ∧ YbtSignPlain.success op = true
    ∧ YbtSignPlain.message op = YbtSign.message oc.
Proof.
  assert (∃ op, YbtSignPlain.processSignResult E_400 alice
                  (YbtSign.Answered 400 already_body) = Some op) as [op Hop]
    by (eexists; vm_compute; reflexivity).
  assert (∃ oc, (YbtSign.processSignResult E_400 alice (YbtSign.Answered 400 already_body)
                   no_cache).1 = Some oc ∧ YbtSign.success oc = true) as (oc & Hoc & Hc)
    by (eexists; split; vm_compute; reflexivity).
  destruct (plain_and_cache_classification E_400 alice (YbtSign.Answered 400 already_body)
              no_cache) as (Hsuccess & Hsame & _).
  { intros status data [= <- _]. right. reflexivity. }
  cbv zeta in Hsuccess, Hsame.
  exists op, oc. split; [exact Hop|]. split; [exact Hoc|]. split; [exact Hc|].
  split; [exact (Hsuccess op oc Hop Hoc Hc)|].
  apply (Hsame ltac:(intros data; discriminate) op oc Hop Hoc).
Defined.

(** X20 on a sample: the configuration with an entry for Monday, on a Monday: the
    notification carries the title and the content of the entry. *)
Lemma validated_config_gives_notification_witness :
  WeeklyNotify.validateConfig monday_only = []
  ∧ WeeklyNotify.titlePrefix None monday_only = Some WeeklyNotify.DEFAULT_TITLE_PREFIX
  ∧ WeeklyNotify.getTodayNotification None 1 monday_only
    = WeeklyNotify.Returns (Some
        {| WeeklyNotify.title := WeeklyNotify.DEFAULT_TITLE_PREFIX ++ str " - plan";
           WeeklyNotify.content := Some (JStr (str "review the week"));
           WeeklyNotify.weekday := WeeklyNotify.getWeekdayName 1 |}).
Proof.
  assert (WeeklyNotify.validateConfig monday_only = []) as Hvalid
    by (vm_compute; reflexivity).
  assert (WeeklyNotify.titlePrefix None monday_only
          = Some WeeklyNotify.DEFAULT_TITLE_PREFIX) as Hprefix
    by (vm_compute; reflexivity).
  split; [exact Hvalid|]. split; [exact Hprefix|].
  destruct (validated_config_gives_notification None 1 monday_only
              WeeklyNotify.DEFAULT_TITLE_PREFIX Hvalid)
    as (r & notifications & Hrun & Hns & Hshape);
    [lia|intros v; discriminate|exact Hprefix|].
  rewrite Hrun. destruct r as [n|]; [|vm_compute in Hrun; discriminate].
  destruct (Hshape n eq_refl) as (Hday & _ & _ & Hentry).
  assert (notifications = JObj {[ str "1" := monday ]}) as ->
    by (vm_compute in Hns |- *; congruence).
  destruct (Hentry monday) as (t & s & _ & _ & Ht & Hs & Htitle & Hcontent);
    [vm_compute; reflexivity..|].
  assert (t = str "plan") as -> by (vm_compute in Ht |- *; congruence).
  destruct n as [title content weekday]. simpl in Hday, Htitle, Hcontent.
  subst title content weekday.
  assert (s = str "review the week") as -> by (vm_compute in Hs |- *; congruence).
  reflexivity.
Defined.

(** X21 on a sample: the same configuration on a Tuesday: the built-in message. *)
Lemma default_fallback_notification_witness :
  get monday_only (str "settings") = None
  ∧ WeeklyNotify.at_index (JObj {[ str "1" := monday ]}) 2 = None
  ∧ WeeklyNotify.titlePrefix None monday_only = Some WeeklyNotify.DEFAULT_TITLE_PREFIX
  ∧ WeeklyNotify.getTodayNotification None 2 monday_only
    = WeeklyNotify.Returns (Some
        {| WeeklyNotify.title :=
             WeeklyNotify.DEFAULT_TITLE_PREFIX ++ str " - " ++ WeeklyNotify.getWeekdayName 2;
           WeeklyNotify.content :=
             Some (JStr ([20170; 22825; 26159; 32; 21608; 20108; 65292; 31069; 20320;
                          26377; 32654; 22909; 30340; 19968; 22825; 65281; 32; 55357;
                          56842]%N));
           WeeklyNotify.weekday := [21608; 20108]%N |}).
Proof.
  split; [vm_compute; reflexivity|]. split; [vm_compute; reflexivity|].
  split; [vm_compute; reflexivity|].
  rewrite (default_fallback_notification None 2 monday_only
             WeeklyNotify.DEFAULT_TITLE_PREFIX);
    [vm_compute; reflexivity|discriminate|vm_compute; reflexivity
    |vm_compute; reflexivity|].
  intros notifications Hns _.
  assert (notifications = JObj {[ str "1" := monday ]}) as ->
    by (vm_compute in Hns |- *; congruence).
  vm_compute. reflexivity.
Defined.

(** A run in which every classification throws: the loop records the
    outcome ['处理失败'] for each account and pauses after none. *)
Example caught_accounts_are_not_followed_by_a_pause :
  message <$> (sign_all E_odd [alice; bob] no_cache).1 = [process_failed; process_failed]
  ∧ requests (trace (sign_all E_odd [alice; bob] no_cache).2) = [alice; bob]
  ∧ delays (trace (sign_all E_odd [alice; bob] no_cache).2) = [].
Proof.
  split_and!; vm_compute; reflexivity.
Qed.
End further_sample_runs.

